(** * Autonomous deployment orchestrator: a shallow embedding

    Source: [src/deployment/autonomous-deployment-orchestrator.py].

    Conventions of the embedding.
    - Python [int] values are [Z].  Python [float] values are embedded as
      exact rationals ([Q]) in the orchestrator, the risk analyzer and
      [AIDeploymentEngine]; every numeric literal of the source is a
      finite decimal and is written here with the same digits.
    - The interpreter computes with IEEE binary64 numbers.  The module
      [Binary64] re-evaluates the risk weights with them, and
      [binary64_buckets_agree] shows that the risk buckets agree with the
      exact ones.  The module [Binary64Engine] transcribes the decision
      engine a second time with binary64 arithmetic, including the
      [OverflowError] of integer operands beyond its range; the
      statements about the thresholds of the decision are made on it
      ([exact_mean_at_threshold] shows an input on which the two engines
      disagree).
    - Python dictionaries with string keys are [gmap string _]; the values
      of untyped dictionaries are [pyval].
    - Dictionaries of a fixed shape that the orchestrator returns (keyed by
      ["status"]) are constructors of [deployment_result].
    - Exceptions are the [Raise] results of the monad [M]; they are the
      instances of [Exception], which is what the [except] clauses of the
      source catch.  The state that [M] threads holds the clock advanced
      by [asyncio.sleep], the trace of the collaborator hooks that were
      invoked, and the history log.  Lines that only write to [logger]
      leave the state unchanged.
    - The methods the source marks as placeholders (metric getters,
      security providers, stage executors, realtime collector,
      business-impact assessor) are fields of [Collaborators], each given
      by the value a call returns or the exception it raises; [builtin]
      transcribes the placeholder bodies. *)

From Stdlib Require Import QArith Lqa ZArith Floats.
From stdpp Require Import gmap strings list.

Set Warnings "-inexact-float,-register-all".

(** ** Python numbers and values *)

Module Py.

Definition Qltb (a b : Q) : bool := negb (Qle_bool b a).
Definition Qgtb (a b : Q) : bool := Qltb b a.
Definition Qgeb (a b : Q) : bool := Qle_bool b a.

(** [max(a, b)]: the first argument is kept unless the second is
    strictly greater; [min(a, b)] dually. *)
Definition max (a b : Q) : Q := if Qgtb b a then b else a.
Definition min (a b : Q) : Q := if Qltb b a then b else a.

Inductive pyval : Type :=
| VNone
| VBool (b : bool)
| VInt (z : Z)
| VFloat (q : Q)
| VStr (s : string)
| VList (l : list pyval).

(** Truth value of an object, as tested by [if], [not] and [and]. *)
Definition truthy (v : pyval) : bool :=
  match v with
  | VNone => false
  | VBool b => b
  | VInt z => negb (Z.eqb z 0)
  | VFloat q => negb (Qeq_bool q 0%Q)
  | VStr s => negb (String.eqb s "")
  | VList l => match l with [] => false | _ => true end
  end.

(** Numeric reading of a value in an ordering comparison ([bool] is a
    subclass of [int]); [None] where Python raises [TypeError]. *)
Definition as_number (v : pyval) : option Q :=
  match v with
  | VBool b => Some (if b then 1%Q else 0%Q)
  | VInt z => Some (inject_Z z)
  | VFloat q => Some q
  | VNone | VStr _ | VList _ => None
  end.

(** The instances of [Exception] that the modelled code raises or is
    handed by a collaborator.  Every [except] clause of the source is
    [except Exception]; an exception outside that class
    ([asyncio.CancelledError], [KeyboardInterrupt], [SystemExit]) passes
    through all of them and ends the call without a result.  Such an
    exception is not a value of this type: the embedding describes the
    calls that are not cancelled or interrupted. *)
Inductive exn : Type :=
| ValueError (msg : string)
| KeyError (key : string)
| TypeError (msg : string)
| RuntimeError (msg : string)
| OverflowError (msg : string).

(** [str(e)] *)
Definition exn_str (e : exn) : string :=
  match e with
  | ValueError msg => msg
  | KeyError key => "'" +:+ key +:+ "'"
  | TypeError msg => msg
  | RuntimeError msg => msg
  | OverflowError msg => msg
  end.

Inductive res (A : Type) : Type :=
| Ok (a : A)
| Raise (e : exn).
Arguments Ok {A} a.
Arguments Raise {A} e.

(** [d.get(key, default)] and [d[key]] *)
Definition get (d : gmap string pyval) (key : string) (dflt : pyval) : pyval :=
  default dflt (d !! key).

Definition getitem (d : gmap string pyval) (key : string) : res pyval :=
  match d !! key with
  | Some v => Ok v
  | None => Raise (KeyError key)
  end.

(** [type(v).__name__] *)
Definition type_name (v : pyval) : string :=
  match v with
  | VNone => "NoneType"
  | VBool _ => "bool"
  | VInt _ => "int"
  | VFloat _ => "float"
  | VStr _ => "str"
  | VList _ => "list"
  end.

(** [v > q] where the right operand is a [float] (lines 390 and 880) and
    [v >= q] where it is an [int] (line 671) *)
Definition gt (v : pyval) (q : Q) : res bool :=
  match as_number v with
  | Some x => Ok (Qgtb x q)
  | None =>
      Raise (TypeError ("'>' not supported between instances of '"
                        +:+ type_name v +:+ "' and 'float'"))
  end.

Definition ge (v : pyval) (q : Q) : res bool :=
  match as_number v with
  | Some x => Ok (Qgeb x q)
  | None =>
      Raise (TypeError ("'>=' not supported between instances of '"
                        +:+ type_name v +:+ "' and 'int'"))
  end.

(** [range(start, stop, step)] for a positive step, by the number of
    elements still to produce *)
Fixpoint range_from (start step : Z) (n : nat) : list Z :=
  match n with
  | O => []
  | S n' => start :: range_from (start + step) step n'
  end.

Definition range (start stop step : Z) : list Z :=
  range_from start step (Z.to_nat ((stop - start + step - 1) / step)).

End Py.

Import Py.

Notation "a <? b" := (Qltb a b) : Q_scope.
Notation "a >? b" := (Qgtb a b) : Q_scope.
Notation "a >=? b" := (Qgeb a b) : Q_scope.

Open Scope string_scope.
Open Scope list_scope.
Open Scope Q_scope.

(** ** Data model (lines 38-115) *)

Inductive DeploymentStage : Type :=
| VALIDATION | BUILD | TEST
| DEPLOY_DEV | DEPLOY_STAGING | DEPLOY_PRODUCTION
| MONITORING | ROLLBACK.

Definition stage_value (s : DeploymentStage) : string :=
  match s with
  | VALIDATION => "validation"
  | BUILD => "build"
  | TEST => "test"
  | DEPLOY_DEV => "deploy_development"
  | DEPLOY_STAGING => "deploy_staging"
  | DEPLOY_PRODUCTION => "deploy_production"
  | MONITORING => "monitoring"
  | ROLLBACK => "rollback"
  end.

Inductive RiskLevel : Type := LOW | MEDIUM | HIGH | CRITICAL.

Record QualityMetrics : Type := {
  test_coverage : Q;
  code_quality_score : Q;
  security_vulnerabilities : Z;
  performance_score : Q;
  reliability_score : Q;
  maintainability_score : Q
}.

Record PerformanceMetrics : Type := {
  response_time_p95 : Q;
  throughput : Z;
  error_rate : Q;
  cpu_utilization : Q;
  memory_utilization : Q;
  availability : Q
}.

Record SecurityAssessment : Type := {
  vulnerability_count : Z;
  security_score : Q;
  compliance_score : Q;
  threat_level : RiskLevel;
  quantum_security_enabled : bool;
  zero_trust_validated : bool
}.

Record RiskAssessment : Type := {
  overall_risk_score : Q;
  risk_level : RiskLevel;
  risk_factors : list string;
  mitigation_strategies : list string;
  confidence_score : Q;
  predictive_analysis : gmap string pyval
}.

Record DeploymentDecision : Type := {
  decision : string;
  confidence : Q;
  reasoning : list string;
  conditions : list string;
  recommended_actions : list string;
  autonomous_execution : bool
}.

Record DeploymentContext : Type := {
  environment : string;
  application_version : string;
  deployment_strategy : string;
  quality_metrics : QualityMetrics;
  performance_metrics : PerformanceMetrics;
  security_assessment : SecurityAssessment;
  risk_assessment : RiskAssessment;
  historical_data : gmap string pyval
}.

(** [context.risk_assessment = risk_assessment] *)
Definition set_risk_assessment (c : DeploymentContext) (r : RiskAssessment)
  : DeploymentContext :=
  {| environment := environment c;
     application_version := application_version c;
     deployment_strategy := deployment_strategy c;
     quality_metrics := quality_metrics c;
     performance_metrics := performance_metrics c;
     security_assessment := security_assessment c;
     risk_assessment := r;
     historical_data := historical_data c |}.

(** ** RiskAnalyzer (lines 725-788) *)

Module RiskAnalyzer.

(** [x in risk_factors] *)
Definition mem (x : string) (l : list string) : bool :=
  existsb (String.eqb x) l.

Definition _generate_mitigation_strategies (risk_factors : list string)
  : list string :=
  let strategies := [] in
  let strategies :=
    if mem "Low test coverage" risk_factors
    then strategies ++ ["Increase test coverage before deployment"]
    else strategies in
  let strategies :=
    if mem "Security vulnerabilities present" risk_factors
    then strategies ++ ["Fix all security vulnerabilities"]
    else strategies in
  let strategies :=
    if mem "High error rate" risk_factors
    then strategies ++ ["Investigate and fix error causes"]
    else strategies in
  let strategies :=
    if mem "Low availability" risk_factors
    then strategies ++ ["Improve system reliability"]
    else strategies in
  strategies.

(** The two locals [risk_factors] and [risk_score] after the four
    guarded updates of lines 734-753. *)
Definition risk_accumulation (context : DeploymentContext)
  : list string * Q :=
  let risk_factors := [] in
  let risk_score := 0.0 in
  let '(risk_factors, risk_score) :=
    if test_coverage (quality_metrics context) <? 80
    then (risk_factors ++ ["Low test coverage"], risk_score + 0.2)
    else (risk_factors, risk_score) in
  let '(risk_factors, risk_score) :=
    if (security_vulnerabilities (quality_metrics context) >? 0)%Z
    then (risk_factors ++ ["Security vulnerabilities present"],
          risk_score + 0.3)
    else (risk_factors, risk_score) in
  let '(risk_factors, risk_score) :=
    if error_rate (performance_metrics context) >? 0.5
    then (risk_factors ++ ["High error rate"], risk_score + 0.2)
    else (risk_factors, risk_score) in
  let '(risk_factors, risk_score) :=
    if availability (performance_metrics context) <? 99.5
    then (risk_factors ++ ["Low availability"], risk_score + 0.15)
    else (risk_factors, risk_score) in
  (risk_factors, risk_score).

Definition analyze_deployment_risk (context : DeploymentContext)
  : RiskAssessment :=
  let '(risk_factors, risk_score) := risk_accumulation context in
  let risk_level :=
    if risk_score >=? 0.7 then HIGH
    else if risk_score >=? 0.4 then MEDIUM
    else LOW in
  {| overall_risk_score := risk_score;
     risk_level := risk_level;
     risk_factors := risk_factors;
     mitigation_strategies := _generate_mitigation_strategies risk_factors;
     confidence_score := 0.85;
     predictive_analysis :=
       {[ "failure_probability" := VFloat (risk_score * 0.8) ]} |}.

End RiskAnalyzer.

(** ** Pipeline configuration

    The YAML document read by [_load_config], restricted to the two lists
    the orchestrator consults.  [stages] is the list under
    [deployment_pipeline.stages]: line 341 indexes both keys, so a
    document without them makes every stage raise [KeyError] there; such
    a document is not a value of [Config.t].  [deployment_approval] is
    the list under [autonomous_decisions.deployment_approval], read with
    [get] at line 561 and empty when either key is absent. *)

Module Config.
Record stage : Type := { name : string }.
Record rule : Type := { condition : string; confidence : Q }.
Record t : Type := {
  stages : list stage;
  deployment_approval : list rule
}.
End Config.

(** ** AIDeploymentEngine (lines 535-686)

    The scores are computed here with exact rationals and unbounded
    integers.  The interpreter rounds every operation to binary64 and
    raises [OverflowError] on an integer operand beyond the range of
    binary64; [Binary64Engine] below transcribes lines 542-650 with that
    arithmetic. *)

Module AIDeploymentEngine.

Definition _calculate_quality_score (metrics : QualityMetrics) : Q :=
  let security_score :=
    Py.max 0 (1.0 - (inject_Z (security_vulnerabilities metrics) / 10)) in
  let score :=
    0.25 * (test_coverage metrics / 100) +
    0.25 * code_quality_score metrics +
    0.25 * security_score +
    0.125 * performance_score metrics +
    0.125 * reliability_score metrics in
  Py.min 1.0 (Py.max 0.0 score).

Definition _calculate_performance_score (metrics : PerformanceMetrics) : Q :=
  let response_time_score := Py.max 0 (1.0 - (response_time_p95 metrics / 500)) in
  let throughput_score := Py.min 1.0 (inject_Z (throughput metrics) / 2000) in
  let error_rate_score := Py.max 0 (1.0 - (error_rate metrics / 1.0)) in
  let availability_score := availability metrics / 100 in
  let score :=
    (response_time_score + throughput_score + error_rate_score
     + availability_score) / 4 in
  Py.min 1.0 (Py.max 0.0 score).

Definition _calculate_security_score (assessment : SecurityAssessment) : Q :=
  let base_score := security_score assessment in
  let base_score :=
    if quantum_security_enabled assessment then base_score + 0.05
    else base_score in
  let base_score :=
    if zero_trust_validated assessment then base_score + 0.05
    else base_score in
  let vulnerability_penalty :=
    Py.min 0.5 (inject_Z (vulnerability_count assessment) * 0.1) in
  Py.max 0.0 (Py.min 1.0 (base_score - vulnerability_penalty)).

Definition _evaluate_rule_condition (condition : string)
    (context : DeploymentContext) (overall_score : Q) : bool :=
  overall_score >=? 0.85.

(** Line 558. *)
Definition overall_score (context : DeploymentContext) : Q :=
  let quality_score := _calculate_quality_score (quality_metrics context) in
  let performance_score :=
    _calculate_performance_score (performance_metrics context) in
  let security_score :=
    _calculate_security_score (security_assessment context) in
  let risk_score := 1.0 - overall_risk_score (risk_assessment context) in
  (quality_score + performance_score + security_score + risk_score) / 4.

Definition make_deployment_decision (config : Config.t)
    (context : DeploymentContext) : DeploymentDecision :=
  let overall_score := overall_score context in
  let decision_rules := Config.deployment_approval config in
  match
    find (fun rule =>
            _evaluate_rule_condition (Config.condition rule) context
              overall_score)
         decision_rules
  with
  | Some rule =>
      {| decision := "approve";
         confidence := Config.confidence rule;
         reasoning := ["Condition met: " +:+ Config.condition rule];
         conditions := [];
         recommended_actions := [];
         autonomous_execution := true |}
  | None =>
      if overall_score >=? 0.9 then
        {| decision := "approve";
           confidence := overall_score;
           reasoning := ["High overall quality score"];
           conditions := [];
           recommended_actions := [];
           autonomous_execution := true |}
      else if overall_score >=? 0.7 then
        {| decision := "conditional";
           confidence := overall_score;
           reasoning := ["Moderate quality score, conditions required"];
           conditions := ["enhanced_monitoring"; "gradual_rollout"];
           recommended_actions := ["Monitor key metrics closely"];
           autonomous_execution := false |}
      else
        {| decision := "reject";
           confidence := 1.0 - overall_score;
           reasoning := ["Quality metrics below threshold"];
           conditions := [];
           recommended_actions :=
             ["Improve test coverage"; "Fix security issues"];
           autonomous_execution := false |}
  end.

(** The value returned is the object found in the dictionary, not its
    truth value; [a and b] yields [a] when [a] is falsy. *)
Definition validate_stage_success (stage : DeploymentStage)
    (result : gmap string pyval) (context : DeploymentContext)
  : res pyval :=
  match stage with
  | VALIDATION => Ok (Py.get result "validation_passed" (VBool false))
  | BUILD => Ok (Py.get result "build_successful" (VBool false))
  | TEST =>
      let tests_passed := Py.get result "tests_passed" (VBool false) in
      if truthy tests_passed then
        match Py.ge (Py.get result "test_coverage" (VInt 0)) 85 with
        | Ok b => Ok (VBool b)
        | Raise e => Raise e
        end
      else Ok tests_passed
  | _ => Ok (Py.get result "deployment_successful" (VBool false))
  end.

Definition determine_rollback_strategy (context : DeploymentContext)
    (partial_results : gmap string (gmap string pyval))
  : gmap string pyval :=
  if String.eqb (environment context) "production" then
    {[ "strategy" := VStr "immediate";
       "reason" := VStr "Production safety priority" ]}
  else
    {[ "strategy" := VStr "gradual";
       "reason" := VStr "Non-production environment" ]}.

End AIDeploymentEngine.

(** ** Outcomes, hooks and the orchestration monad *)

(** The ["result"] dictionary of an orchestration, by its ["status"]. *)
Inductive deployment_result : Type :=
| Rejected (reason recommendations : list string)
| ConditionalSuccess (conditions_met : list string)
| Failed (failed_stage : string) (rollback_initiated : bool)
    (results : gmap string (gmap string pyval))
| Errored (failed_stage error : string) (rollback_initiated : bool)
    (results : gmap string (gmap string pyval))
| Success (strategy : string) (results : gmap string (gmap string pyval))
    (monitoring_enabled : bool).

Definition status (r : deployment_result) : string :=
  match r with
  | Rejected _ _ => "rejected"
  | ConditionalSuccess _ => "conditional_success"
  | Failed _ _ _ => "failed"
  | Errored _ _ _ _ => "error"
  | Success _ _ _ => "success"
  end.

(** Value stored under ["rollback_initiated"], if the key is present. *)
Definition rollback_initiated_of (r : deployment_result) : option bool :=
  match r with
  | Failed _ b _ | Errored _ _ b _ => Some b
  | _ => None
  end.

(** Value returned by [orchestrate_deployment]. *)
Inductive orchestration_result : Type :=
| Orchestrated (deployment_id : string) (decision : DeploymentDecision)
    (result : deployment_result) (context : DeploymentContext)
| OrchestrationError (deployment_id error : string).

(** Invocations of the hooks whose built-in bodies only log. *)
Inductive event : Type :=
| StageExecutor (stage : DeploymentStage)
| HandleProductionAnomaly (metrics : gmap string pyval)
| HandleBusinessImpact (impact : gmap string pyval)
| ImmediateRollback
| GradualRollback
| TargetedRollback (targets : pyval)
| NotifyRollbackCompletion (strategy : gmap string pyval).

Record history_record : Type := {
  record_deployment_id : string;
  record_timestamp : string;
  record_context : DeploymentContext;
  record_decision : DeploymentDecision;
  record_result : deployment_result
}.

Record state : Type := {
  clock : Z;
  trace : list event;
  deployment_history : list history_record
}.

Definition M (A : Type) : Type := state -> res A * state.

Definition ret {A} (a : A) : M A := fun st => (Ok a, st).

Definition raise {A} (e : exn) : M A := fun st => (Raise e, st).

Definition bind {A B} (m : M A) (k : A -> M B) : M B :=
  fun st =>
    match m st with
    | (Ok a, st') => k a st'
    | (Raise e, st') => (Raise e, st')
    end.

(** Runs [m] and hands its outcome, normal or exceptional, to the
    continuation: the boundary of a [try] block. *)
Definition attempt {A} (m : M A) : M (res A) :=
  fun st => let '(r, st') := m st in (Ok r, st').

Definition lift {A} (r : res A) : M A := fun st => (r, st).

Definition emit (e : event) : M unit :=
  fun st =>
    (Ok tt, {| clock := clock st;
               trace := trace st ++ [e];
               deployment_history := deployment_history st |}).

(** [await asyncio.sleep(delay)] *)
Definition sleep (delay : Z) : M unit :=
  fun st =>
    (Ok tt, {| clock := (clock st + delay)%Z;
               trace := trace st;
               deployment_history := deployment_history st |}).

Definition now : M Z := fun st => (Ok (clock st), st).

Notation "x <- m ;; k" := (bind m (fun x => k))
  (at level 100, m at next level, right associativity).
Notation "m ;;; k" := (bind m (fun _ => k))
  (at level 100, right associativity).

(** The overridable placeholder methods of the orchestrator and of its
    validator, and the two renderings of [datetime.now()].  A method is
    given by what a call of it produces: the value it returns or the
    exception it raises. *)
Record Collaborators : Type := {
  _get_test_coverage : res Q;
  _get_code_quality_score : res Q;
  _get_security_vulnerability_count : res Z;
  _get_performance_score : res Q;
  _get_reliability_score : res Q;
  _get_maintainability_score : res Q;
  _get_response_time_p95 : res Q;
  _get_current_throughput : res Z;
  _get_error_rate : res Q;
  _get_cpu_utilization : res Q;
  _get_memory_utilization : res Q;
  _get_availability : res Q;
  _scan_vulnerabilities : res Z;
  _calculate_security_score : res Q;
  _check_compliance : res Q;
  _execute_validation_stage : DeploymentContext -> res (gmap string pyval);
  _execute_build_stage : DeploymentContext -> res (gmap string pyval);
  _execute_test_stage : DeploymentContext -> res (gmap string pyval);
  _execute_deploy_stage :
    DeploymentStage -> DeploymentContext -> res (gmap string pyval);
  _setup_monitoring : DeploymentContext -> res (gmap string pyval);
  _collect_realtime_metrics : Z -> res (gmap string pyval);
  _assess_business_impact : gmap string pyval -> res (gmap string pyval);
  strftime : Z -> string;
  isoformat : Z -> string
}.

(** Lines 424-499 and 712-722; the clock renderings are left abstract. *)
Definition builtin (strftime isoformat : Z -> string) : Collaborators :=
  {| _get_test_coverage := Ok 89.5;
     _get_code_quality_score := Ok 0.92;
     _get_security_vulnerability_count := Ok 0%Z;
     _get_performance_score := Ok 0.88;
     _get_reliability_score := Ok 0.91;
     _get_maintainability_score := Ok 0.85;
     _get_response_time_p95 := Ok 145.7;
     _get_current_throughput := Ok 2500%Z;
     _get_error_rate := Ok 0.05;
     _get_cpu_utilization := Ok 65.2;
     _get_memory_utilization := Ok 58.7;
     _get_availability := Ok 99.97;
     _scan_vulnerabilities := Ok 0%Z;
     _calculate_security_score := Ok 0.95;
     _check_compliance := Ok 0.98;
     _execute_validation_stage := fun context =>
       Ok {[ "validation_passed" := VBool true;
             "checks_completed" := VInt 15 ]};
     _execute_build_stage := fun context =>
       Ok {[ "build_successful" := VBool true;
             "artifacts_created" :=
               VList [VStr "frontend"; VStr "api"; VStr "quantum"] ]};
     _execute_test_stage := fun context =>
       Ok {[ "tests_passed" := VBool true;
             "test_coverage" := VFloat 89.5;
             "test_count" := VInt 1247 ]};
     _execute_deploy_stage := fun stage context =>
       Ok {[ "deployment_successful" := VBool true;
             "strategy" := VStr (deployment_strategy context) ]};
     _setup_monitoring := fun context =>
       Ok {[ "monitoring_enabled" := VBool true;
             "dashboards_created" := VInt 5;
             "alerts_configured" := VInt 12 ]};
     _collect_realtime_metrics := fun t =>
       Ok {[ "response_time" := VFloat 120.5;
             "error_rate" := VFloat 0.02;
             "throughput" := VInt 2600 ]};
     _assess_business_impact := fun metrics =>
       Ok {[ "severity" := VFloat 0.1;
             "impact_areas" := VList [];
             "estimated_loss" := VInt 0 ]};
     strftime := strftime;
     isoformat := isoformat |}.

(** ** DeploymentHistoryTracker (lines 813-850) *)

Module DeploymentHistoryTracker.

Definition record_deployment (W : Collaborators) (deployment_id : string)
    (context : DeploymentContext) (decision : DeploymentDecision)
    (result : deployment_result) : M unit :=
  fun st =>
    let record :=
      {| record_deployment_id := deployment_id;
         record_timestamp := isoformat W (clock st);
         record_context := context;
         record_decision := decision;
         record_result := result |} in
    (Ok tt, {| clock := clock st;
               trace := trace st;
               deployment_history := deployment_history st ++ [record] |}).

(** The summary, given the current content of [self.deployment_history]. *)
Definition relevant_history (deployment_history : list history_record)
    (request : gmap string string) : gmap string pyval :=
  {[ "total_deployments" := VInt (Z.of_nat (length deployment_history));
     "success_rate" := VFloat 0.95;
     "average_deployment_time" := VInt 25;
     "similar_deployments" := VInt 15 ]}.

Definition get_relevant_history (request : gmap string string)
  : M (gmap string pyval) :=
  fun st => (Ok (relevant_history (deployment_history st) request), st).

End DeploymentHistoryTracker.

(** ** QuantumSecurityValidator (lines 689-722) and AnomalyDetector
    (lines 866-880) *)

Definition perform_security_assessment (W : Collaborators)
    (request : gmap string string) : M SecurityAssessment :=
  vulnerability_count <- lift (_scan_vulnerabilities W) ;;
  security_score <- lift (_calculate_security_score W) ;;
  compliance_score <- lift (_check_compliance W) ;;
  ret {| vulnerability_count := vulnerability_count;
         security_score := security_score;
         compliance_score := compliance_score;
         threat_level :=
           if (vulnerability_count =? 0)%Z then LOW else MEDIUM;
         quantum_security_enabled := true;
         zero_trust_validated := true |}.

(** The threshold is the exact product here; the interpreter's is the
    binary64 product, which can differ from it in the last digit. *)
Definition detect_anomaly (current_metrics : gmap string pyval)
    (baseline_metrics : PerformanceMetrics) : res bool :=
  let current_response_time := Py.get current_metrics "response_time" (VInt 0) in
  let threshold := response_time_p95 baseline_metrics * 1.5 in
  Py.gt current_response_time threshold.

(** ** AutonomousDeploymentOrchestrator (lines 117-532) *)

Module Orchestrator.

(** [s.replace(old, new)] for a non-empty [old]; [skip] counts the
    characters of a match that are still to be dropped. *)
Fixpoint replace_from (old new : string) (skip : nat) (s : string) : string :=
  match s with
  | EmptyString => EmptyString
  | String c s' =>
      match skip with
      | S k => replace_from old new k s'
      | O =>
          if String.prefix old s
          then new +:+ replace_from old new (String.length old - 1) s'
          else String c (replace_from old new 0 s')
      end
  end.

Definition replace (s old new : string) : string := replace_from old new 0 s.

Definition _collect_quality_metrics (W : Collaborators)
    (request : gmap string string) : M QualityMetrics :=
  test_coverage <- lift (_get_test_coverage W) ;;
  code_quality_score <- lift (_get_code_quality_score W) ;;
  security_vulnerabilities <- lift (_get_security_vulnerability_count W) ;;
  performance_score <- lift (_get_performance_score W) ;;
  reliability_score <- lift (_get_reliability_score W) ;;
  maintainability_score <- lift (_get_maintainability_score W) ;;
  ret {| test_coverage := test_coverage;
         code_quality_score := code_quality_score;
         security_vulnerabilities := security_vulnerabilities;
         performance_score := performance_score;
         reliability_score := reliability_score;
         maintainability_score := maintainability_score |}.

Definition _collect_performance_metrics (W : Collaborators)
    (request : gmap string string) : M PerformanceMetrics :=
  response_time_p95 <- lift (_get_response_time_p95 W) ;;
  throughput <- lift (_get_current_throughput W) ;;
  error_rate <- lift (_get_error_rate W) ;;
  cpu_utilization <- lift (_get_cpu_utilization W) ;;
  memory_utilization <- lift (_get_memory_utilization W) ;;
  availability <- lift (_get_availability W) ;;
  ret {| response_time_p95 := response_time_p95;
         throughput := throughput;
         error_rate := error_rate;
         cpu_utilization := cpu_utilization;
         memory_utilization := memory_utilization;
         availability := availability |}.

Definition _gather_deployment_context (W : Collaborators)
    (request : gmap string string) : M DeploymentContext :=
  quality_metrics <- _collect_quality_metrics W request ;;
  performance_metrics <- _collect_performance_metrics W request ;;
  security_assessment <- perform_security_assessment W request ;;
  historical_data <- DeploymentHistoryTracker.get_relevant_history request ;;
  ret {| environment := default "production" (request !! "environment");
         application_version := default "latest" (request !! "version");
         deployment_strategy := default "blue-green" (request !! "strategy");
         quality_metrics := quality_metrics;
         performance_metrics := performance_metrics;
         security_assessment := security_assessment;
         risk_assessment :=
           {| overall_risk_score := 0; risk_level := LOW;
              risk_factors := []; mitigation_strategies := [];
              confidence_score := 0; predictive_analysis := ∅ |};
         historical_data := historical_data |}.

(** Calls a stage executor hook. *)
Definition executor (stage : DeploymentStage)
    (r : res (gmap string pyval)) : M (gmap string pyval) :=
  emit (StageExecutor stage) ;;; lift r.

Definition _execute_deployment_stage (W : Collaborators) (config : Config.t)
    (stage : DeploymentStage) (context : DeploymentContext)
  : M (gmap string pyval) :=
  let stage_config := Config.stages config in
  let stage_name := replace (stage_value stage) "deploy_" "deploy-" in
  match find (fun s => String.eqb (Config.name s) stage_name) stage_config with
  | None =>
      raise (ValueError
               ("Stage configuration not found for " +:+ stage_value stage))
  | Some stage_conf =>
      match stage with
      | VALIDATION => executor stage (_execute_validation_stage W context)
      | BUILD => executor stage (_execute_build_stage W context)
      | TEST => executor stage (_execute_test_stage W context)
      | DEPLOY_DEV | DEPLOY_STAGING | DEPLOY_PRODUCTION =>
          executor stage (_execute_deploy_stage W stage context)
      | MONITORING => executor stage (_setup_monitoring W context)
      | ROLLBACK => ret ∅
      end
  end.

Definition monitoring_duration : Z := 300.
Definition check_interval : Z := 10.

(** The body of the [for] loop of lines 372-393 over the remaining
    values of [i]; a [break] ends the recursion. *)
Fixpoint monitoring_loop (W : Collaborators) (context : DeploymentContext)
    (ticks : list Z) : M unit :=
  match ticks with
  | [] => ret tt
  | i :: ticks' =>
      sleep check_interval ;;;
      t <- now ;;
      current_metrics <- lift (_collect_realtime_metrics W t) ;;
      anomaly_detected <-
        lift (detect_anomaly current_metrics (performance_metrics context)) ;;
      if anomaly_detected : bool then
        emit (HandleProductionAnomaly current_metrics)
      else
        business_impact <- lift (_assess_business_impact W current_metrics) ;;
        severity <- lift (Py.getitem business_impact "severity") ;;
        negative <- lift (Py.gt severity 0.7) ;;
        if negative : bool then
          emit (HandleBusinessImpact business_impact)
        else
          monitoring_loop W context ticks'
  end.

Definition _continuous_production_monitoring (W : Collaborators)
    (context : DeploymentContext) : M unit :=
  monitoring_loop W context (Py.range 0 monitoring_duration check_interval).

(** Lines 411-421, for the strategy dictionary already chosen. *)
Definition execute_rollback_strategy (context : DeploymentContext)
    (rollback_strategy : gmap string pyval) : M unit :=
  strategy <- lift (Py.getitem rollback_strategy "strategy") ;;
  (match strategy with
   | VStr "immediate" => emit ImmediateRollback
   | VStr "gradual" => emit GradualRollback
   | VStr "targeted" =>
       targets <- lift (Py.getitem rollback_strategy "targets") ;;
       emit (TargetedRollback targets)
   | _ => ret tt
   end) ;;;
  emit (NotifyRollbackCompletion rollback_strategy).

Definition _initiate_intelligent_rollback (context : DeploymentContext)
    (partial_results : gmap string (gmap string pyval)) : M unit :=
  let rollback_strategy :=
    AIDeploymentEngine.determine_rollback_strategy context partial_results in
  execute_rollback_strategy context rollback_strategy.

(** Lines 268-286. *)
Definition deployment_stages (context : DeploymentContext)
  : list DeploymentStage :=
  let deployment_stages := [VALIDATION; BUILD; TEST] in
  let deployment_stages :=
    if String.eqb (environment context) "development" then
      deployment_stages ++ [DEPLOY_DEV]
    else if String.eqb (environment context) "staging" then
      deployment_stages ++ [DEPLOY_DEV; DEPLOY_STAGING]
    else
      deployment_stages ++ [DEPLOY_DEV; DEPLOY_STAGING; DEPLOY_PRODUCTION] in
  deployment_stages ++ [MONITORING].

Definition is_deploy_production (stage : DeploymentStage) : bool :=
  match stage with DEPLOY_PRODUCTION => true | _ => false end.

(** The [except] clause of lines 316-325. *)
Definition on_exception (context : DeploymentContext)
    (stage : DeploymentStage) (e : exn)
    (results : gmap string (gmap string pyval)) : M deployment_result :=
  _initiate_intelligent_rollback context results ;;;
  ret (Errored (stage_value stage) (exn_str e) true results).

(** Lines 297-314: the part of the [try] block that follows the
    assignment to [results]; [Some] is an early [return]. *)
Definition validate_and_monitor (W : Collaborators)
    (context : DeploymentContext) (stage : DeploymentStage)
    (stage_result : gmap string pyval)
    (results : gmap string (gmap string pyval))
  : M (option deployment_result) :=
  stage_success <-
    lift (AIDeploymentEngine.validate_stage_success stage stage_result context) ;;
  if negb (truthy stage_success) then
    _initiate_intelligent_rollback context results ;;;
    ret (Some (Failed (stage_value stage) true results))
  else
    (if is_deploy_production stage
     then _continuous_production_monitoring W context
     else ret tt) ;;;
    ret None.

(** The [for] loop of lines 290-325 over the remaining stages, followed
    by the final [return] of lines 327-332. *)
Fixpoint run_stages (W : Collaborators) (config : Config.t)
    (context : DeploymentContext) (stages : list DeploymentStage)
    (results : gmap string (gmap string pyval)) : M deployment_result :=
  match stages with
  | [] => ret (Success (deployment_strategy context) results true)
  | stage :: stages' =>
      executed <- attempt (_execute_deployment_stage W config stage context) ;;
      match executed with
      | Raise e => on_exception context stage e results
      | Ok stage_result =>
          let results := <[stage_value stage := stage_result]> results in
          checked <-
            attempt (validate_and_monitor W context stage stage_result results) ;;
          match checked with
          | Raise e => on_exception context stage e results
          | Ok (Some outcome) => ret outcome
          | Ok None => run_stages W config context stages' results
          end
      end
  end.

Definition _execute_autonomous_deployment (W : Collaborators)
    (config : Config.t) (context : DeploymentContext)
    (decision : DeploymentDecision) : M deployment_result :=
  run_stages W config context (deployment_stages context) ∅.

Definition _execute_conditional_deployment (context : DeploymentContext)
    (decision : DeploymentDecision) : M deployment_result :=
  ret (ConditionalSuccess (conditions decision)).

(** Lines 156-191: the [try] block of [orchestrate_deployment]. *)
Definition orchestrate (W : Collaborators) (config : Config.t)
    (deployment_request : gmap string string) (deployment_id : string)
  : M orchestration_result :=
  context <- _gather_deployment_context W deployment_request ;;
  let risk_assessment := RiskAnalyzer.analyze_deployment_risk context in
  let context := set_risk_assessment context risk_assessment in
  let deployment_decision :=
    AIDeploymentEngine.make_deployment_decision config context in
  result <-
    (if String.eqb (decision deployment_decision) "approve"
        && autonomous_execution deployment_decision then
       _execute_autonomous_deployment W config context deployment_decision
     else if String.eqb (decision deployment_decision) "conditional" then
       _execute_conditional_deployment context deployment_decision
     else
       ret (Rejected (reasoning deployment_decision)
              (recommended_actions deployment_decision))) ;;
  DeploymentHistoryTracker.record_deployment W deployment_id context
    deployment_decision result ;;;
  ret (Orchestrated deployment_id deployment_decision result context).

Definition orchestrate_deployment (W : Collaborators) (config : Config.t)
    (deployment_request : gmap string string) : M orchestration_result :=
  t <- now ;;
  let deployment_id := "deploy-" +:+ strftime W t in
  outcome <- attempt (orchestrate W config deployment_request deployment_id) ;;
  match outcome with
  | Ok r => ret r
  | Raise e => ret (OrchestrationError deployment_id (exn_str e))
  end.

End Orchestrator.

(** ** Binary64 cross-check of the risk weights

    The same guarded additions and the same bucketing as
    [RiskAnalyzer.analyze_deployment_risk], on IEEE binary64 numbers, as
    a function of which of the four conditions hold. *)

Module Binary64.

Definition risk_score (low_coverage vulnerable high_errors low_availability : bool)
  : float :=
  let risk_score := 0.0%float in
  let risk_score := if low_coverage then (risk_score + 0.2)%float else risk_score in
  let risk_score := if vulnerable then (risk_score + 0.3)%float else risk_score in
  let risk_score := if high_errors then (risk_score + 0.2)%float else risk_score in
  let risk_score :=
    if low_availability then (risk_score + 0.15)%float else risk_score in
  risk_score.

Definition risk_level (risk_score : float) : RiskLevel :=
  if PrimFloat.leb 0.7%float risk_score then HIGH
  else if PrimFloat.leb 0.4%float risk_score then MEDIUM
  else LOW.

End Binary64.

(** The same, with exact arithmetic. *)
Definition exact_risk_score
    (low_coverage vulnerable high_errors low_availability : bool) : Q :=
  let risk_score := 0.0 in
  let risk_score := if low_coverage then risk_score + 0.2 else risk_score in
  let risk_score := if vulnerable then risk_score + 0.3 else risk_score in
  let risk_score := if high_errors then risk_score + 0.2 else risk_score in
  let risk_score := if low_availability then risk_score + 0.15 else risk_score in
  risk_score.

Definition exact_risk_level (risk_score : Q) : RiskLevel :=
  if risk_score >=? 0.7 then HIGH
  else if risk_score >=? 0.4 then MEDIUM
  else LOW.

(** ** The decision engine on binary64 numbers (lines 542-650)

    [AIDeploymentEngine] above computes the scores with exact rationals.
    The interpreter computes them with IEEE binary64 numbers, and a
    threshold test on a score that lies within a rounding error of the
    threshold can come out differently (see [exact_mean_at_threshold]).
    This module transcribes the same lines with the interpreter's
    arithmetic:
    - a [float] is a binary64 number, with the primitive operations;
    - [int / int] is the correctly rounded quotient, and an [int] operand
      of a float operation is first converted, rounding to nearest even;
      both raise [OverflowError] when the result is beyond the range of
      binary64;
    - [max] and [min] keep their first argument unless the second compares
      strictly greater (smaller), so a NaN in second position is dropped.
    The [int] 0 that [max(0, x)] can return enters a float sum or product
    next, where it is converted to 0.0; it is written 0.0 here.

    The records carry the fields of the dataclasses that hold numbers,
    flags and enumerations; the engine reads no other field. *)

Module Binary64Engine.

#[local] Open Scope float_scope.

Record QualityMetrics : Type := {
  test_coverage : float;
  code_quality_score : float;
  security_vulnerabilities : Z;
  performance_score : float;
  reliability_score : float;
  maintainability_score : float
}.

Record PerformanceMetrics : Type := {
  response_time_p95 : float;
  throughput : Z;
  error_rate : float;
  cpu_utilization : float;
  memory_utilization : float;
  availability : float
}.

Record SecurityAssessment : Type := {
  vulnerability_count : Z;
  security_score : float;
  compliance_score : float;
  threat_level : RiskLevel;
  quantum_security_enabled : bool;
  zero_trust_validated : bool
}.

Record RiskAssessment : Type := {
  overall_risk_score : float;
  risk_level : RiskLevel;
  risk_factors : list string;
  mitigation_strategies : list string;
  confidence_score : float
}.

Record DeploymentContext : Type := {
  environment : string;
  application_version : string;
  deployment_strategy : string;
  quality_metrics : QualityMetrics;
  performance_metrics : PerformanceMetrics;
  security_assessment : SecurityAssessment;
  risk_assessment : RiskAssessment
}.

Record DeploymentDecision : Type := {
  decision : string;
  confidence : float;
  reasoning : list string;
  conditions : list string;
  recommended_actions : list string;
  autonomous_execution : bool
}.

(** An entry of [autonomous_decisions.deployment_approval] *)
Record rule : Type := { condition : string; rule_confidence : float }.

Definition max (a b : float) : float := if a <? b then b else a.
Definition min (a b : float) : float := if b <? a then b else a.

(** The result of an operation on integers as a float, unless it is
    beyond the largest binary64 number. *)
Definition in_range (message : string) (x : spec_float) : res float :=
  match x with
  | S754_infinity _ => Raise (OverflowError message)
  | _ => Ok (SF2Prim x)
  end.

(** [float(z)] *)
Definition of_int (z : Z) : res float :=
  in_range "int too large to convert to float"
    (binary_normalize prec emax z 0 false).

Definition integer (z : Z) : spec_float :=
  match z with
  | Z0 => S754_zero false
  | Zpos m => S754_finite false m 0
  | Zneg m => S754_finite true m 0
  end.

(** [a / b] on two [int]s, for a divisor that is not 0 *)
Definition int_truediv (a : Z) (b : positive) : res float :=
  in_range "integer division result too large for a float"
    (SFdiv prec emax (integer a) (integer (Zpos b))).

Definition _calculate_quality_score (metrics : QualityMetrics) : res float :=
  match int_truediv (security_vulnerabilities metrics) 10 with
  | Raise e => Raise e
  | Ok tenths =>
      let security_score := max 0 (1.0 - tenths) in
      let score :=
        0.25 * (test_coverage metrics / 100) +
        0.25 * code_quality_score metrics +
        0.25 * security_score +
        0.125 * performance_score metrics +
        0.125 * reliability_score metrics in
      Ok (min 1.0 (max 0.0 score))
  end.

Definition _calculate_performance_score (metrics : PerformanceMetrics)
  : res float :=
  let response_time_score := max 0 (1.0 - (response_time_p95 metrics / 500)) in
  match int_truediv (throughput metrics) 2000 with
  | Raise e => Raise e
  | Ok ratio =>
      let throughput_score := min 1.0 ratio in
      let error_rate_score := max 0 (1.0 - (error_rate metrics / 1.0)) in
      let availability_score := availability metrics / 100 in
      let score :=
        (response_time_score + throughput_score + error_rate_score
         + availability_score) / 4 in
      Ok (min 1.0 (max 0.0 score))
  end.

Definition _calculate_security_score (assessment : SecurityAssessment)
  : res float :=
  let base_score := security_score assessment in
  let base_score :=
    if quantum_security_enabled assessment then base_score + 0.05
    else base_score in
  let base_score :=
    if zero_trust_validated assessment then base_score + 0.05
    else base_score in
  match of_int (vulnerability_count assessment) with
  | Raise e => Raise e
  | Ok count =>
      let vulnerability_penalty := min 0.5 (count * 0.1) in
      Ok (max 0.0 (min 1.0 (base_score - vulnerability_penalty)))
  end.

Definition _evaluate_rule_condition (condition : string)
    (context : DeploymentContext) (overall_score : float) : bool :=
  0.85 <=? overall_score.

Definition make_deployment_decision (decision_rules : list rule)
    (context : DeploymentContext) : res DeploymentDecision :=
  match _calculate_quality_score (quality_metrics context) with
  | Raise e => Raise e
  | Ok quality_score =>
  match _calculate_performance_score (performance_metrics context) with
  | Raise e => Raise e
  | Ok performance_score =>
  match _calculate_security_score (security_assessment context) with
  | Raise e => Raise e
  | Ok security_score =>
      let risk_score := 1.0 - overall_risk_score (risk_assessment context) in
      let overall_score :=
        (quality_score + performance_score + security_score + risk_score)
        / 4 in
      match
        find (fun rule =>
                _evaluate_rule_condition (condition rule) context
                  overall_score)
             decision_rules
      with
      | Some rule =>
          Ok {| decision := "approve";
                confidence := rule_confidence rule;
                reasoning := ["Condition met: " +:+ condition rule];
                conditions := [];
                recommended_actions := [];
                autonomous_execution := true |}
      | None =>
          if 0.9 <=? overall_score then
            Ok {| decision := "approve";
                  confidence := overall_score;
                  reasoning := ["High overall quality score"];
                  conditions := [];
                  recommended_actions := [];
                  autonomous_execution := true |}
          else if 0.7 <=? overall_score then
            Ok {| decision := "conditional";
                  confidence := overall_score;
                  reasoning := ["Moderate quality score, conditions required"];
                  conditions := ["enhanced_monitoring"; "gradual_rollout"];
                  recommended_actions := ["Monitor key metrics closely"];
                  autonomous_execution := false |}
          else
            Ok {| decision := "reject";
                  confidence := 1.0 - overall_score;
                  reasoning := ["Quality metrics below threshold"];
                  conditions := [];
                  recommended_actions :=
                    ["Improve test coverage"; "Fix security issues"];
                  autonomous_execution := false |}
      end
  end end end.

End Binary64Engine.

(** ** The risk rule set as the specification words it

    Each condition that holds contributes its fixed weight and its label;
    a condition that does not hold contributes nothing. *)

#[local] Instance Qlt_decision (a b : Q) : Decision (a < b) :=
  match Qlt_le_dec a b with
  | left H => left H
  | right H => right (Qle_not_lt _ _ H)
  end.

Definition contribution (P : Prop) `{Decision P} (weight : Q) : Q :=
  if decide P then weight else 0.

Definition factor (P : Prop) `{Decision P} (label : string) : list string :=
  if decide P then [label] else [].

Definition spec_risk_score (context : DeploymentContext) : Q :=
  contribution (test_coverage (quality_metrics context) < 80) 0.20
  + contribution (0 < security_vulnerabilities (quality_metrics context))%Z 0.30
  + contribution (0.5 < error_rate (performance_metrics context)) 0.20
  + contribution (availability (performance_metrics context) < 99.5) 0.15.

Definition spec_risk_factors (context : DeploymentContext) : list string :=
  factor (test_coverage (quality_metrics context) < 80) "Low test coverage"
  ++ factor (0 < security_vulnerabilities (quality_metrics context))%Z
       "Security vulnerabilities present"
  ++ factor (0.5 < error_rate (performance_metrics context)) "High error rate"
  ++ factor (availability (performance_metrics context) < 99.5) "Low availability".

(** ** Section 3 ranges and concrete inputs *)

(** The ranges the data model gives for the three metric snapshots. *)
Definition within_data_model_ranges (context : DeploymentContext) : Prop :=
  let q := quality_metrics context in
  let p := performance_metrics context in
  let s := security_assessment context in
  (0 <= test_coverage q <= 100
   /\ 0 <= code_quality_score q <= 1
   /\ (0 <= security_vulnerabilities q)%Z
   /\ 0 <= performance_score q <= 1
   /\ 0 <= reliability_score q <= 1
   /\ 0 <= maintainability_score q <= 1)
  /\ (0 <= response_time_p95 p
      /\ (0 <= throughput p)%Z
      /\ 0 <= error_rate p
      /\ 0 <= cpu_utilization p <= 100
      /\ 0 <= memory_utilization p <= 100
      /\ 0 <= availability p <= 100)
  /\ ((0 <= vulnerability_count s)%Z
      /\ 0 <= security_score s <= 1
      /\ 0 <= compliance_score s <= 1).

Definition empty_risk_assessment : RiskAssessment :=
  {| overall_risk_score := 0; risk_level := LOW; risk_factors := [];
     mitigation_strategies := []; confidence_score := 0;
     predictive_analysis := ∅ |}.

(** The placeholder metrics with coverage 60 and two vulnerabilities. *)
Definition scenario_b_context : DeploymentContext :=
  {| environment := "production";
     application_version := "4.0.0";
     deployment_strategy := "blue-green";
     quality_metrics :=
       {| test_coverage := 60; code_quality_score := 0.92;
          security_vulnerabilities := 2; performance_score := 0.88;
          reliability_score := 0.91; maintainability_score := 0.85 |};
     performance_metrics :=
       {| response_time_p95 := 145.7; throughput := 2500;
          error_rate := 0.05; cpu_utilization := 65.2;
          memory_utilization := 58.7; availability := 99.97 |};
     security_assessment :=
       {| vulnerability_count := 0; security_score := 0.95;
          compliance_score := 0.98; threat_level := LOW;
          quantum_security_enabled := true; zero_trust_validated := true |};
     risk_assessment := empty_risk_assessment;
     historical_data := ∅ |}.

Definition one_rule_config : Config.t :=
  {| Config.stages := [];
     Config.deployment_approval :=
       [ {| Config.condition := "quality_score >= 0.85";
            Config.confidence := 0.95 |} ] |}.

(** ** Vocabulary for traces *)

(** The state after the hooks [events] have been invoked in order. *)
Definition after_events (st : state) (events : list event) : state :=
  {| clock := clock st;
     trace := trace st ++ events;
     deployment_history := deployment_history st |}.

(** The rollback hook that belongs to the environment of [context]. *)
Definition rollback_hook (context : DeploymentContext) : event :=
  if String.eqb (environment context) "production"
  then ImmediateRollback else GradualRollback.

(** What a rollback leaves in the trace. *)
Definition rollback_events (context : DeploymentContext)
    (partial_results : gmap string (gmap string pyval)) : list event :=
  [ rollback_hook context;
    NotifyRollbackCompletion
      (AIDeploymentEngine.determine_rollback_strategy context partial_results) ].

Definition is_targeted_rollback (e : event) : bool :=
  match e with TargetedRollback _ => true | _ => false end.

(** A strategy dictionary that names the targeted strategy and carries no
    targets. *)
Definition targeted_without_targets : gmap string pyval :=
  {[ "strategy" := VStr "targeted"; "reason" := VStr "Partial failure" ]}.

Definition initial_state : state :=
  {| clock := 0; trace := []; deployment_history := [] |}.

(** A value that reads as zero: the number 0, or an empty or absent
    value. *)
Definition zero_value (v : pyval) : bool :=
  match as_number v with
  | Some q => Qeq_bool q 0
  | None => negb (truthy v)
  end.

(** ** Vocabulary for the pipeline and the monitor *)

(** The state after [delay] time units have passed. *)
Definition advance (st : state) (delay : Z) : state :=
  {| clock := (clock st + delay)%Z;
     trace := trace st;
     deployment_history := deployment_history st |}.

(** The name under which [_execute_deployment_stage] looks a stage up. *)
Definition descriptor_name (stage : DeploymentStage) : string :=
  Orchestrator.replace (stage_value stage) "deploy_" "deploy-".

Definition has_descriptor (config : Config.t) (stage : DeploymentStage) : bool :=
  existsb (fun s => String.eqb (Config.name s) (descriptor_name stage))
    (Config.stages config).

(** The sample taken at time [t] trips the response-time check. *)
Definition anomaly_at (W : Collaborators) (context : DeploymentContext)
    (t : Z) (metrics : gmap string pyval) : Prop :=
  _collect_realtime_metrics W t = Ok metrics
  /\ detect_anomaly metrics (performance_metrics context) = Ok true.

(** The sample taken at time [t] passes the response-time check and its
    business-impact severity exceeds 0.7. *)
Definition impact_at (W : Collaborators) (context : DeploymentContext)
    (t : Z) (impact : gmap string pyval) : Prop :=
  exists metrics severity,
    _collect_realtime_metrics W t = Ok metrics
    /\ detect_anomaly metrics (performance_metrics context) = Ok false
    /\ _assess_business_impact W metrics = Ok impact
    /\ Py.getitem impact "severity" = Ok severity
    /\ Py.gt severity 0.7 = Ok true.

(** The monitor flags the sample taken at time [t] and calls [hook]. *)
Definition flagged_at (W : Collaborators) (context : DeploymentContext)
    (t : Z) (hook : event) : Prop :=
  (exists metrics,
      anomaly_at W context t metrics /\ hook = HandleProductionAnomaly metrics)
  \/ (exists impact,
         impact_at W context t impact /\ hook = HandleBusinessImpact impact).

(** The sample taken at time [t] trips neither check. *)
Definition quiet_at (W : Collaborators) (context : DeploymentContext)
    (t : Z) : Prop :=
  exists metrics impact severity,
    _collect_realtime_metrics W t = Ok metrics
    /\ detect_anomaly metrics (performance_metrics context) = Ok false
    /\ _assess_business_impact W metrics = Ok impact
    /\ Py.getitem impact "severity" = Ok severity
    /\ Py.gt severity 0.7 = Ok false.

(** Time at which the sample of tick [k] (counted from 0) is taken, for a
    monitor started at time [t0]. *)
Definition sample_time (t0 : Z) (k : nat) : Z :=
  (t0 + Orchestrator.check_interval * (Z.of_nat k + 1))%Z.

(** ** Collaborators that differ from the placeholders in one method *)

Definition with_quality_getters (coverage : Q) (vulnerabilities : Z)
    (W : Collaborators) : Collaborators :=
  {| _get_test_coverage := Ok coverage;
     _get_code_quality_score := _get_code_quality_score W;
     _get_security_vulnerability_count := Ok vulnerabilities;
     _get_performance_score := _get_performance_score W;
     _get_reliability_score := _get_reliability_score W;
     _get_maintainability_score := _get_maintainability_score W;
     _get_response_time_p95 := _get_response_time_p95 W;
     _get_current_throughput := _get_current_throughput W;
     _get_error_rate := _get_error_rate W;
     _get_cpu_utilization := _get_cpu_utilization W;
     _get_memory_utilization := _get_memory_utilization W;
     _get_availability := _get_availability W;
     _scan_vulnerabilities := _scan_vulnerabilities W;
     _calculate_security_score := _calculate_security_score W;
     _check_compliance := _check_compliance W;
     _execute_validation_stage := _execute_validation_stage W;
     _execute_build_stage := _execute_build_stage W;
     _execute_test_stage := _execute_test_stage W;
     _execute_deploy_stage := _execute_deploy_stage W;
     _setup_monitoring := _setup_monitoring W;
     _collect_realtime_metrics := _collect_realtime_metrics W;
     _assess_business_impact := _assess_business_impact W;
     strftime := strftime W;
     isoformat := isoformat W |}.

Definition with_monitoring (setup : DeploymentContext -> res (gmap string pyval))
    (collect : Z -> res (gmap string pyval)) (W : Collaborators)
  : Collaborators :=
  {| _get_test_coverage := _get_test_coverage W;
     _get_code_quality_score := _get_code_quality_score W;
     _get_security_vulnerability_count := _get_security_vulnerability_count W;
     _get_performance_score := _get_performance_score W;
     _get_reliability_score := _get_reliability_score W;
     _get_maintainability_score := _get_maintainability_score W;
     _get_response_time_p95 := _get_response_time_p95 W;
     _get_current_throughput := _get_current_throughput W;
     _get_error_rate := _get_error_rate W;
     _get_cpu_utilization := _get_cpu_utilization W;
     _get_memory_utilization := _get_memory_utilization W;
     _get_availability := _get_availability W;
     _scan_vulnerabilities := _scan_vulnerabilities W;
     _calculate_security_score := _calculate_security_score W;
     _check_compliance := _check_compliance W;
     _execute_validation_stage := _execute_validation_stage W;
     _execute_build_stage := _execute_build_stage W;
     _execute_test_stage := _execute_test_stage W;
     _execute_deploy_stage := _execute_deploy_stage W;
     _setup_monitoring := setup;
     _collect_realtime_metrics := collect;
     _assess_business_impact := _assess_business_impact W;
     strftime := strftime W;
     isoformat := isoformat W |}.

(** ** Concrete runs *)

Definition stamp (t : Z) : string := "20250101-000000".
Definition iso (t : Z) : string := "2025-01-01T00:00:00".

Definition placeholders : Collaborators := builtin stamp iso.

Definition descriptors (names : list string) : list Config.stage :=
  map Config.Build_stage names.

Definition full_config : Config.t :=
  {| Config.stages :=
       descriptors ["validation"; "build"; "test"; "deploy-development";
                    "deploy-staging"; "deploy-production"; "monitoring"];
     Config.deployment_approval := [] |}.

Definition config_without_build : Config.t :=
  {| Config.stages :=
       descriptors ["validation"; "test"; "deploy-development";
                    "deploy-staging"; "deploy-production"; "monitoring"];
     Config.deployment_approval := [] |}.

Definition production_request : gmap string string :=
  {[ "environment" := "production"; "version" := "4.0.0";
     "strategy" := "blue-green-with-canary" ]}.

(** Realtime samples that are normal at the first tick and show a response
    time of 1000 from the second tick on. *)
Definition normal_sample : gmap string pyval :=
  {[ "response_time" := VFloat 120.5; "error_rate" := VFloat 0.02;
     "throughput" := VInt 2600 ]}.

Definition slow_sample : gmap string pyval :=
  {[ "response_time" := VFloat 1000; "error_rate" := VFloat 0.02;
     "throughput" := VInt 2600 ]}.

Definition slow_from_second_tick (t : Z) : res (gmap string pyval) :=
  if (t <? 20)%Z then Ok normal_sample else Ok slow_sample.

(** A monitoring-stage executor whose result carries the success flag. *)
Definition flagged_monitoring_setup (context : DeploymentContext)
  : res (gmap string pyval) :=
  Ok {[ "deployment_successful" := VBool true;
        "monitoring_enabled" := VBool true ]}.

(** Placeholders, except that the response time degrades at the second
    tick of the production monitor. *)
Definition degrading : Collaborators :=
  with_monitoring (_setup_monitoring placeholders) slow_from_second_tick
    placeholders.

(** The same, with a monitoring stage that reports success. *)
Definition degrading_flagged : Collaborators :=
  with_monitoring flagged_monitoring_setup slow_from_second_tick placeholders.

(** Placeholders, except for a coverage of 60 and two vulnerabilities. *)
Definition scenario_b : Collaborators :=
  with_quality_getters 60 2 placeholders.

(** The context that the placeholder providers yield for a production
    request, before the risk backfill. *)
Definition production_context : DeploymentContext :=
  {| environment := "production";
     application_version := "4.0.0";
     deployment_strategy := "blue-green-with-canary";
     quality_metrics :=
       {| test_coverage := 89.5; code_quality_score := 0.92;
          security_vulnerabilities := 0; performance_score := 0.88;
          reliability_score := 0.91; maintainability_score := 0.85 |};
     performance_metrics :=
       {| response_time_p95 := 145.7; throughput := 2500;
          error_rate := 0.05; cpu_utilization := 65.2;
          memory_utilization := 58.7; availability := 99.97 |};
     security_assessment :=
       {| vulnerability_count := 0; security_score := 0.95;
          compliance_score := 0.98; threat_level := LOW;
          quantum_security_enabled := true; zero_trust_validated := true |};
     risk_assessment := empty_risk_assessment;
     historical_data := ∅ |}.

Definition approval : DeploymentDecision :=
  AIDeploymentEngine.make_deployment_decision full_config production_context.

Definition immediate_strategy : gmap string pyval :=
  {[ "strategy" := VStr "immediate";
     "reason" := VStr "Production safety priority" ]}.

(** The context gathered for [production_request] from the providers of
    [scenario_b] on an empty history, before the risk backfill. *)
Definition scenario_b_gathered : DeploymentContext :=
  {| environment := "production";
     application_version := "4.0.0";
     deployment_strategy := "blue-green-with-canary";
     quality_metrics := quality_metrics scenario_b_context;
     performance_metrics := performance_metrics scenario_b_context;
     security_assessment := security_assessment scenario_b_context;
     risk_assessment := empty_risk_assessment;
     historical_data :=
       DeploymentHistoryTracker.relevant_history [] production_request |}.

(** The result of the placeholder deploy executor on [production_context]. *)
Definition deployed : gmap string pyval :=
  {[ "deployment_successful" := VBool true;
     "strategy" := VStr "blue-green-with-canary" ]}.

(** The stages that come before the monitoring stage in a pipeline. *)
Definition precedes_monitoring (stage : DeploymentStage) : bool :=
  match stage with
  | MONITORING | ROLLBACK => false
  | _ => true
  end.

(** The result of the placeholder [_setup_monitoring]. *)
Definition monitoring_set_up : gmap string pyval :=
  {[ "monitoring_enabled" := VBool true;
     "dashboards_created" := VInt 5;
     "alerts_configured" := VInt 12 ]}.

(** Contexts on the two breakpoints of the risk buckets: low coverage with
    a high error rate (0.2 + 0.2), and the same with vulnerabilities
    (0.2 + 0.3 + 0.2). *)
Definition risk_04_context : DeploymentContext :=
  {| environment := "staging";
     application_version := "latest";
     deployment_strategy := "blue-green";
     quality_metrics :=
       {| test_coverage := 79.9; code_quality_score := 0.92;
          security_vulnerabilities := 0; performance_score := 0.88;
          reliability_score := 0.91; maintainability_score := 0.85 |};
     performance_metrics :=
       {| response_time_p95 := 145.7; throughput := 2500;
          error_rate := 0.6; cpu_utilization := 65.2;
          memory_utilization := 58.7; availability := 99.5 |};
     security_assessment := security_assessment scenario_b_context;
     risk_assessment := empty_risk_assessment;
     historical_data := ∅ |}.

Definition risk_07_context : DeploymentContext :=
  {| environment := "staging";
     application_version := "latest";
     deployment_strategy := "blue-green";
     quality_metrics :=
       {| test_coverage := 79.9; code_quality_score := 0.92;
          security_vulnerabilities := 1; performance_score := 0.88;
          reliability_score := 0.91; maintainability_score := 0.85 |};
     performance_metrics := performance_metrics risk_04_context;
     security_assessment := security_assessment scenario_b_context;
     risk_assessment := empty_risk_assessment;
     historical_data := ∅ |}.

(** ** Inputs of the binary64 engine *)

(** Scenario B: the placeholder metrics with coverage 60 and two
    vulnerabilities, and the risk assessment the analyzer gives them. *)
Definition scenario_b_binary64 : Binary64Engine.DeploymentContext :=
  {| Binary64Engine.environment := "production";
     Binary64Engine.application_version := "4.0.0";
     Binary64Engine.deployment_strategy := "blue-green";
     Binary64Engine.quality_metrics :=
       {| Binary64Engine.test_coverage := 60.0;
          Binary64Engine.code_quality_score := 0.92;
          Binary64Engine.security_vulnerabilities := 2;
          Binary64Engine.performance_score := 0.88;
          Binary64Engine.reliability_score := 0.91;
          Binary64Engine.maintainability_score := 0.85 |};
     Binary64Engine.performance_metrics :=
       {| Binary64Engine.response_time_p95 := 145.7;
          Binary64Engine.throughput := 2500;
          Binary64Engine.error_rate := 0.05;
          Binary64Engine.cpu_utilization := 65.2;
          Binary64Engine.memory_utilization := 58.7;
          Binary64Engine.availability := 99.97 |};
     Binary64Engine.security_assessment :=
       {| Binary64Engine.vulnerability_count := 0;
          Binary64Engine.security_score := 0.95;
          Binary64Engine.compliance_score := 0.98;
          Binary64Engine.threat_level := LOW;
          Binary64Engine.quantum_security_enabled := true;
          Binary64Engine.zero_trust_validated := true |};
     Binary64Engine.risk_assessment :=
       {| Binary64Engine.overall_risk_score := 0.5;
          Binary64Engine.risk_level := MEDIUM;
          Binary64Engine.risk_factors :=
            ["Low test coverage"; "Security vulnerabilities present"];
          Binary64Engine.mitigation_strategies :=
            ["Increase test coverage before deployment";
             "Fix all security vulnerabilities"];
          Binary64Engine.confidence_score := 0.85 |} |}%float.

Definition one_rule : Binary64Engine.rule :=
  {| Binary64Engine.condition := "quality_score >= 0.85";
     Binary64Engine.rule_confidence := 0.95%float |}.

(** A context whose four sub-scores are 0.9, 1, 1 and 0.7 in exact
    arithmetic, so that their exact mean is the approval threshold. *)
Definition threshold_context : Binary64Engine.DeploymentContext :=
  {| Binary64Engine.environment := "production";
     Binary64Engine.application_version := "1.0.0";
     Binary64Engine.deployment_strategy := "blue-green";
     Binary64Engine.quality_metrics :=
       {| Binary64Engine.test_coverage := 100.0;
          Binary64Engine.code_quality_score := 0.8;
          Binary64Engine.security_vulnerabilities := 0;
          Binary64Engine.performance_score := 0.8;
          Binary64Engine.reliability_score := 0.8;
          Binary64Engine.maintainability_score := 0.8 |};
     Binary64Engine.performance_metrics :=
       {| Binary64Engine.response_time_p95 := 0.0;
          Binary64Engine.throughput := 2000;
          Binary64Engine.error_rate := 0.0;
          Binary64Engine.cpu_utilization := 50.0;
          Binary64Engine.memory_utilization := 50.0;
          Binary64Engine.availability := 100.0 |};
     Binary64Engine.security_assessment :=
       {| Binary64Engine.vulnerability_count := 0;
          Binary64Engine.security_score := 0.95;
          Binary64Engine.compliance_score := 0.9;
          Binary64Engine.threat_level := LOW;
          Binary64Engine.quantum_security_enabled := true;
          Binary64Engine.zero_trust_validated := false |};
     Binary64Engine.risk_assessment :=
       {| Binary64Engine.overall_risk_score := 0.3;
          Binary64Engine.risk_level := LOW;
          Binary64Engine.risk_factors := [];
          Binary64Engine.mitigation_strategies := [];
          Binary64Engine.confidence_score := 0.85 |} |}%float.

(** The same context with exact numbers. *)
Definition threshold_context_exact : DeploymentContext :=
  {| environment := "production";
     application_version := "1.0.0";
     deployment_strategy := "blue-green";
     quality_metrics :=
       {| test_coverage := 100.0; code_quality_score := 0.8;
          security_vulnerabilities := 0; performance_score := 0.8;
          reliability_score := 0.8; maintainability_score := 0.8 |};
     performance_metrics :=
       {| response_time_p95 := 0.0; throughput := 2000; error_rate := 0.0;
          cpu_utilization := 50.0; memory_utilization := 50.0;
          availability := 100.0 |};
     security_assessment :=
       {| vulnerability_count := 0; security_score := 0.95;
          compliance_score := 0.9; threat_level := LOW;
          quantum_security_enabled := true; zero_trust_validated := false |};
     risk_assessment :=
       {| overall_risk_score := 0.3; risk_level := LOW; risk_factors := [];
          mitigation_strategies := []; confidence_score := 0.85;
          predictive_analysis := ∅ |};
     historical_data := ∅ |}.

(** ** PerformancePredictorAI (lines 791-810) *)

Module PerformancePredictorAI.

Definition predict_performance (context : DeploymentContext)
  : gmap string pyval :=
  let current_perf := performance_metrics context in
  let predicted_metrics : gmap string pyval :=
    {[ "response_time_p95" := VFloat (response_time_p95 current_perf * 0.95);
       "throughput" := VFloat (inject_Z (throughput current_perf) * 1.05);
       "error_rate" := VFloat (Py.max 0.01 (error_rate current_perf * 0.8));
       "availability" :=
         VFloat (Py.min 99.99 (availability current_perf + 0.1)) ]} in
  predicted_metrics.

End PerformancePredictorAI.

(** ** Vocabulary for the further properties *)

(** The mitigation that [_generate_mitigation_strategies] attaches to a
    factor label. *)
Definition strategy_for (factor : string) : list string :=
  if String.eqb factor "Low test coverage"
  then ["Increase test coverage before deployment"]
  else if String.eqb factor "Security vulnerabilities present"
  then ["Fix all security vulnerabilities"]
  else if String.eqb factor "High error rate"
  then ["Investigate and fix error causes"]
  else if String.eqb factor "Low availability"
  then ["Improve system reliability"]
  else [].

(** Rank of a decision string: reject below conditional below approve. *)
Definition tier (decision : string) : nat :=
  if String.eqb decision "approve" then 2
  else if String.eqb decision "conditional" then 1
  else 0.

(** What a sub-score function of the binary64 engine can produce: a
    number between 0 and 1, or the [OverflowError] with the given text. *)
Definition unit_or_overflow (message : string) (score : res float) : Prop :=
  match score with
  | Ok x => (0 <=? x)%float = true /\ (x <=? 1)%float = true
  | Raise e => e = OverflowError message
  end.

(** An [int] far inside the range of binary64. *)
Definition convertible (z : Z) : Prop := (- 2 ^ 1000 < z < 2 ^ 1000)%Z.

Definition is_rollback_hook (e : event) : bool :=
  match e with
  | ImmediateRollback | GradualRollback | TargetedRollback _ => true
  | _ => false
  end.

Definition is_monitor_handler (e : event) : bool :=
  match e with
  | HandleProductionAnomaly _ | HandleBusinessImpact _ => true
  | _ => false
  end.

(** Collaborators with the given stage executors, realtime collector and
    business-impact assessor, and the providers of [W]. *)
Definition with_hooks
    (validation build test : DeploymentContext -> res (gmap string pyval))
    (deploy : DeploymentStage -> DeploymentContext -> res (gmap string pyval))
    (setup : DeploymentContext -> res (gmap string pyval))
    (collect : Z -> res (gmap string pyval))
    (assess : gmap string pyval -> res (gmap string pyval))
    (W : Collaborators) : Collaborators :=
  {| _get_test_coverage := _get_test_coverage W;
     _get_code_quality_score := _get_code_quality_score W;
     _get_security_vulnerability_count := _get_security_vulnerability_count W;
     _get_performance_score := _get_performance_score W;
     _get_reliability_score := _get_reliability_score W;
     _get_maintainability_score := _get_maintainability_score W;
     _get_response_time_p95 := _get_response_time_p95 W;
     _get_current_throughput := _get_current_throughput W;
     _get_error_rate := _get_error_rate W;
     _get_cpu_utilization := _get_cpu_utilization W;
     _get_memory_utilization := _get_memory_utilization W;
     _get_availability := _get_availability W;
     _scan_vulnerabilities := _scan_vulnerabilities W;
     _calculate_security_score := _calculate_security_score W;
     _check_compliance := _check_compliance W;
     _execute_validation_stage := validation;
     _execute_build_stage := build;
     _execute_test_stage := test;
     _execute_deploy_stage := deploy;
     _setup_monitoring := setup;
     _collect_realtime_metrics := collect;
     _assess_business_impact := assess;
     strftime := strftime W;
     isoformat := isoformat W |}.

(** A context for an environment that is none of the three known ones. *)
Definition qa_context : DeploymentContext :=
  {| environment := "qa";
     application_version := application_version production_context;
     deployment_strategy := deployment_strategy production_context;
     quality_metrics := quality_metrics production_context;
     performance_metrics := performance_metrics production_context;
     security_assessment := security_assessment production_context;
     risk_assessment := empty_risk_assessment;
     historical_data := ∅ |}.

(** Placeholders whose build executor raises. *)
Definition failing_build : Collaborators :=
  with_hooks (_execute_validation_stage placeholders)
    (fun _ => Raise (RuntimeError "build failed"))
    (_execute_test_stage placeholders) (_execute_deploy_stage placeholders)
    (_setup_monitoring placeholders) (_collect_realtime_metrics placeholders)
    (_assess_business_impact placeholders) placeholders.

(** Passing tests with a coverage of 80. *)
Definition tests_at_80 : gmap string pyval :=
  {[ "tests_passed" := VBool true; "test_coverage" := VFloat 80;
     "test_count" := VInt 1247 ]}.

(** Placeholders whose test executor reports [tests_at_80]. *)
Definition low_coverage_tests : Collaborators :=
  with_hooks (_execute_validation_stage placeholders)
    (_execute_build_stage placeholders) (fun _ => Ok tests_at_80)
    (_execute_deploy_stage placeholders) (_setup_monitoring placeholders)
    (_collect_realtime_metrics placeholders)
    (_assess_business_impact placeholders) placeholders.

(** Placeholders whose business-impact assessor returns an empty
    dictionary. *)
Definition no_severity : Collaborators :=
  with_hooks (_execute_validation_stage placeholders)
    (_execute_build_stage placeholders) (_execute_test_stage placeholders)
    (_execute_deploy_stage placeholders) (_setup_monitoring placeholders)
    (_collect_realtime_metrics placeholders) (fun _ => Ok ∅) placeholders.

Definition validated : gmap string pyval :=
  {[ "validation_passed" := VBool true; "checks_completed" := VInt 15 ]}.

Definition built : gmap string pyval :=
  {[ "build_successful" := VBool true;
     "artifacts_created" :=
       VList [VStr "frontend"; VStr "api"; VStr "quantum"] ]}.

(** Collaborators whose coverage getter is [coverage] and whose other
    methods are those of [W]. *)
Definition with_coverage (coverage : res Q) (W : Collaborators)
  : Collaborators :=
  {| _get_test_coverage := coverage;
     _get_code_quality_score := _get_code_quality_score W;
     _get_security_vulnerability_count := _get_security_vulnerability_count W;
     _get_performance_score := _get_performance_score W;
     _get_reliability_score := _get_reliability_score W;
     _get_maintainability_score := _get_maintainability_score W;
     _get_response_time_p95 := _get_response_time_p95 W;
     _get_current_throughput := _get_current_throughput W;
     _get_error_rate := _get_error_rate W;
     _get_cpu_utilization := _get_cpu_utilization W;
     _get_memory_utilization := _get_memory_utilization W;
     _get_availability := _get_availability W;
     _scan_vulnerabilities := _scan_vulnerabilities W;
     _calculate_security_score := _calculate_security_score W;
     _check_compliance := _check_compliance W;
     _execute_validation_stage := _execute_validation_stage W;
     _execute_build_stage := _execute_build_stage W;
     _execute_test_stage := _execute_test_stage W;
     _execute_deploy_stage := _execute_deploy_stage W;
     _setup_monitoring := _setup_monitoring W;
     _collect_realtime_metrics := _collect_realtime_metrics W;
     _assess_business_impact := _assess_business_impact W;
     strftime := strftime W;
     isoformat := isoformat W |}.

(** Placeholders whose coverage getter raises. *)
Definition no_coverage_service : Collaborators :=
  with_coverage (Raise (RuntimeError "coverage service unavailable"))
    placeholders.

(** * Properties *)

(** ** Comparison operators *)

Lemma Qltb_true (a b : Q) : (a <? b) = true <-> a < b.
Proof.
  unfold Qltb. rewrite negb_true_iff, <- not_true_iff_false, Qle_bool_iff.
  split; [apply Qnot_le_lt | apply Qlt_not_le].
Qed.

Lemma Qltb_false (a b : Q) : (a <? b) = false <-> b <= a.
Proof.
  unfold Qltb. rewrite negb_false_iff. apply Qle_bool_iff.
Qed.

Lemma Qgtb_true (a b : Q) : (a >? b) = true <-> b < a.
Proof. apply Qltb_true. Qed.

Lemma Qgtb_false (a b : Q) : (a >? b) = false <-> a <= b.
Proof. apply Qltb_false. Qed.

Lemma Qgeb_true (a b : Q) : (a >=? b) = true <-> b <= a.
Proof. apply Qle_bool_iff. Qed.

Lemma Qgeb_false (a b : Q) : (a >=? b) = false <-> a < b.
Proof.
  unfold Qgeb. rewrite <- not_true_iff_false, Qle_bool_iff.
  split; [apply Qnot_le_lt | apply Qlt_not_le].
Qed.

(** Turns every boolean comparison among the hypotheses into its
    proposition. *)
Ltac reflect_comparisons :=
  repeat match goal with
    | H : (_ <? _) = true |- _ => apply Qltb_true in H
    | H : (_ <? _) = false |- _ => apply Qltb_false in H
    | H : (_ >? _) = true |- _ => apply Qgtb_true in H
    | H : (_ >? _) = false |- _ => apply Qgtb_false in H
    | H : (_ >=? _) = true |- _ => apply Qgeb_true in H
    | H : (_ >=? _) = false |- _ => apply Qgeb_false in H
    | H : (_ >? _)%Z = true |- _ => apply Z.gtb_lt in H
    | H : (_ >? _)%Z = false |- _ =>
        rewrite Z.gtb_ltb in H; apply Z.ltb_ge in H
    end.

(** Divisions by a literal become multiplications by its inverse, which
    linear arithmetic understands. *)
Ltac constant_divisions :=
  unfold Qdiv;
  repeat match goal with
    | |- context [Qinv ?c] =>
        let v := eval vm_compute in (Qinv c) in
        progress change (Qinv c) with v
    end.

Lemma max_lower (a b : Q) : a <= Py.max a b.
Proof.
  unfold Py.max. destruct (b >? a) eqn:E; reflect_comparisons; lra.
Qed.

Lemma max_upper (a b c : Q) : a <= c -> b <= c -> Py.max a b <= c.
Proof. unfold Py.max. destruct (b >? a); auto. Qed.

Lemma min_upper (a b : Q) : Py.min a b <= a.
Proof.
  unfold Py.min. destruct (b <? a) eqn:E; reflect_comparisons; lra.
Qed.

Lemma min_upper_r (a b : Q) : Py.min a b <= b.
Proof.
  unfold Py.min. destruct (b <? a) eqn:E; reflect_comparisons; lra.
Qed.

(** ** The exact weights and their binary64 sums fall in the same bucket *)

Lemma binary64_buckets_agree (c v e a : bool) :
  Binary64.risk_level (Binary64.risk_score c v e a)
  = exact_risk_level (exact_risk_score c v e a).
Proof. destruct c, v, e, a; vm_compute; reflexivity. Qed.

Lemma binary64_boundaries :
  Binary64.risk_score true false true false = 0.4%float
  /\ Binary64.risk_score true true false false = 0.5%float
  /\ Binary64.risk_score true true true false = 0.7%float.
Proof. repeat split; vm_compute; reflexivity. Qed.

(** ** Risk analyzer *)

Lemma risk_accumulation_exact (context : DeploymentContext) :
  snd (RiskAnalyzer.risk_accumulation context)
  = exact_risk_score
      (test_coverage (quality_metrics context) <? 80)
      (security_vulnerabilities (quality_metrics context) >? 0)%Z
      (error_rate (performance_metrics context) >? 0.5)
      (availability (performance_metrics context) <? 99.5).
Proof.
  unfold RiskAnalyzer.risk_accumulation, exact_risk_score.
  destruct (_ <? 80), (_ >? 0)%Z, (_ >? 0.5), (_ <? 99.5); reflexivity.
Qed.

Lemma analyzed_level (context : DeploymentContext) :
  risk_level (RiskAnalyzer.analyze_deployment_risk context)
  = exact_risk_level
      (overall_risk_score (RiskAnalyzer.analyze_deployment_risk context)).
Proof.
  unfold RiskAnalyzer.analyze_deployment_risk.
  destruct (RiskAnalyzer.risk_accumulation context) as [factors score].
  reflexivity.
Qed.

(** C5. For every context the risk score is the sum of the four fixed
    contributions (0.20 for coverage below 80, 0.30 for any vulnerability,
    0.20 for an error rate above 0.5, 0.15 for availability below 99.5),
    the factors are the labels of the triggered conditions in that order,
    and the level is HIGH from 0.7, MEDIUM from 0.4 (0.4 included) and LOW
    below; CRITICAL is never produced. *)
Theorem risk_score_is_sum_of_contributions (context : DeploymentContext) :
  let r := RiskAnalyzer.analyze_deployment_risk context in
  overall_risk_score r == spec_risk_score context
  /\ risk_factors r = spec_risk_factors context
  /\ (0.7 <= overall_risk_score r <-> risk_level r = HIGH)
  /\ (0.4 <= overall_risk_score r < 0.7 <-> risk_level r = MEDIUM)
  /\ (overall_risk_score r < 0.4 <-> risk_level r = LOW)
  /\ risk_level r <> CRITICAL.
Proof.
  intros r. split; [| split].
  - subst r. unfold RiskAnalyzer.analyze_deployment_risk,
      RiskAnalyzer.risk_accumulation, spec_risk_score, contribution.
    destruct (_ <? 80) eqn:E1, (_ >? 0)%Z eqn:E2, (_ >? 0.5) eqn:E3,
      (_ <? 99.5) eqn:E4; reflect_comparisons;
      repeat case_decide; try lra; try lia; cbn; lra.
  - subst r. unfold RiskAnalyzer.analyze_deployment_risk,
      RiskAnalyzer.risk_accumulation, spec_risk_factors, factor.
    destruct (_ <? 80) eqn:E1, (_ >? 0)%Z eqn:E2, (_ >? 0.5) eqn:E3,
      (_ <? 99.5) eqn:E4; reflect_comparisons;
      repeat case_decide; try lra; try lia; reflexivity.
  - subst r. rewrite (analyzed_level context).
    generalize (overall_risk_score (RiskAnalyzer.analyze_deployment_risk context)).
    intros s. unfold exact_risk_level.
    destruct (s >=? 0.7) eqn:E1; [| destruct (s >=? 0.4) eqn:E2];
      reflect_comparisons; repeat split; intros; try discriminate; try lra;
      try reflexivity.
Qed.

(** The two breakpoints: a score of exactly 0.4 is MEDIUM and a score of
    exactly 0.7 is HIGH; thresholds of the conditions are strict or not as
    written (availability 99.5 and coverage 80 do not trigger). *)
Example risk_at_breakpoints :
  let r4 := RiskAnalyzer.analyze_deployment_risk risk_04_context in
  let r7 := RiskAnalyzer.analyze_deployment_risk risk_07_context in
  overall_risk_score r4 == 0.4 /\ risk_level r4 = MEDIUM
  /\ risk_factors r4 = ["Low test coverage"; "High error rate"]
  /\ mitigation_strategies r4
     = ["Increase test coverage before deployment";
        "Investigate and fix error causes"]
  /\ overall_risk_score r7 == 0.7 /\ risk_level r7 = HIGH.
Proof. repeat split; vm_compute; reflexivity. Qed.

(** ** Rollback strategy *)

Lemma strategy_lookup (context : DeploymentContext)
    (partial_results : gmap string (gmap string pyval)) :
  AIDeploymentEngine.determine_rollback_strategy context partial_results
    !! "strategy"
  = Some (VStr (if String.eqb (environment context) "production"
                then "immediate" else "gradual")).
Proof.
  unfold AIDeploymentEngine.determine_rollback_strategy.
  destruct (String.eqb (environment context) "production");
    vm_compute; reflexivity.
Qed.

(** C6. For every context and every partial-results value the selected
    strategy is "immediate" exactly when the environment is "production"
    and "gradual" exactly when it is not; "targeted" is never selected. *)
Theorem rollback_strategy_by_environment (context : DeploymentContext)
    (partial_results : gmap string (gmap string pyval)) :
  let chosen :=
    AIDeploymentEngine.determine_rollback_strategy context partial_results
      !! "strategy" in
  (chosen = Some (VStr "immediate") <-> environment context = "production")
  /\ (chosen = Some (VStr "gradual") <-> environment context <> "production")
  /\ chosen <> Some (VStr "targeted").
Proof.
  cbv zeta. rewrite strategy_lookup.
  destruct (String.eqb_spec (environment context) "production") as [E | E];
    repeat split; intros; try congruence; try discriminate.
Qed.

(** Evaluates the dictionary reads whose dictionary and key are known. *)
Ltac eval_lookups :=
  repeat match goal with
    | |- context [Py.getitem ?m ?k] =>
        let v := eval vm_compute in (Py.getitem m k) in
        progress change (Py.getitem m k) with v
    | |- context [Py.get ?m ?k ?d] =>
        let v := eval vm_compute in (Py.get m k d) in
        progress change (Py.get m k d) with v
    end.

Lemma after_events_app (st : state) (a b : list event) :
  after_events (after_events st a) b = after_events st (a ++ b).
Proof. unfold after_events; cbn. now rewrite app_assoc. Qed.

Lemma after_no_events (st : state) : after_events st [] = st.
Proof. destruct st; unfold after_events; cbn. now rewrite app_nil_r. Qed.

Lemma emit_after (e : event) (st : state) :
  emit e st = (Ok tt, after_events st [e]).
Proof. reflexivity. Qed.

Lemma initiate_rollback_runs (context : DeploymentContext)
    (partial_results : gmap string (gmap string pyval)) (st : state) :
  Orchestrator._initiate_intelligent_rollback context partial_results st
  = (Ok tt, after_events st (rollback_events context partial_results)).
Proof.
  unfold Orchestrator._initiate_intelligent_rollback,
    Orchestrator.execute_rollback_strategy, rollback_events, rollback_hook,
    AIDeploymentEngine.determine_rollback_strategy.
  destruct (String.eqb (environment context) "production");
    unfold bind; eval_lookups; cbn; unfold after_events, emit; cbn;
    rewrite <- app_assoc; reflexivity.

Qed.

(** The targeted branch does read ["targets"] and raises when the key is
    missing; it is the strategy selection that keeps it from running. *)
Example targeted_branch_needs_targets :
  fst (Orchestrator.execute_rollback_strategy scenario_b_context
         targeted_without_targets initial_state)
  = Raise (KeyError "targets").
Proof. vm_compute. reflexivity. Qed.

(** C10. For every context and partial-results value the strategy
    dictionary has a "strategy" entry that is "immediate" or "gradual" and
    never "targeted"; rollback initiation therefore returns normally,
    invokes the immediate or the gradual hook followed by the
    notification, and never enters the targeted branch, so the missing
    "targets" key is never read. *)
Theorem rollback_initiation_never_targeted (context : DeploymentContext)
    (partial_results : gmap string (gmap string pyval)) (st : state) :
  let rollback_strategy :=
    AIDeploymentEngine.determine_rollback_strategy context partial_results in
  (rollback_strategy !! "strategy" = Some (VStr "immediate")
   \/ rollback_strategy !! "strategy" = Some (VStr "gradual"))
  /\ rollback_strategy !! "strategy" <> Some (VStr "targeted")
  /\ rollback_strategy !! "targets" = None
  /\ exists hook,
       (hook = ImmediateRollback \/ hook = GradualRollback)
       /\ Orchestrator._initiate_intelligent_rollback context partial_results st
          = (Ok tt,
             after_events st [hook; NotifyRollbackCompletion rollback_strategy])
       /\ existsb is_targeted_rollback
            [hook; NotifyRollbackCompletion rollback_strategy] = false.
Proof.
  cbv zeta. rewrite strategy_lookup. repeat split.
  - destruct (String.eqb (environment context) "production"); auto.
  - destruct (String.eqb (environment context) "production"); discriminate.
  - unfold AIDeploymentEngine.determine_rollback_strategy.
    destruct (String.eqb (environment context) "production");
      vm_compute; reflexivity.
  - exists (rollback_hook context). repeat split.
    + unfold rollback_hook.
      destruct (String.eqb (environment context) "production"); auto.
    + apply initiate_rollback_runs.
    + unfold rollback_hook.
      destruct (String.eqb (environment context) "production"); reflexivity.
Qed.

(** ** Decision engine *)

Lemma no_rule_found (config : Config.t) (context : DeploymentContext) :
  (forall rule, In rule (Config.deployment_approval config) ->
     AIDeploymentEngine._evaluate_rule_condition (Config.condition rule)
       context (AIDeploymentEngine.overall_score context) = false) ->
  find (fun rule =>
          AIDeploymentEngine._evaluate_rule_condition (Config.condition rule)
            context (AIDeploymentEngine.overall_score context))
       (Config.deployment_approval config) = None.
Proof.
  induction (Config.deployment_approval config) as [| rule rules IH];
    intros H; cbn; [reflexivity |].
  rewrite (H rule (or_introl eq_refl)). apply IH.
  intros rule' Hin. apply H. now right.
Qed.

(** *** Order of binary64 numbers *)

Lemma SFleb_trans (x y z : spec_float) :
  SFleb x y = true -> SFleb y z = true -> SFleb x z = true.
Proof.
  unfold SFleb, SFcompare.
  destruct x as [[]|[]| |[] mx ex], y as [[]|[]| |[] my ey],
    z as [[]|[]| |[] mz ez]; try reflexivity; try discriminate;
    rewrite ?Pos.compare_cont_spec; cbn [Pos.switch_Eq];
    destruct (Z.compare_spec ex ey), (Z.compare_spec ey ez),
      (Z.compare_spec ex ez); try reflexivity; try discriminate; try lia;
    try (destruct (Pos.compare_spec mx my), (Pos.compare_spec my mz),
           (Pos.compare_spec mx mz);
         cbn; try reflexivity; try discriminate; lia).
Qed.

Lemma SFltb_leb (x y : spec_float) : SFltb x y = true -> SFleb x y = true.
Proof.
  unfold SFltb, SFleb. destruct (SFcompare x y) as [[]|]; congruence.
Qed.

Lemma leb_trans (x y z : float) :
  (x <=? y)%float = true -> (y <=? z)%float = true -> (x <=? z)%float = true.
Proof. rewrite !leb_spec. apply SFleb_trans. Qed.

Lemma ltb_leb (x y : float) :
  (x <? y)%float = true -> (x <=? y)%float = true.
Proof. rewrite ltb_spec, leb_spec. apply SFltb_leb. Qed.

Lemma above_090_above_085 (x : float) :
  (0.9 <=? x)%float = true -> (0.85 <=? x)%float = true.
Proof. apply leb_trans. reflexivity. Qed.

Lemma above_090_above_070 (x : float) :
  (0.9 <=? x)%float = true -> (0.7 <=? x)%float = true.
Proof. apply leb_trans. reflexivity. Qed.

(** *** The decision on binary64 numbers *)

Lemma binary64_no_rule_found (decision_rules : list Binary64Engine.rule)
    (context : Binary64Engine.DeploymentContext) (overall : float) :
  (forall rule, In rule decision_rules ->
     Binary64Engine._evaluate_rule_condition (Binary64Engine.condition rule)
       context overall = false) ->
  find (fun rule =>
          Binary64Engine._evaluate_rule_condition
            (Binary64Engine.condition rule) context overall)
       decision_rules = None.
Proof.
  induction decision_rules as [| rule rules IH]; intros H; [reflexivity |].
  cbn [find]. rewrite (H rule) by now left.
  apply IH. intros rule' Hin. apply H. now right.
Qed.

Lemma binary64_rule_found (decision_rules : list Binary64Engine.rule)
    (context : Binary64Engine.DeploymentContext) (overall : float) :
  find (fun rule =>
          Binary64Engine._evaluate_rule_condition
            (Binary64Engine.condition rule) context overall)
       decision_rules
  = if (0.85 <=? overall)%float then head decision_rules else None.
Proof.
  unfold Binary64Engine._evaluate_rule_condition.
  destruct (0.85 <=? overall)%float.
  - destruct decision_rules; reflexivity.
  - induction decision_rules as [| r l IH]; [reflexivity | exact IH].
Qed.

(** The exact mean of [threshold_context] is 0.9 and the engine on
    rationals approves; the binary64 mean is 0.8999999999999999 and the
    engine the interpreter runs decides conditional. *)
Lemma exact_mean_at_threshold :
  AIDeploymentEngine.overall_score threshold_context_exact == 0.9
  /\ decision
       (AIDeploymentEngine.make_deployment_decision
          {| Config.stages := []; Config.deployment_approval := [] |}
          threshold_context_exact) = "approve"
  /\ exists d,
       Binary64Engine.make_deployment_decision [] threshold_context = Ok d
       /\ Binary64Engine.decision d = "conditional"
       /\ Binary64Engine.confidence d = 0.8999999999999999%float.
Proof.
  split; [vm_compute; reflexivity |]. split; [vm_compute; reflexivity |].
  eexists. split; [vm_compute; reflexivity |]. split; reflexivity.
Qed.

(** C4. When no configured approval rule fires, the decision is: approve
    with confidence = overall and autonomous execution when overall >= 0.9;
    otherwise conditional with confidence = overall, the two conditions
    enhanced_monitoring and gradual_rollout and no autonomous execution
    when overall >= 0.7; otherwise reject with confidence = 1 - overall and
    no autonomous execution.  overall is the mean of the quality,
    performance, security and risk-complement sub-scores, and the mean,
    the complement and the comparisons are those of binary64 arithmetic,
    on the sub-scores the three functions return. *)
Theorem default_decision_when_no_rule_fires
    (decision_rules : list Binary64Engine.rule)
    (context : Binary64Engine.DeploymentContext)
    (quality performance security : float) :
  Binary64Engine._calculate_quality_score
    (Binary64Engine.quality_metrics context) = Ok quality ->
  Binary64Engine._calculate_performance_score
    (Binary64Engine.performance_metrics context) = Ok performance ->
  Binary64Engine._calculate_security_score
    (Binary64Engine.security_assessment context) = Ok security ->
  let risk :=
    Binary64Engine.overall_risk_score
      (Binary64Engine.risk_assessment context) in
  let overall :=
    ((quality + performance + security + (1.0 - risk)) / 4)%float in
  (forall rule, In rule decision_rules ->
     Binary64Engine._evaluate_rule_condition (Binary64Engine.condition rule)
       context overall = false) ->
  exists d,
    Binary64Engine.make_deployment_decision decision_rules context = Ok d
    /\ ((0.9 <=? overall)%float = true ->
        Binary64Engine.decision d = "approve"
        /\ Binary64Engine.confidence d = overall
        /\ Binary64Engine.autonomous_execution d = true)
    /\ ((0.9 <=? overall)%float = false ->
        (0.7 <=? overall)%float = true ->
        Binary64Engine.decision d = "conditional"
        /\ Binary64Engine.confidence d = overall
        /\ Binary64Engine.conditions d
           = ["enhanced_monitoring"; "gradual_rollout"]
        /\ Binary64Engine.autonomous_execution d = false)
    /\ ((0.7 <=? overall)%float = false ->
        Binary64Engine.decision d = "reject"
        /\ Binary64Engine.confidence d = (1.0 - overall)%float
        /\ Binary64Engine.autonomous_execution d = false).
Proof.
  intros Hq Hp Hs risk overall Hrules.
  unfold Binary64Engine.make_deployment_decision.
  rewrite Hq, Hp, Hs. cbv zeta. fold risk. fold overall.
  rewrite (binary64_no_rule_found _ _ _ Hrules).
  destruct (0.9 <=? overall)%float eqn:E9.
  - eexists. split; [reflexivity |].
    rewrite (above_090_above_070 _ E9). cbn. intuition discriminate.
  - destruct (0.7 <=? overall)%float eqn:E7;
      eexists; (split; [reflexivity |]); cbn; intuition discriminate.
Qed.

(** Scenario B with one configured rule: the sub-scores are
    0.8037500000000001, 0.9145749999999999 and 1.0, the rule does not
    fire and the default thresholds give a conditional decision. *)
Lemma default_decision_witness :
  exists d,
    Binary64Engine.make_deployment_decision [one_rule] scenario_b_binary64
    = Ok d
    /\ Binary64Engine.decision d = "conditional"
    /\ Binary64Engine.confidence d = 0.80458125%float
    /\ Binary64Engine.conditions d
       = ["enhanced_monitoring"; "gradual_rollout"]
    /\ Binary64Engine.autonomous_execution d = false.
Proof.
  destruct (default_decision_when_no_rule_fires [one_rule]
              scenario_b_binary64 0.8037500000000001 0.9145749999999999 1)
    as (d & Hd & _ & Hconditional & _);
    [vm_compute; reflexivity .. | |].
  - intros rule [<- | []]. vm_compute. reflexivity.
  - exists d. split; [exact Hd |]. apply Hconditional; vm_compute; reflexivity.
Defined.

Lemma quality_score_upper (metrics : QualityMetrics) (bound : Q) :
  0 <= bound ->
  0.25 * (test_coverage metrics / 100)
  + 0.25 * code_quality_score metrics
  + 0.25 * Py.max 0 (1.0 - (inject_Z (security_vulnerabilities metrics) / 10))
  + 0.125 * performance_score metrics
  + 0.125 * reliability_score metrics <= bound ->
  AIDeploymentEngine._calculate_quality_score metrics <= bound.
Proof.
  intros Hbound Hscore. unfold AIDeploymentEngine._calculate_quality_score.
  eapply Qle_trans; [apply min_upper_r |].
  apply max_upper; [lra | exact Hscore].
Qed.

Lemma performance_score_upper (metrics : PerformanceMetrics) :
  AIDeploymentEngine._calculate_performance_score metrics <= 1.
Proof.
  unfold AIDeploymentEngine._calculate_performance_score.
  eapply Qle_trans; [apply min_upper | lra].
Qed.

Lemma security_score_upper (assessment : SecurityAssessment) :
  AIDeploymentEngine._calculate_security_score assessment <= 1.
Proof.
  unfold AIDeploymentEngine._calculate_security_score.
  apply max_upper; [lra |]. eapply Qle_trans; [apply min_upper | lra].
Qed.

Lemma scenario_b_risk (context : DeploymentContext) :
  test_coverage (quality_metrics context) == 60 ->
  security_vulnerabilities (quality_metrics context) = 2%Z ->
  error_rate (performance_metrics context) <= 0.5 ->
  99.5 <= availability (performance_metrics context) ->
  RiskAnalyzer.risk_accumulation context
  = (["Low test coverage"; "Security vulnerabilities present"], 0.0 + 0.2 + 0.3).
Proof.
  intros Hcov Hvuln Herr Havail. unfold RiskAnalyzer.risk_accumulation.
  rewrite Hvuln.
  destruct (_ <? 80) eqn:E1, (_ >? 0.5) eqn:E3, (_ <? 99.5) eqn:E4;
    reflect_comparisons; try lra. reflexivity.
Qed.

(** C7. For every context within the ranges of the data model whose
    coverage is 60 and whose vulnerability count is 2, with error rate at
    most 0.5 and availability at least 99.5, the risk score is 0.50 and
    the level MEDIUM; the decision taken on that context, whatever rules
    are configured, is never an approval with autonomous execution: the
    overall score stays below 0.85, so neither the rule predicate nor
    the 0.9 threshold is met, and the decision is conditional or
    reject. *)
Theorem scenario_b_never_autonomous_approval (config : Config.t)
    (context : DeploymentContext) :
  within_data_model_ranges context ->
  test_coverage (quality_metrics context) == 60 ->
  security_vulnerabilities (quality_metrics context) = 2%Z ->
  error_rate (performance_metrics context) <= 0.5 ->
  99.5 <= availability (performance_metrics context) ->
  let r := RiskAnalyzer.analyze_deployment_risk context in
  let d :=
    AIDeploymentEngine.make_deployment_decision config
      (set_risk_assessment context r) in
  overall_risk_score r == 0.50
  /\ risk_level r = MEDIUM
  /\ AIDeploymentEngine.overall_score (set_risk_assessment context r) < 0.85
  /\ (forall rule,
        AIDeploymentEngine._evaluate_rule_condition (Config.condition rule)
          (set_risk_assessment context r)
          (AIDeploymentEngine.overall_score (set_risk_assessment context r))
        = false)
  /\ ~ (decision d = "approve" /\ autonomous_execution d = true)
  /\ (decision d = "conditional" \/ decision d = "reject").
Proof.
  intros Hranges Hcov Hvuln Herr Havail r d.
  assert (Hr : r = {| overall_risk_score := 0.0 + 0.2 + 0.3;
                      risk_level := MEDIUM;
                      risk_factors :=
                        ["Low test coverage"; "Security vulnerabilities present"];
                      mitigation_strategies :=
                        ["Increase test coverage before deployment";
                         "Fix all security vulnerabilities"];
                      confidence_score := 0.85;
                      predictive_analysis :=
                        {[ "failure_probability" := VFloat ((0.0 + 0.2 + 0.3) * 0.8) ]} |}).
  { subst r. unfold RiskAnalyzer.analyze_deployment_risk.
    rewrite (scenario_b_risk context Hcov Hvuln Herr Havail). reflexivity. }
  assert (Hoverall :
            AIDeploymentEngine.overall_score (set_risk_assessment context r)
            < 0.85).
  { rewrite Hr. unfold AIDeploymentEngine.overall_score. cbn.
    destruct Hranges as [(Hc & Hq & Hv & Hp & Hrel & Hm) _].
    pose proof (performance_score_upper (performance_metrics context)) as Hperf.
    pose proof (security_score_upper (security_assessment context)) as Hsec.
    assert (Hquality :
              AIDeploymentEngine._calculate_quality_score
                (quality_metrics context) <= 0.85).
    { apply quality_score_upper; [lra |]. rewrite Hvuln.
      assert (Hmax : Py.max 0 (1.0 - inject_Z 2 / 10) == 0.8)
        by (vm_compute; reflexivity).
      rewrite Hmax, Hcov. constant_divisions. lra. }
    constant_divisions. lra. }
  assert (Hrule : (AIDeploymentEngine.overall_score
                     (set_risk_assessment context r) >=? 0.85) = false)
    by (apply Qgeb_false; exact Hoverall).
  split; [rewrite Hr; cbn; lra |].
  split; [rewrite Hr; reflexivity |].
  split; [exact Hoverall |].
  split; [intros rule; exact Hrule |].
  assert (Hd : decision d = "conditional" \/ decision d = "reject").
  { subst d. unfold AIDeploymentEngine.make_deployment_decision.
    rewrite (no_rule_found config (set_risk_assessment context r)
               (fun rule _ => Hrule)).
    destruct (_ >=? 0.9) eqn:E9; [reflect_comparisons; lra |].
    destruct (_ >=? 0.7); cbn; auto. }
  split; [| exact Hd].
  intros [Happrove _]. destruct Hd as [Hd | Hd]; rewrite Hd in Happrove;
    discriminate Happrove.
Qed.

(** The theorem at the placeholder metrics with coverage 60 and two
    vulnerabilities, under a configuration with one approval rule. *)
Lemma scenario_b_witness :
  let r := RiskAnalyzer.analyze_deployment_risk scenario_b_context in
  let d :=
    AIDeploymentEngine.make_deployment_decision one_rule_config
      (set_risk_assessment scenario_b_context r) in
  overall_risk_score r == 0.50
  /\ risk_level r = MEDIUM
  /\ AIDeploymentEngine.overall_score (set_risk_assessment scenario_b_context r)
     < 0.85
  /\ (forall rule,
        AIDeploymentEngine._evaluate_rule_condition (Config.condition rule)
          (set_risk_assessment scenario_b_context r)
          (AIDeploymentEngine.overall_score
             (set_risk_assessment scenario_b_context r))
        = false)
  /\ ~ (decision d = "approve" /\ autonomous_execution d = true)
  /\ (decision d = "conditional" \/ decision d = "reject").
Proof.
  apply (scenario_b_never_autonomous_approval one_rule_config scenario_b_context).
  - unfold within_data_model_ranges; cbn; repeat split; try lia; lra.
  - cbn; reflexivity.
  - reflexivity.
  - cbn; lra.
  - cbn; lra.
Defined.

(** ** History tracker *)

(** C8, as stated, fails: on an empty log the summary reports a success
    rate of 0.95, an average deployment time of 25 and 15 similar
    deployments; only the total is zero. *)
Lemma empty_history_summary_counterexample :
  let summary := DeploymentHistoryTracker.relevant_history [] ∅ in
  DeploymentHistoryTracker.get_relevant_history ∅ initial_state
  = (Ok summary, initial_state)
  /\ summary !! "total_deployments" = Some (VInt 0)
  /\ summary !! "success_rate" = Some (VFloat 0.95)
  /\ summary !! "average_deployment_time" = Some (VInt 25)
  /\ summary !! "similar_deployments" = Some (VInt 15)
  /\ ~ (forall key v, summary !! key = Some v -> zero_value v = true).
Proof.
  cbv zeta. repeat split; try (vm_compute; reflexivity).
  intros H. specialize (H "similar_deployments" (VInt 15)).
  assert (Hz : zero_value (VInt 15) = true)
    by (apply H; vm_compute; reflexivity).
  discriminate Hz.
Qed.

(** C8, amended. For every request, when the history log is empty the
    query returns normally, leaves the tracker unchanged, and yields the
    summary with total_deployments = 0 and the fixed figures
    success_rate = 0.95, average_deployment_time = 25 and
    similar_deployments = 15. *)
Theorem empty_history_summary (request : gmap string string) (st : state) :
  deployment_history st = [] ->
  DeploymentHistoryTracker.get_relevant_history request st
  = (Ok {[ "total_deployments" := VInt 0;
           "success_rate" := VFloat 0.95;
           "average_deployment_time" := VInt 25;
           "similar_deployments" := VInt 15 ]}, st).
Proof.
  intros Hempty. unfold DeploymentHistoryTracker.get_relevant_history,
    DeploymentHistoryTracker.relevant_history.
  rewrite Hempty. reflexivity.
Qed.

Lemma empty_history_summary_witness :
  DeploymentHistoryTracker.get_relevant_history
    {[ "environment" := "staging" ]} initial_state
  = (Ok {[ "total_deployments" := VInt 0;
           "success_rate" := VFloat 0.95;
           "average_deployment_time" := VInt 25;
           "similar_deployments" := VInt 15 ]}, initial_state).
Proof.
  apply (empty_history_summary {[ "environment" := "staging" ]} initial_state).
  reflexivity.
Defined.

(** With any log the query returns normally and only the total varies. *)
Lemma relevant_history_total (request : gmap string string) (st : state) :
  exists summary,
    DeploymentHistoryTracker.get_relevant_history request st = (Ok summary, st)
    /\ summary !! "total_deployments"
       = Some (VInt (Z.of_nat (length (deployment_history st)))).
Proof.
  eexists. split; [reflexivity |].
  unfold DeploymentHistoryTracker.relevant_history.
  apply lookup_insert_eq.
Qed.

(** ** The orchestration monad *)

Lemma bind_ok {A B} (m : M A) (k : A -> M B) (st st' : state) (a : A) :
  m st = (Ok a, st') -> bind m k st = k a st'.
Proof. intros H. unfold bind. now rewrite H. Qed.

Lemma bind_raise {A B} (m : M A) (k : A -> M B) (st st' : state) (e : exn) :
  m st = (Raise e, st') -> bind m k st = (Raise e, st').
Proof. intros H. unfold bind. now rewrite H. Qed.

Lemma attempt_result {A} (m : M A) (st st' : state) (r : res A) :
  m st = (r, st') -> attempt m st = (Ok r, st').
Proof. intros H. unfold attempt. now rewrite H. Qed.

(** ** Stage loop *)

Example descriptor_names :
  map descriptor_name
    [VALIDATION; BUILD; TEST; DEPLOY_DEV; DEPLOY_STAGING; DEPLOY_PRODUCTION;
     MONITORING]
  = ["validation"; "build"; "test"; "deploy-development"; "deploy-staging";
     "deploy-production"; "monitoring"].
Proof. reflexivity. Qed.

Example replace_every_occurrence :
  Orchestrator.replace "a_deploy_b_deploy_" "deploy_" "deploy-"
  = "a_deploy-b_deploy-".
Proof. reflexivity. Qed.

Lemma no_descriptor_found (config : Config.t) (stage : DeploymentStage) :
  has_descriptor config stage = false ->
  find (fun s => String.eqb (Config.name s)
                   (Orchestrator.replace (stage_value stage) "deploy_" "deploy-"))
       (Config.stages config) = None.
Proof.
  unfold has_descriptor, descriptor_name.
  induction (Config.stages config) as [| s l IH]; cbn; [reflexivity |].
  destruct (String.eqb (Config.name s) _); cbn; [discriminate | exact IH].
Qed.

Lemma descriptor_found (config : Config.t) (stage : DeploymentStage) :
  has_descriptor config stage = true ->
  exists stage_conf,
    find (fun s => String.eqb (Config.name s)
                     (Orchestrator.replace (stage_value stage) "deploy_" "deploy-"))
         (Config.stages config) = Some stage_conf.
Proof.
  unfold has_descriptor, descriptor_name.
  induction (Config.stages config) as [| s l IH]; cbn; [discriminate |].
  destruct (String.eqb (Config.name s) _); cbn; [eauto | exact IH].
Qed.

Lemma on_exception_runs (context : DeploymentContext) (stage : DeploymentStage)
    (e : exn) (results : gmap string (gmap string pyval)) (st : state) :
  Orchestrator.on_exception context stage e results st
  = (Ok (Errored (stage_value stage) (exn_str e) true results),
     after_events st (rollback_events context results)).
Proof.
  unfold Orchestrator.on_exception.
  erewrite bind_ok by apply initiate_rollback_runs. reflexivity.
Qed.

(** One iteration whose stage executor raises. *)
Lemma run_stages_executor_raises (W : Collaborators) (config : Config.t)
    (context : DeploymentContext) (stage : DeploymentStage)
    (stages' : list DeploymentStage)
    (results : gmap string (gmap string pyval)) (st st1 : state) (e : exn) :
  Orchestrator._execute_deployment_stage W config stage context st
  = (Raise e, st1) ->
  Orchestrator.run_stages W config context (stage :: stages') results st
  = (Ok (Errored (stage_value stage) (exn_str e) true results),
     after_events st1 (rollback_events context results)).
Proof.
  intros Hexec. cbn [Orchestrator.run_stages].
  erewrite bind_ok by (apply attempt_result; exact Hexec).
  apply on_exception_runs.
Qed.

(** One iteration whose stage passes validation (and, for the production
    stage, whose monitor returns). *)
Lemma run_stages_continues (W : Collaborators) (config : Config.t)
    (context : DeploymentContext) (stage : DeploymentStage)
    (stages' : list DeploymentStage)
    (results : gmap string (gmap string pyval)) (st st1 st2 : state)
    (stage_result : gmap string pyval) :
  Orchestrator._execute_deployment_stage W config stage context st
  = (Ok stage_result, st1) ->
  Orchestrator.validate_and_monitor W context stage stage_result
    (<[stage_value stage := stage_result]> results) st1 = (Ok None, st2) ->
  Orchestrator.run_stages W config context (stage :: stages') results st
  = Orchestrator.run_stages W config context stages'
      (<[stage_value stage := stage_result]> results) st2.
Proof.
  intros Hexec Hcheck. cbn [Orchestrator.run_stages].
  erewrite bind_ok by (apply attempt_result; exact Hexec). cbn beta iota.
  erewrite bind_ok by (apply attempt_result; exact Hcheck). reflexivity.
Qed.

(** One iteration that returns early or raises after the executor. *)
Lemma run_stages_returns (W : Collaborators) (config : Config.t)
    (context : DeploymentContext) (stage : DeploymentStage)
    (stages' : list DeploymentStage)
    (results : gmap string (gmap string pyval)) (st st1 st2 : state)
    (stage_result : gmap string pyval) (outcome : deployment_result) :
  Orchestrator._execute_deployment_stage W config stage context st
  = (Ok stage_result, st1) ->
  Orchestrator.validate_and_monitor W context stage stage_result
    (<[stage_value stage := stage_result]> results) st1
  = (Ok (Some outcome), st2) ->
  Orchestrator.run_stages W config context (stage :: stages') results st
  = (Ok outcome, st2).
Proof.
  intros Hexec Hcheck. cbn [Orchestrator.run_stages].
  erewrite bind_ok by (apply attempt_result; exact Hexec). cbn beta iota.
  erewrite bind_ok by (apply attempt_result; exact Hcheck). reflexivity.
Qed.

(** The only early return of an iteration is the validation failure. *)
Lemma validate_and_monitor_early (W : Collaborators)
    (context : DeploymentContext) (stage : DeploymentStage)
    (stage_result : gmap string pyval)
    (results : gmap string (gmap string pyval)) (st st2 : state)
    (outcome : deployment_result) :
  Orchestrator.validate_and_monitor W context stage stage_result results st
  = (Ok (Some outcome), st2) ->
  outcome = Failed (stage_value stage) true results
  /\ st2 = after_events st (rollback_events context results)
  /\ exists v,
       AIDeploymentEngine.validate_stage_success stage stage_result context
       = Ok v /\ truthy v = false.
Proof.
  unfold Orchestrator.validate_and_monitor, bind, lift.
  destruct (AIDeploymentEngine.validate_stage_success stage stage_result context)
    as [v | e]; [| discriminate].
  destruct (truthy v) eqn:Hv; cbn [negb].
  - match goal with
    | |- context [match ?m st with _ => _ end] =>
        destruct (m st) as [[[] | e] st']
    end; unfold ret; discriminate.
  - rewrite initiate_rollback_runs. unfold ret. intros H.
    inversion H; subst. eauto.
Qed.

(** A run that ends in success has gone through every stage, so the same
    stages followed by others behave as the others started from the
    results and the state the first ones leave. *)
Lemma run_stages_app (W : Collaborators) (config : Config.t)
    (context : DeploymentContext) (before after : list DeploymentStage) :
  forall (results0 results : gmap string (gmap string pyval))
         (st0 st : state) (strategy : string) (enabled : bool),
    Orchestrator.run_stages W config context before results0 st0
    = (Ok (Success strategy results enabled), st) ->
    Orchestrator.run_stages W config context (before ++ after) results0 st0
    = Orchestrator.run_stages W config context after results st.
Proof.
  induction before as [| stage before IH]; intros results0 results st0 st s b H.
  - cbn in H. unfold ret in H. inversion H; subst. reflexivity.
  - cbn [app Orchestrator.run_stages] in *. unfold bind, attempt in *.
    destruct (Orchestrator._execute_deployment_stage W config stage context st0)
      as [[stage_result | e] st1].
    + destruct (Orchestrator.validate_and_monitor W context stage stage_result
                  (<[stage_value stage := stage_result]> results0) st1)
        as [[[outcome |] | e] st2] eqn:Hcheck.
      * apply validate_and_monitor_early in Hcheck as [-> _].
        unfold ret in H. discriminate H.
      * apply (IH _ _ _ _ _ _ H).
      * rewrite on_exception_runs in H. discriminate H.
    + rewrite on_exception_runs in H. discriminate H.
Qed.

(** ** Missing stage descriptor *)

(** C3, as stated, fails: with the descriptor of the build stage missing,
    the validation stage runs first, the failure surfaces when the loop
    reaches the build stage, rollback is initiated and the result reports
    rollback_initiated = true. *)
Lemma missing_descriptor_counterexample :
  has_descriptor config_without_build BUILD = false
  /\ exists deployment_id d context results st',
       Orchestrator.orchestrate_deployment placeholders config_without_build
         production_request initial_state
       = (Ok (Orchestrated deployment_id d
                (Errored "build" "Stage configuration not found for build"
                   true results)
                context), st')
       /\ results !! "validation"
          = Some {[ "validation_passed" := VBool true;
                    "checks_completed" := VInt 15 ]}
       /\ trace st'
          = [StageExecutor VALIDATION; ImmediateRollback;
             NotifyRollbackCompletion immediate_strategy].
Proof.
  split; [vm_compute; reflexivity |].
  do 5 eexists. split; [vm_compute; reflexivity |].
  split; vm_compute; reflexivity.
Qed.

(** C3, amended. When the stages before it have passed and the loop
    reaches a stage that has no descriptor of its name, the run is aborted
    at that stage: the stages before it have run and their results are
    kept, the outcome is an error result that names the stage, and
    rollback is initiated, the result reporting rollback_initiated =
    true. *)
Theorem missing_descriptor_errors_with_rollback (W : Collaborators)
    (config : Config.t) (context : DeploymentContext)
    (decision : DeploymentDecision)
    (before after : list DeploymentStage) (stage : DeploymentStage)
    (results : gmap string (gmap string pyval)) (st0 st : state)
    (strategy : string) (enabled : bool) :
  Orchestrator.deployment_stages context = before ++ stage :: after ->
  Orchestrator.run_stages W config context before ∅ st0
  = (Ok (Success strategy results enabled), st) ->
  has_descriptor config stage = false ->
  Orchestrator._execute_autonomous_deployment W config context decision st0
  = (Ok (Errored (stage_value stage)
           ("Stage configuration not found for " +:+ stage_value stage)
           true results),
     after_events st (rollback_events context results)).
Proof.
  intros Hstages Hbefore Hmissing.
  unfold Orchestrator._execute_autonomous_deployment. rewrite Hstages.
  rewrite (run_stages_app W config context before (stage :: after)
             ∅ results st0 st strategy enabled Hbefore).
  apply (run_stages_executor_raises W config context stage after results st st
           (ValueError
              ("Stage configuration not found for " +:+ stage_value stage))).
  unfold Orchestrator._execute_deployment_stage.
  rewrite (no_descriptor_found config stage Hmissing). reflexivity.
Qed.

Lemma missing_descriptor_witness :
  Orchestrator._execute_autonomous_deployment placeholders config_without_build
    production_context approval initial_state
  = (Ok (Errored "build" "Stage configuration not found for build" true
           {[ "validation" := {[ "validation_passed" := VBool true;
                                 "checks_completed" := VInt 15 ]} ]}),
     after_events initial_state
       [StageExecutor VALIDATION; ImmediateRollback;
        NotifyRollbackCompletion immediate_strategy]).
Proof.
  apply (missing_descriptor_errors_with_rollback placeholders
           config_without_build production_context approval
           [VALIDATION] [TEST; DEPLOY_DEV; DEPLOY_STAGING; DEPLOY_PRODUCTION;
                         MONITORING]
           BUILD _ initial_state (after_events initial_state [StageExecutor VALIDATION])
           "blue-green-with-canary" true).
  - vm_compute; reflexivity.
  - vm_compute; reflexivity.
  - vm_compute; reflexivity.
Defined.

(** ** Conditional decisions *)

Lemma conditional_decision_conditions (config : Config.t)
    (context : DeploymentContext) :
  decision (AIDeploymentEngine.make_deployment_decision config context)
  = "conditional" ->
  conditions (AIDeploymentEngine.make_deployment_decision config context)
  = ["enhanced_monitoring"; "gradual_rollout"].
Proof.
  unfold AIDeploymentEngine.make_deployment_decision.
  destruct (find _ _); [discriminate |].
  destruct (_ >=? 0.9); [discriminate |].
  destruct (_ >=? 0.7); [reflexivity | discriminate].
Qed.

(** C2, as stated, fails: with coverage 60 and two vulnerabilities the
    decision is conditional, the orchestration returns
    conditional_success with the two conditions, and no stage executor is
    invoked, whereas the approved run of the placeholders on the same
    request goes through the seven stages. *)
Lemma conditional_decision_counterexample :
  (exists deployment_id d context st',
      Orchestrator.orchestrate_deployment scenario_b full_config
        production_request initial_state
      = (Ok (Orchestrated deployment_id d
               (ConditionalSuccess ["enhanced_monitoring"; "gradual_rollout"])
               context), st')
      /\ decision d = "conditional"
      /\ trace st' = []
      /\ Orchestrator.deployment_stages context
         = [VALIDATION; BUILD; TEST; DEPLOY_DEV; DEPLOY_STAGING;
            DEPLOY_PRODUCTION; MONITORING])
  /\ firstn 7
       (trace (snd (Orchestrator.orchestrate_deployment placeholders
                      full_config production_request initial_state)))
     = map StageExecutor
         [VALIDATION; BUILD; TEST; DEPLOY_DEV; DEPLOY_STAGING;
          DEPLOY_PRODUCTION; MONITORING].
Proof.
  split.
  - do 4 eexists. split; [vm_compute; reflexivity |].
    repeat split; vm_compute; reflexivity.
  - vm_compute; reflexivity.
Qed.

(** C2, amended. For every deployment request whose decision is
    conditional, the orchestrator runs no pipeline stage and invokes no
    hook: it returns the outcome conditional_success, in which it records
    the decision's conditions (enhanced_monitoring and gradual_rollout),
    and appends that outcome to the history. *)
Theorem conditional_decision_records_conditions (W : Collaborators)
    (config : Config.t) (request : gmap string string) (st : state)
    (gathered : DeploymentContext) :
  Orchestrator._gather_deployment_context W request st = (Ok gathered, st) ->
  let context :=
    set_risk_assessment gathered
      (RiskAnalyzer.analyze_deployment_risk gathered) in
  let d := AIDeploymentEngine.make_deployment_decision config context in
  let deployment_id := "deploy-" +:+ strftime W (clock st) in
  decision d = "conditional" ->
  Orchestrator.orchestrate_deployment W config request st
  = (Ok (Orchestrated deployment_id d (ConditionalSuccess (conditions d))
           context),
     {| clock := clock st;
        trace := trace st;
        deployment_history :=
          deployment_history st
          ++ [ {| record_deployment_id := deployment_id;
                  record_timestamp := isoformat W (clock st);
                  record_context := context;
                  record_decision := d;
                  record_result := ConditionalSuccess (conditions d) |} ] |})
  /\ conditions d = ["enhanced_monitoring"; "gradual_rollout"].
Proof.
  intros Hgather context d deployment_id Hd.
  split; [| apply conditional_decision_conditions; exact Hd].
  unfold Orchestrator.orchestrate_deployment, now.
  unfold bind at 1. unfold Orchestrator.orchestrate.
  erewrite bind_ok.
  2:{ apply attempt_result. erewrite bind_ok by exact Hgather.
      fold context. fold d. rewrite Hd. cbn [String.eqb Ascii.eqb Bool.eqb andb].
      unfold Orchestrator._execute_conditional_deployment.
      unfold bind, ret, DeploymentHistoryTracker.record_deployment.
      reflexivity. }
  reflexivity.
Qed.

Lemma conditional_decision_witness :
  let context :=
    set_risk_assessment scenario_b_gathered
      (RiskAnalyzer.analyze_deployment_risk scenario_b_gathered) in
  let d := AIDeploymentEngine.make_deployment_decision full_config context in
  Orchestrator.orchestrate_deployment scenario_b full_config production_request
    initial_state
  = (Ok (Orchestrated "deploy-20250101-000000" d
           (ConditionalSuccess (conditions d)) context),
     {| clock := 0;
        trace := [];
        deployment_history :=
          [ {| record_deployment_id := "deploy-20250101-000000";
               record_timestamp := "2025-01-01T00:00:00";
               record_context := context;
               record_decision := d;
               record_result := ConditionalSuccess (conditions d) |} ] |})
  /\ conditions d = ["enhanced_monitoring"; "gradual_rollout"].
Proof.
  apply (conditional_decision_records_conditions scenario_b full_config
           production_request initial_state scenario_b_gathered).
  - vm_compute; reflexivity.
  - vm_compute; reflexivity.
Defined.

(** ** Production monitor *)

Lemma advance_advance (st : state) (a b : Z) :
  advance (advance st a) b = advance st (a + b).
Proof. unfold advance; cbn. f_equal. lia. Qed.

Lemma sample_time_next (t0 : Z) (k : nat) :
  sample_time (t0 + Orchestrator.check_interval) k = sample_time t0 (S k).
Proof. unfold sample_time, Orchestrator.check_interval. lia. Qed.

(** A tick whose sample trips neither check goes on to the next tick. *)
Lemma monitoring_loop_quiet (W : Collaborators) (context : DeploymentContext)
    (i : Z) (ticks : list Z) (st : state) :
  quiet_at W context (clock st + Orchestrator.check_interval) ->
  Orchestrator.monitoring_loop W context (i :: ticks) st
  = Orchestrator.monitoring_loop W context ticks
      (advance st Orchestrator.check_interval).
Proof.
  intros (metrics & impact & severity & Hcollect & Hdetect & Hassess & Hsev & Hgt).
  cbn [Orchestrator.monitoring_loop]. unfold bind, sleep, now, lift. cbn.
  rewrite Hcollect, Hdetect, Hassess, Hsev, Hgt. reflexivity.
Qed.

(** A tick whose sample is flagged calls the handler and ends the loop. *)
Lemma monitoring_loop_flagged (W : Collaborators) (context : DeploymentContext)
    (i : Z) (ticks : list Z) (st : state) (hook : event) :
  flagged_at W context (clock st + Orchestrator.check_interval) hook ->
  Orchestrator.monitoring_loop W context (i :: ticks) st
  = (Ok tt, after_events (advance st Orchestrator.check_interval) [hook]).
Proof.
  intros [(metrics & [Hcollect Hdetect] & ->)
         | (impact & (metrics & severity & Hcollect & Hdetect & Hassess
                      & Hsev & Hgt) & ->)];
    cbn [Orchestrator.monitoring_loop]; unfold bind, sleep, now, lift; cbn.
  - rewrite Hcollect, Hdetect. reflexivity.
  - rewrite Hcollect, Hdetect, Hassess, Hsev, Hgt. reflexivity.
Qed.

(** The loop stops at the first flagged tick. *)
Lemma monitoring_loop_first_flag (W : Collaborators)
    (context : DeploymentContext) (hook : event) (k : nat) :
  forall (ticks : list Z) (st : state),
    (k < length ticks)%nat ->
    (forall j, (j < k)%nat -> quiet_at W context (sample_time (clock st) j)) ->
    flagged_at W context (sample_time (clock st) k) hook ->
    Orchestrator.monitoring_loop W context ticks st
    = (Ok tt,
       after_events
         (advance st (Orchestrator.check_interval * (Z.of_nat k + 1))) [hook]).
Proof.
  induction k as [| k IH]; intros ticks st Hlen Hquiet Hflag;
    destruct ticks as [| i ticks]; cbn in Hlen; try lia.
  - rewrite (monitoring_loop_flagged W context i ticks st hook).
    + reflexivity.
    + unfold sample_time in Hflag. cbn in Hflag.
      now rewrite Z.mul_1_r in Hflag.
  - rewrite monitoring_loop_quiet.
    + rewrite (IH ticks (advance st Orchestrator.check_interval)).
      * rewrite advance_advance. do 3 f_equal.
        unfold Orchestrator.check_interval. lia.
      * lia.
      * intros j Hj. cbn [clock advance]. rewrite sample_time_next.
        apply Hquiet. lia.
      * cbn [clock advance]. rewrite sample_time_next. exact Hflag.
    + specialize (Hquiet 0%nat ltac:(lia)). unfold sample_time in Hquiet.
      cbn in Hquiet. now rewrite Z.mul_1_r in Hquiet.
Qed.

Lemma monitoring_window_ticks :
  length (Py.range 0 Orchestrator.monitoring_duration
            Orchestrator.check_interval) = 30%nat.
Proof. reflexivity. Qed.

(** C1, as stated, fails: the response time of the second sample exceeds
    1.5 times the baseline, the monitor calls its anomaly handler and
    stops after that tick, and the run nevertheless goes on to the
    monitoring stage and ends in success; no rollback hook is invoked. *)
Lemma monitor_anomaly_counterexample :
  anomaly_at degrading_flagged production_context 20 slow_sample
  /\ exists deployment_id d context results st',
       Orchestrator.orchestrate_deployment degrading_flagged full_config
         production_request initial_state
       = (Ok (Orchestrated deployment_id d
                (Success "blue-green-with-canary" results true) context), st')
       /\ environment context = "production"
       /\ performance_metrics context = performance_metrics production_context
       /\ results !! "deploy_production" = Some deployed
       /\ trace st'
          = [StageExecutor VALIDATION; StageExecutor BUILD; StageExecutor TEST;
             StageExecutor DEPLOY_DEV; StageExecutor DEPLOY_STAGING;
             StageExecutor DEPLOY_PRODUCTION;
             HandleProductionAnomaly slow_sample;
             StageExecutor MONITORING]
       /\ clock st' = 20%Z.
Proof.
  split; [split; vm_compute; reflexivity |].
  do 5 eexists. split; [vm_compute; reflexivity |].
  repeat split; vm_compute; reflexivity.
Qed.

(** C1, amended. In a run whose production-deploy executor succeeded and
    passed validation, when the monitor flags the sample of tick k (an
    anomaly, or a business-impact severity above 0.7) after k quiet
    ticks, the monitoring loop calls the corresponding handler and exits
    at that tick instead of running the remaining ticks, and it returns
    normally: the stage keeps its validated outcome and the pipeline
    continues with the stages that follow. *)
Theorem monitor_flag_ends_loop_and_pipeline_continues (W : Collaborators)
    (config : Config.t) (context : DeploymentContext)
    (stages' : list DeploymentStage)
    (results : gmap string (gmap string pyval))
    (stage_result : gmap string pyval) (st st1 : state) (k : nat)
    (hook : event) (validated : pyval) :
  Orchestrator._execute_deployment_stage W config DEPLOY_PRODUCTION context st
  = (Ok stage_result, st1) ->
  AIDeploymentEngine.validate_stage_success DEPLOY_PRODUCTION stage_result
    context = Ok validated ->
  truthy validated = true ->
  (k < 30)%nat ->
  (forall j, (j < k)%nat -> quiet_at W context (sample_time (clock st1) j)) ->
  flagged_at W context (sample_time (clock st1) k) hook ->
  let results' := <["deploy_production" := stage_result]> results in
  let st2 :=
    after_events
      (advance st1 (Orchestrator.check_interval * (Z.of_nat k + 1))) [hook] in
  Orchestrator._continuous_production_monitoring W context st1 = (Ok tt, st2)
  /\ Orchestrator.validate_and_monitor W context DEPLOY_PRODUCTION stage_result
       results' st1 = (Ok None, st2)
  /\ Orchestrator.run_stages W config context (DEPLOY_PRODUCTION :: stages')
       results st
     = Orchestrator.run_stages W config context stages' results' st2.
Proof.
  intros Hexec Hvalid Htruthy Hk Hquiet Hflag results' st2.
  assert (Hmonitor :
            Orchestrator._continuous_production_monitoring W context st1
            = (Ok tt, st2)).
  { unfold Orchestrator._continuous_production_monitoring.
    apply monitoring_loop_first_flag;
      [rewrite monitoring_window_ticks; exact Hk | exact Hquiet | exact Hflag]. }
  assert (Hcheck :
            Orchestrator.validate_and_monitor W context DEPLOY_PRODUCTION
              stage_result results' st1 = (Ok None, st2)).
  { unfold Orchestrator.validate_and_monitor.
    erewrite bind_ok by (unfold lift; rewrite Hvalid; reflexivity).
    rewrite Htruthy. cbn [negb Orchestrator.is_deploy_production].
    erewrite bind_ok by exact Hmonitor. reflexivity. }
  repeat split; [exact Hmonitor | exact Hcheck |].
  apply (run_stages_continues W config context DEPLOY_PRODUCTION stages'
           results st st1 st2 stage_result Hexec Hcheck).
Qed.

Lemma monitor_flag_witness :
  let st1 := after_events initial_state [StageExecutor DEPLOY_PRODUCTION] in
  let st2 :=
    after_events (advance st1 20) [HandleProductionAnomaly slow_sample] in
  Orchestrator._continuous_production_monitoring degrading production_context
    st1 = (Ok tt, st2)
  /\ Orchestrator.validate_and_monitor degrading production_context
       DEPLOY_PRODUCTION deployed {[ "deploy_production" := deployed ]} st1
     = (Ok None, st2)
  /\ Orchestrator.run_stages degrading full_config production_context
       [DEPLOY_PRODUCTION; MONITORING] ∅ initial_state
     = Orchestrator.run_stages degrading full_config production_context
         [MONITORING] {[ "deploy_production" := deployed ]} st2.
Proof.
  apply (monitor_flag_ends_loop_and_pipeline_continues degrading full_config
           production_context [MONITORING] ∅ deployed initial_state
           (after_events initial_state [StageExecutor DEPLOY_PRODUCTION])
           1 (HandleProductionAnomaly slow_sample) (VBool true)).
  - vm_compute; reflexivity.
  - vm_compute; reflexivity.
  - reflexivity.
  - lia.
  - intros j Hj. assert (j = 0%nat) as -> by lia.
    exists normal_sample. do 2 eexists.
    repeat split; vm_compute; reflexivity.
  - left. exists slow_sample. repeat split; vm_compute; reflexivity.
Defined.

(** ** Runs with the placeholder executors *)

Section Placeholders.

Variables (strftime isoformat : Z -> string).
Variable config : Config.t.
Variable context : DeploymentContext.

#[local] Abbreviation W := (builtin strftime isoformat).

(** The placeholder samples never make the monitor raise: it either runs
    the whole window or stops at a flagged tick. *)
Lemma placeholder_monitor_returns (ticks : list Z) :
  forall st,
    exists st' events,
      Orchestrator.monitoring_loop W context ticks st = (Ok tt, st')
      /\ trace st' = trace st ++ events
      /\ deployment_history st' = deployment_history st.
Proof.
  induction ticks as [| i ticks IH]; intros st.
  - exists st, []. cbn. now rewrite app_nil_r.
  - cbn [Orchestrator.monitoring_loop]. unfold bind, sleep, now, lift. cbn.
    unfold detect_anomaly. eval_lookups. cbn.
    destruct (_ >? _).
    + do 2 eexists. split; [reflexivity |]. cbn. split; reflexivity.
    + eval_lookups. cbn.
      destruct (IH {| clock := clock st + Orchestrator.check_interval;
                      trace := trace st;
                      deployment_history := deployment_history st |})
        as (st' & events & Hloop & Htrace & Hhistory).
      exists st', events. repeat split; assumption.
Qed.

(** Every stage before the monitoring stage passes with the placeholder
    executors, provided its descriptor exists. *)
Lemma placeholder_stage_passes (stage : DeploymentStage)
    (stages' : list DeploymentStage)
    (results : gmap string (gmap string pyval)) (st : state) :
  precedes_monitoring stage = true ->
  has_descriptor config stage = true ->
  exists stage_result st' events,
    Orchestrator.run_stages W config context (stage :: stages') results st
    = Orchestrator.run_stages W config context stages'
        (<[stage_value stage := stage_result]> results) st'
    /\ trace st' = trace st ++ events
    /\ deployment_history st' = deployment_history st.
Proof.
  intros Hstage Hdescriptor.
  destruct (descriptor_found config stage Hdescriptor) as [conf Hfind].
  assert (Hexec : exists stage_result,
             Orchestrator._execute_deployment_stage W config stage context st
             = (Ok stage_result, after_events st [StageExecutor stage])
             /\ exists v,
                  AIDeploymentEngine.validate_stage_success stage stage_result
                    context = Ok v /\ truthy v = true).
  { unfold Orchestrator._execute_deployment_stage. rewrite Hfind.
    destruct stage; try discriminate Hstage; eexists;
      (split; [reflexivity |]); eexists;
      (split; [cbn; eval_lookups; reflexivity | reflexivity]). }
  destruct Hexec as (stage_result & Hexec & v & Hvalid & Htruthy).
  assert (Hcheck : exists st' events,
             Orchestrator.validate_and_monitor W context stage stage_result
               (<[stage_value stage := stage_result]> results)
               (after_events st [StageExecutor stage]) = (Ok None, st')
             /\ trace st' = trace st ++ events
             /\ deployment_history st' = deployment_history st).
  { unfold Orchestrator.validate_and_monitor.
    erewrite bind_ok by (unfold lift; rewrite Hvalid; reflexivity).
    rewrite Htruthy. cbn [negb].
    destruct (Orchestrator.is_deploy_production stage).
    - destruct (placeholder_monitor_returns
                  (Py.range 0 Orchestrator.monitoring_duration
                     Orchestrator.check_interval)
                  (after_events st [StageExecutor stage]))
        as (st' & events & Hloop & Htrace & Hhistory).
      exists st', (StageExecutor stage :: events).
      unfold Orchestrator._continuous_production_monitoring.
      erewrite bind_ok by exact Hloop.
      repeat split; [| exact Hhistory].
      rewrite Htrace. cbn. now rewrite <- app_assoc.
    - exists (after_events st [StageExecutor stage]), [StageExecutor stage].
      repeat split. }
  destruct Hcheck as (st' & events & Hcheck & Htrace & Hhistory).
  exists stage_result, st', events. split; [| split; assumption].
  exact (run_stages_continues W config context stage stages' results st _ st'
           stage_result Hexec Hcheck).
Qed.

(** So does every sequence of such stages. *)
Lemma placeholder_stages_pass (stages : list DeploymentStage) :
  forallb precedes_monitoring stages = true ->
  forallb (has_descriptor config) stages = true ->
  forall (after : list DeploymentStage)
         (results : gmap string (gmap string pyval)) (st : state),
    exists results' st' events,
      Orchestrator.run_stages W config context (stages ++ after) results st
      = Orchestrator.run_stages W config context after results' st'
      /\ trace st' = trace st ++ events
      /\ deployment_history st' = deployment_history st.
Proof.
  induction stages as [| stage stages IH]; intros Hstages Hdescriptors after
    results st.
  - exists results, st, []. cbn. now rewrite app_nil_r.
  - cbn in Hstages, Hdescriptors.
    apply andb_prop in Hstages as [Hstage Hstages].
    apply andb_prop in Hdescriptors as [Hdescriptor Hdescriptors].
    destruct (placeholder_stage_passes stage (stages ++ after) results st
                Hstage Hdescriptor)
      as (stage_result & st1 & events1 & Hstep & Htrace1 & Hhistory1).
    destruct (IH Hstages Hdescriptors after
                (<[stage_value stage := stage_result]> results) st1)
      as (results' & st' & events & Hrest & Htrace & Hhistory).
    exists results', st', (events1 ++ events).
    cbn [app]. rewrite Hstep, Hrest. repeat split.
    + rewrite Htrace, Htrace1. now rewrite app_assoc.
    + congruence.
Qed.

(** The monitoring stage itself: the executor result lacks the flag the
    validator asks for. *)
Lemma placeholder_monitoring_fails
    (results : gmap string (gmap string pyval)) (st : state) :
  has_descriptor config MONITORING = true ->
  Orchestrator.run_stages W config context [MONITORING] results st
  = (Ok (Failed "monitoring" true (<["monitoring" := monitoring_set_up]> results)),
     after_events st
       (StageExecutor MONITORING
        :: rollback_events context
             (<["monitoring" := monitoring_set_up]> results))).
Proof.
  intros Hdescriptor.
  destruct (descriptor_found config MONITORING Hdescriptor) as [conf Hfind].
  apply (run_stages_returns W config context MONITORING [] results st
           (after_events st [StageExecutor MONITORING]) _ monitoring_set_up).
  - unfold Orchestrator._execute_deployment_stage. rewrite Hfind. reflexivity.
  - unfold Orchestrator.validate_and_monitor. cbn [stage_value].
    erewrite bind_ok by (unfold lift; cbn; eval_lookups; reflexivity).
    cbn [truthy negb].
    erewrite bind_ok by apply initiate_rollback_runs.
    rewrite after_events_app. reflexivity.
Qed.

(** The monitoring stage without a descriptor: the lookup raises. *)
Lemma undescribed_monitoring_errors
    (results : gmap string (gmap string pyval)) (st : state) :
  has_descriptor config MONITORING = false ->
  Orchestrator.run_stages W config context [MONITORING] results st
  = (Ok (Errored "monitoring" "Stage configuration not found for monitoring"
           true results),
     after_events st (rollback_events context results)).
Proof.
  intros Hmissing.
  apply (run_stages_executor_raises W config context MONITORING [] results st st
           (ValueError "Stage configuration not found for monitoring")).
  unfold Orchestrator._execute_deployment_stage.
  rewrite (no_descriptor_found config MONITORING Hmissing). reflexivity.
Qed.

Lemma pipeline_shape :
  exists stages,
    Orchestrator.deployment_stages context = stages ++ [MONITORING]
    /\ forallb precedes_monitoring stages = true.
Proof.
  unfold Orchestrator.deployment_stages.
  destruct (String.eqb (environment context) "development");
    [| destruct (String.eqb (environment context) "staging")].
  - exists [VALIDATION; BUILD; TEST; DEPLOY_DEV]. split; reflexivity.
  - exists [VALIDATION; BUILD; TEST; DEPLOY_DEV; DEPLOY_STAGING].
    split; reflexivity.
  - exists [VALIDATION; BUILD; TEST; DEPLOY_DEV; DEPLOY_STAGING;
            DEPLOY_PRODUCTION].
    split; reflexivity.
Qed.

End Placeholders.

(** C9. For every stage other than validation, build and test, the
    monitoring stage included, the validator returns exactly the
    "deployment_successful" entry of the result, false when it is absent.
    The placeholder monitoring executor returns a result without that
    entry, so every autonomous run of the placeholder executors that
    reaches the monitoring stage fails validation at "monitoring" and
    initiates rollback instead of ending in success.  (The run reaches
    the monitoring stage when the stages before it have their
    descriptors; should the descriptor of the monitoring stage itself be
    missing, the executor is not called and the run ends in an error at
    "monitoring", again with rollback.) *)
Theorem placeholder_run_fails_at_monitoring (strftime isoformat : Z -> string)
    (config : Config.t) (context : DeploymentContext)
    (decision : DeploymentDecision) (st : state) :
  (forall stage,
      In stage (Orchestrator.deployment_stages context) ->
      stage <> MONITORING -> has_descriptor config stage = true) ->
  (forall stage result ctx,
      stage <> VALIDATION -> stage <> BUILD -> stage <> TEST ->
      AIDeploymentEngine.validate_stage_success stage result ctx
      = Ok (Py.get result "deployment_successful" (VBool false)))
  /\ _setup_monitoring (builtin strftime isoformat) context
     = Ok monitoring_set_up
  /\ Py.get monitoring_set_up "deployment_successful" (VBool false)
     = VBool false
  /\ exists outcome results st' events,
       Orchestrator._execute_autonomous_deployment
         (builtin strftime isoformat) config context decision st
       = (Ok outcome, st')
       /\ trace st' = trace st ++ events ++ rollback_events context results
       /\ status outcome <> "success"
       /\ rollback_initiated_of outcome = Some true
       /\ (has_descriptor config MONITORING = true ->
           outcome = Failed "monitoring" true results
           /\ results !! "monitoring" = Some monitoring_set_up)
       /\ (has_descriptor config MONITORING = false ->
           outcome
           = Errored "monitoring" "Stage configuration not found for monitoring"
               true results).
Proof.
  intros Hdescriptors. split; [| split; [| split]].
  - intros stage result ctx H1 H2 H3. destruct stage; try congruence; reflexivity.
  - reflexivity.
  - vm_compute; reflexivity.
  - destruct (pipeline_shape context) as (stages & Hshape & Hbefore).
    unfold Orchestrator._execute_autonomous_deployment.
    rewrite Hshape in *.
    assert (Hstages : forallb (has_descriptor config) stages = true).
    { apply forallb_forall. intros stage Hin. apply Hdescriptors.
      - apply in_or_app. now left.
      - intros ->. rewrite forallb_forall in Hbefore.
        specialize (Hbefore MONITORING Hin). discriminate Hbefore. }
    destruct (placeholder_stages_pass strftime isoformat config context stages
                Hbefore Hstages [MONITORING] ∅ st)
      as (results & st1 & events & Hrun & Htrace & _).
    rewrite Hrun.
    destruct (has_descriptor config MONITORING) eqn:Hmonitoring.
    + rewrite (placeholder_monitoring_fails strftime isoformat config context
                 results st1 Hmonitoring).
      eexists. exists (<["monitoring" := monitoring_set_up]> results).
      eexists. exists (events ++ [StageExecutor MONITORING]).
      split; [reflexivity |].
      split; [cbn [trace after_events]; rewrite Htrace, <- !app_assoc;
              reflexivity |].
      split; [discriminate |]. split; [reflexivity |].
      split; [| discriminate].
      intros _. split; [reflexivity | apply lookup_insert_eq].
    + rewrite (undescribed_monitoring_errors strftime isoformat config context
                 results st1 Hmonitoring).
      eexists. exists results. eexists. exists events.
      split; [reflexivity |].
      split; [cbn [trace after_events]; rewrite Htrace, <- !app_assoc;
              reflexivity |].
      split; [discriminate |]. split; [reflexivity |].
      split; [discriminate | reflexivity].
Qed.

Lemma placeholder_run_witness :
  exists outcome results st' events,
    Orchestrator._execute_autonomous_deployment placeholders full_config
      production_context approval initial_state
    = (Ok outcome, st')
    /\ trace st'
       = trace initial_state ++ events
         ++ rollback_events production_context results
    /\ status outcome <> "success"
    /\ rollback_initiated_of outcome = Some true
    /\ (has_descriptor full_config MONITORING = true ->
        outcome = Failed "monitoring" true results
        /\ results !! "monitoring" = Some monitoring_set_up)
    /\ (has_descriptor full_config MONITORING = false ->
        outcome
        = Errored "monitoring" "Stage configuration not found for monitoring"
            true results).
Proof.
  apply (placeholder_run_fails_at_monitoring stamp iso full_config
           production_context approval initial_state).
  intros stage Hin Hstage. cbn in Hin.
  repeat (destruct Hin as [<- | Hin]; [reflexivity || congruence |]).
  contradiction.
Defined.

(** * Further properties of the code *)

(** ** Sub-scores *)

Lemma min_lower (a b c : Q) : c <= a -> c <= b -> c <= Py.min a b.
Proof. unfold Py.min. destruct (b <? a); auto. Qed.

Lemma max_lower_r (a b : Q) : b <= Py.max a b.
Proof.
  unfold Py.max. destruct (b >? a) eqn:E; reflect_comparisons; lra.
Qed.

Lemma quality_score_bounds (metrics : QualityMetrics) :
  0 <= AIDeploymentEngine._calculate_quality_score metrics <= 1.
Proof.
  unfold AIDeploymentEngine._calculate_quality_score. split.
  - apply min_lower; [lra |]. eapply Qle_trans; [| apply max_lower]. lra.
  - eapply Qle_trans; [apply min_upper | lra].
Qed.

Lemma performance_score_bounds (metrics : PerformanceMetrics) :
  0 <= AIDeploymentEngine._calculate_performance_score metrics <= 1.
Proof.
  split; [| apply performance_score_upper].
  unfold AIDeploymentEngine._calculate_performance_score.
  apply min_lower; [lra |]. eapply Qle_trans; [| apply max_lower]. lra.
Qed.

Lemma security_score_bounds (assessment : SecurityAssessment) :
  0 <= AIDeploymentEngine._calculate_security_score assessment <= 1.
Proof.
  split; [| apply security_score_upper].
  unfold AIDeploymentEngine._calculate_security_score.
  eapply Qle_trans; [| apply max_lower]. lra.
Qed.

Lemma clamp_max_first (x : float) :
  (0 <=? Binary64Engine.min 1.0 (Binary64Engine.max 0.0 x))%float = true
  /\ (Binary64Engine.min 1.0 (Binary64Engine.max 0.0 x) <=? 1)%float = true.
Proof.
  unfold Binary64Engine.min, Binary64Engine.max.
  destruct (0 <? x)%float eqn:E0.
  - destruct (x <? 1)%float eqn:E1.
    + split; apply ltb_leb; assumption.
    + split; reflexivity.
  - split; reflexivity.
Qed.

Lemma clamp_min_first (x : float) :
  (0 <=? Binary64Engine.max 0.0 (Binary64Engine.min 1.0 x))%float = true
  /\ (Binary64Engine.max 0.0 (Binary64Engine.min 1.0 x) <=? 1)%float = true.
Proof.
  unfold Binary64Engine.min, Binary64Engine.max.
  destruct (x <? 1)%float eqn:E1.
  - destruct (0 <? x)%float eqn:E0.
    + split; apply ltb_leb; assumption.
    + split; reflexivity.
  - split; reflexivity.
Qed.

(** X1. In binary64, whatever the metrics (NaN, infinities, negative or
    huge values), a sub-score that the decision engine returns lies
    between 0 and 1, and is therefore not NaN.  The only other outcome is
    the OverflowError of the integer operation of the function: the
    division of the vulnerability count by 10, of the throughput by 2000,
    and the conversion of the vulnerability count for its product with
    0.1.  A count of 10^400 triggers each of them. *)
Theorem sub_scores_in_unit_interval
    (context : Binary64Engine.DeploymentContext) :
  let quality := Binary64Engine.quality_metrics context in
  let performance := Binary64Engine.performance_metrics context in
  let security := Binary64Engine.security_assessment context in
  unit_or_overflow "integer division result too large for a float"
    (Binary64Engine._calculate_quality_score quality)
  /\ unit_or_overflow "integer division result too large for a float"
       (Binary64Engine._calculate_performance_score performance)
  /\ unit_or_overflow "int too large to convert to float"
       (Binary64Engine._calculate_security_score security)
  /\ (Binary64Engine.security_vulnerabilities quality = (10 ^ 400)%Z ->
      Binary64Engine._calculate_quality_score quality
      = Raise (OverflowError "integer division result too large for a float"))
  /\ (Binary64Engine.throughput performance = (10 ^ 400)%Z ->
      Binary64Engine._calculate_performance_score performance
      = Raise (OverflowError "integer division result too large for a float"))
  /\ (Binary64Engine.vulnerability_count security = (10 ^ 400)%Z ->
      Binary64Engine._calculate_security_score security
      = Raise (OverflowError "int too large to convert to float")).
Proof.
  cbv zeta.
  unfold Binary64Engine._calculate_quality_score,
    Binary64Engine._calculate_performance_score,
    Binary64Engine._calculate_security_score.
  repeat split.
  - unfold Binary64Engine.int_truediv, Binary64Engine.in_range.
    destruct (SFdiv _ _ _ _); cbn; try reflexivity; apply clamp_max_first.
  - unfold Binary64Engine.int_truediv, Binary64Engine.in_range.
    destruct (SFdiv _ _ _ _); cbn; try reflexivity; apply clamp_max_first.
  - unfold Binary64Engine.of_int, Binary64Engine.in_range.
    destruct (binary_normalize _ _ _ _ _); cbn; try reflexivity;
      apply clamp_min_first.
  - intros ->.
    replace (Binary64Engine.int_truediv (10 ^ 400) 10)
      with (@Raise float
              (OverflowError "integer division result too large for a float"))
      by (vm_compute; reflexivity).
    reflexivity.
  - intros ->.
    replace (Binary64Engine.int_truediv (10 ^ 400) 2000)
      with (@Raise float
              (OverflowError "integer division result too large for a float"))
      by (vm_compute; reflexivity).
    reflexivity.
  - intros ->.
    replace (Binary64Engine.of_int (10 ^ 400))
      with (@Raise float (OverflowError "int too large to convert to float"))
      by (vm_compute; reflexivity).
    reflexivity.
Qed.

(** ** Risk analyzer *)

Lemma risk_score_bounds (context : DeploymentContext) :
  0 <= overall_risk_score (RiskAnalyzer.analyze_deployment_risk context)
    <= 0.85.
Proof.
  unfold RiskAnalyzer.analyze_deployment_risk, RiskAnalyzer.risk_accumulation.
  destruct (_ <? 80), (_ >? 0)%Z, (_ >? 0.5), (_ <? 99.5);
    cbn -[Qle Qplus]; lra.
Qed.

(** X2. The risk score always lies between 0 and 0.85; it is 0 exactly
    when no factor is reported; the level is HIGH exactly when low
    coverage, vulnerabilities and a high error rate occur together,
    whatever the availability; and the predicted failure probability is
    0.8 times the score, hence at most 0.68. *)
Theorem risk_score_range (context : DeploymentContext) :
  let r := RiskAnalyzer.analyze_deployment_risk context in
  0 <= overall_risk_score r <= 0.85
  /\ (overall_risk_score r == 0 <-> risk_factors r = [])
  /\ (risk_level r = HIGH <->
      test_coverage (quality_metrics context) < 80
      /\ (0 < security_vulnerabilities (quality_metrics context))%Z
      /\ 0.5 < error_rate (performance_metrics context))
  /\ exists p,
       predictive_analysis r !! "failure_probability" = Some (VFloat p)
       /\ p == overall_risk_score r * 0.8 /\ 0 <= p <= 0.68.
Proof.
  cbv zeta. unfold RiskAnalyzer.analyze_deployment_risk,
    RiskAnalyzer.risk_accumulation.
  destruct (_ <? 80) eqn:E1, (_ >? 0)%Z eqn:E2, (_ >? 0.5) eqn:E3,
    (_ <? 99.5) eqn:E4; reflect_comparisons; cbn -[Qle Qlt Qeq Qmult Qplus];
    (split; [lra |]);
    (split; [split; intros H; try discriminate H; try reflexivity; lra |]);
    (split;
     [split; [intros H; try discriminate H; repeat split; assumption
             | intros (H1 & H2 & H3); try reflexivity; try lra; lia]
     | eexists; split; [apply lookup_singleton_eq | split; [reflexivity | lra]]]).
Qed.

Lemma mem_In (x : string) (l : list string) :
  RiskAnalyzer.mem x l = true <-> In x l.
Proof.
  unfold RiskAnalyzer.mem. rewrite existsb_exists. split.
  - intros (y & Hin & Heq). apply String.eqb_eq in Heq. now subst.
  - intros Hin. exists x. split; [exact Hin | apply String.eqb_refl].
Qed.

Lemma mem_same_elements (x : string) (l1 l2 : list string) :
  (forall y, In y l1 <-> In y l2) ->
  RiskAnalyzer.mem x l1 = RiskAnalyzer.mem x l2.
Proof.
  intros H. apply eq_true_iff_eq. rewrite !mem_In. apply H.
Qed.

(** X3. The assessment pairs each reported factor with its mitigation:
    the strategies are the mitigations of the reported factors, one per
    factor and in the same order. *)
Theorem mitigations_follow_factors (context : DeploymentContext) :
  let r := RiskAnalyzer.analyze_deployment_risk context in
  mitigation_strategies r = flat_map strategy_for (risk_factors r)
  /\ length (mitigation_strategies r) = length (risk_factors r).
Proof.
  cbv zeta. unfold RiskAnalyzer.analyze_deployment_risk,
    RiskAnalyzer.risk_accumulation.
  destruct (_ <? 80), (_ >? 0)%Z, (_ >? 0.5), (_ <? 99.5);
    split; reflexivity.
Qed.

(** X4. [_generate_mitigation_strategies] looks only at which labels
    occur: two lists with the same elements (reordered, with repetitions)
    give the same strategies; labels it does not know are ignored; the
    result has no repetition and at most four entries. *)
Theorem mitigations_depend_on_membership (l1 l2 : list string) :
  (forall x, In x l1 <-> In x l2) ->
  RiskAnalyzer._generate_mitigation_strategies l1
  = RiskAnalyzer._generate_mitigation_strategies l2
  /\ NoDup (RiskAnalyzer._generate_mitigation_strategies l1)
  /\ (length (RiskAnalyzer._generate_mitigation_strategies l1) <= 4)%nat
  /\ forall unknown,
       strategy_for unknown = [] ->
       RiskAnalyzer._generate_mitigation_strategies (unknown :: l1)
       = RiskAnalyzer._generate_mitigation_strategies l1.
Proof.
  intros Hsame. split; [| split; [| split]].
  - unfold RiskAnalyzer._generate_mitigation_strategies.
    now rewrite !(mem_same_elements _ l1 l2 Hsame).
  - unfold RiskAnalyzer._generate_mitigation_strategies.
    destruct (RiskAnalyzer.mem "Low test coverage" l1),
      (RiskAnalyzer.mem "Security vulnerabilities present" l1),
      (RiskAnalyzer.mem "High error rate" l1),
      (RiskAnalyzer.mem "Low availability" l1); cbn;
      apply (bool_decide_unpack _); vm_compute; exact I.
  - unfold RiskAnalyzer._generate_mitigation_strategies.
    destruct (RiskAnalyzer.mem "Low test coverage" l1),
      (RiskAnalyzer.mem "Security vulnerabilities present" l1),
      (RiskAnalyzer.mem "High error rate" l1),
      (RiskAnalyzer.mem "Low availability" l1); cbn; lia.
  - intros unknown Hunknown.
    unfold RiskAnalyzer._generate_mitigation_strategies, RiskAnalyzer.mem.
    cbn [existsb]. unfold strategy_for in Hunknown.
    rewrite (String.eqb_sym "Low test coverage" unknown),
      (String.eqb_sym "Security vulnerabilities present" unknown),
      (String.eqb_sym "High error rate" unknown),
      (String.eqb_sym "Low availability" unknown).
    destruct (String.eqb unknown "Low test coverage"); [discriminate |].
    destruct (String.eqb unknown "Security vulnerabilities present");
      [discriminate |].
    destruct (String.eqb unknown "High error rate"); [discriminate |].
    destruct (String.eqb unknown "Low availability"); [discriminate |].
    reflexivity.
Qed.

Lemma mitigations_depend_on_membership_witness :
  RiskAnalyzer._generate_mitigation_strategies
    ["Low availability"; "Low test coverage"; "Low availability"]
  = RiskAnalyzer._generate_mitigation_strategies
      ["Low test coverage"; "Low availability"]
  /\ NoDup (RiskAnalyzer._generate_mitigation_strategies
              ["Low availability"; "Low test coverage"; "Low availability"])
  /\ (length (RiskAnalyzer._generate_mitigation_strategies
                ["Low availability"; "Low test coverage"; "Low availability"])
      <= 4)%nat
  /\ forall unknown,
       strategy_for unknown = [] ->
       RiskAnalyzer._generate_mitigation_strategies
         (unknown :: ["Low availability"; "Low test coverage";
                      "Low availability"])
       = RiskAnalyzer._generate_mitigation_strategies
           ["Low availability"; "Low test coverage"; "Low availability"].
Proof.
  apply (mitigations_depend_on_membership
           ["Low availability"; "Low test coverage"; "Low availability"]
           ["Low test coverage"; "Low availability"]).
  intros x. cbn. intuition.
Defined.

(** ** Decision engine *)

(** X5. Every decision is one of approve, conditional and reject;
    autonomous execution is granted exactly to approvals; conditions are
    attached exactly to conditional decisions. *)
Theorem decision_shape (config : Config.t) (context : DeploymentContext) :
  let d := AIDeploymentEngine.make_deployment_decision config context in
  (decision d = "approve" \/ decision d = "conditional"
   \/ decision d = "reject")
  /\ (autonomous_execution d = true <-> decision d = "approve")
  /\ (conditions d <> [] <-> decision d = "conditional").
Proof.
  cbv zeta. unfold AIDeploymentEngine.make_deployment_decision.
  destruct (find _ _); [| destruct (_ >=? 0.9); [| destruct (_ >=? 0.7)]];
    cbn; intuition (try discriminate; try congruence).
Qed.

Lemma rule_found (rules : list Config.rule) (context : DeploymentContext) :
  find (fun rule =>
          AIDeploymentEngine._evaluate_rule_condition (Config.condition rule)
            context (AIDeploymentEngine.overall_score context)) rules
  = if AIDeploymentEngine.overall_score context >=? 0.85
    then head rules else None.
Proof.
  unfold AIDeploymentEngine._evaluate_rule_condition.
  destruct (_ >=? 0.85).
  - destruct rules; reflexivity.
  - induction rules as [| r l IH]; [reflexivity | exact IH].
Qed.

(** X6. As soon as one approval rule is configured, its condition text is
    not consulted: on the sub-scores the three functions return, the
    decision is an approval exactly when the binary64 overall score
    compares at least 0.85, it then carries the confidence and the
    condition text of the first rule, and below 0.85 the default
    thresholds can only give conditional or reject. *)
Theorem first_rule_decides (rule : Binary64Engine.rule)
    (rules : list Binary64Engine.rule)
    (context : Binary64Engine.DeploymentContext)
    (quality performance security : float) :
  Binary64Engine._calculate_quality_score
    (Binary64Engine.quality_metrics context) = Ok quality ->
  Binary64Engine._calculate_performance_score
    (Binary64Engine.performance_metrics context) = Ok performance ->
  Binary64Engine._calculate_security_score
    (Binary64Engine.security_assessment context) = Ok security ->
  let risk :=
    Binary64Engine.overall_risk_score
      (Binary64Engine.risk_assessment context) in
  let overall :=
    ((quality + performance + security + (1.0 - risk)) / 4)%float in
  exists d,
    Binary64Engine.make_deployment_decision (rule :: rules) context = Ok d
    /\ (Binary64Engine.decision d = "approve"
        <-> (0.85 <=? overall)%float = true)
    /\ (Binary64Engine.decision d = "approve" ->
        Binary64Engine.confidence d = Binary64Engine.rule_confidence rule
        /\ Binary64Engine.reasoning d
           = ["Condition met: " +:+ Binary64Engine.condition rule]).
Proof.
  intros Hq Hp Hs risk overall.
  unfold Binary64Engine.make_deployment_decision.
  rewrite Hq, Hp, Hs. cbv zeta. fold risk. fold overall.
  rewrite binary64_rule_found. cbn [head].
  destruct (0.85 <=? overall)%float eqn:E.
  - eexists. split; [reflexivity |]. cbn. intuition.
  - destruct (0.9 <=? overall)%float eqn:E9.
    + rewrite (above_090_above_085 _ E9) in E. discriminate E.
    + destruct (0.7 <=? overall)%float;
        eexists; (split; [reflexivity |]); cbn; intuition discriminate.
Qed.

(** With one rule, [threshold_context] is approved by the rule: its
    overall score 0.8999999999999999 is above 0.85. *)
Lemma first_rule_decides_witness :
  exists d,
    Binary64Engine.make_deployment_decision [one_rule] threshold_context
    = Ok d
    /\ Binary64Engine.decision d = "approve"
    /\ Binary64Engine.confidence d = 0.95%float.
Proof.
  destruct (first_rule_decides one_rule [] threshold_context
              0.8999999999999999 1 1)
    as (d & Hd & Happrove & Hrule); [vm_compute; reflexivity .. |].
  assert (H : Binary64Engine.decision d = "approve")
    by (apply Happrove; vm_compute; reflexivity).
  exists d. split; [exact Hd |]. split; [exact H |]. apply Hrule, H.
Defined.

(** X7. For a fixed list of rules the decision is monotone in the
    binary64 overall score: on the sub-scores the three functions return,
    a context whose overall score compares at least as high as that of
    another is never decided in a strictly lower tier (reject <
    conditional < approve). *)
Theorem decision_monotone (decision_rules : list Binary64Engine.rule)
    (context1 context2 : Binary64Engine.DeploymentContext)
    (quality1 performance1 security1 quality2 performance2 security2 : float) :
  Binary64Engine._calculate_quality_score
    (Binary64Engine.quality_metrics context1) = Ok quality1 ->
  Binary64Engine._calculate_performance_score
    (Binary64Engine.performance_metrics context1) = Ok performance1 ->
  Binary64Engine._calculate_security_score
    (Binary64Engine.security_assessment context1) = Ok security1 ->
  Binary64Engine._calculate_quality_score
    (Binary64Engine.quality_metrics context2) = Ok quality2 ->
  Binary64Engine._calculate_performance_score
    (Binary64Engine.performance_metrics context2) = Ok performance2 ->
  Binary64Engine._calculate_security_score
    (Binary64Engine.security_assessment context2) = Ok security2 ->
  let risk1 :=
    Binary64Engine.overall_risk_score
      (Binary64Engine.risk_assessment context1) in
  let risk2 :=
    Binary64Engine.overall_risk_score
      (Binary64Engine.risk_assessment context2) in
  let overall1 :=
    ((quality1 + performance1 + security1 + (1.0 - risk1)) / 4)%float in
  let overall2 :=
    ((quality2 + performance2 + security2 + (1.0 - risk2)) / 4)%float in
  (overall1 <=? overall2)%float = true ->
  exists d1 d2,
    Binary64Engine.make_deployment_decision decision_rules context1 = Ok d1
    /\ Binary64Engine.make_deployment_decision decision_rules context2 = Ok d2
    /\ (tier (Binary64Engine.decision d1)
        <= tier (Binary64Engine.decision d2))%nat.
Proof.
  intros Hq1 Hp1 Hs1 Hq2 Hp2 Hs2 risk1 risk2 overall1 overall2 Hle.
  unfold Binary64Engine.make_deployment_decision.
  rewrite Hq1, Hp1, Hs1, Hq2, Hp2, Hs2. cbv zeta.
  fold risk1. fold risk2. fold overall1. fold overall2.
  rewrite !binary64_rule_found.
  pose proof (fun c H => leb_trans c overall1 overall2 H Hle) as Hup.
  destruct (0.85 <=? overall1)%float eqn:A1;
    [rewrite (Hup _ A1) |];
    (destruct (0.9 <=? overall1)%float eqn:B1;
       [rewrite ?(Hup _ B1) |]);
    (destruct (0.7 <=? overall1)%float eqn:C1;
       [rewrite ?(Hup _ C1) |]);
    destruct decision_rules as [| rule rules]; cbn [head];
    repeat match goal with
      | |- context [(?c <=? overall2)%float] =>
          destruct (c <=? overall2)%float
      end;
    do 2 eexists; (split; [reflexivity |]); (split; [reflexivity |]);
    cbn; lia.
Qed.

(** Scenario B scores 0.80458125 and is decided conditional;
    [threshold_context] scores 0.8999999999999999 and is approved by the
    rule. *)
Lemma decision_monotone_witness :
  exists d1 d2,
    Binary64Engine.make_deployment_decision [one_rule] scenario_b_binary64
    = Ok d1
    /\ Binary64Engine.make_deployment_decision [one_rule] threshold_context
       = Ok d2
    /\ (tier (Binary64Engine.decision d1)
        <= tier (Binary64Engine.decision d2))%nat.
Proof.
  apply (decision_monotone [one_rule] scenario_b_binary64 threshold_context
           0.8037500000000001 0.9145749999999999 1
           0.8999999999999999 1 1);
    vm_compute; reflexivity.
Defined.

(** X8. On a context whose risk assessment is the analyzer's, the overall
    score lies between 0.0375 and 1; if every configured rule carries a
    confidence between 0 and 1, so does the decision, whichever branch
    produces it. *)
Theorem confidence_in_unit_interval (config : Config.t)
    (gathered : DeploymentContext) :
  Forall (fun rule => 0 <= Config.confidence rule <= 1)
    (Config.deployment_approval config) ->
  let context :=
    set_risk_assessment gathered
      (RiskAnalyzer.analyze_deployment_risk gathered) in
  let d := AIDeploymentEngine.make_deployment_decision config context in
  0.0375 <= AIDeploymentEngine.overall_score context <= 1
  /\ 0 <= confidence d <= 1.
Proof.
  intros Hrules context d.
  assert (Hoverall : 0.0375 <= AIDeploymentEngine.overall_score context <= 1).
  { unfold AIDeploymentEngine.overall_score. subst context. cbn [
      quality_metrics performance_metrics security_assessment risk_assessment
      set_risk_assessment].
    pose proof (quality_score_bounds (quality_metrics gathered)) as Hq.
    pose proof (performance_score_bounds (performance_metrics gathered)) as Hp.
    pose proof (security_score_bounds (security_assessment gathered)) as Hs.
    pose proof (risk_score_bounds gathered) as Hr.
    constant_divisions. lra. }
  split; [exact Hoverall |].
  subst d. unfold AIDeploymentEngine.make_deployment_decision.
  rewrite rule_found.
  destruct (_ >=? 0.85) eqn:E.
  - destruct (Config.deployment_approval config) as [| rule rules]; cbn [head].
    + destruct (_ >=? 0.9); [| destruct (_ >=? 0.7)]; cbn [confidence]; lra.
    + cbn [confidence]. inversion Hrules; subst. assumption.
  - destruct (_ >=? 0.9); [| destruct (_ >=? 0.7)]; cbn [confidence]; lra.
Qed.

Lemma confidence_in_unit_interval_witness :
  let context :=
    set_risk_assessment production_context
      (RiskAnalyzer.analyze_deployment_risk production_context) in
  let d := AIDeploymentEngine.make_deployment_decision one_rule_config context in
  0.0375 <= AIDeploymentEngine.overall_score context <= 1
  /\ 0 <= confidence d <= 1.
Proof.
  apply (confidence_in_unit_interval one_rule_config production_context).
  repeat constructor; cbn; lra.
Defined.

(** X9. The test stage needs more than passing tests: with a truthy
    "tests_passed" entry and a numeric "test_coverage" entry the stage is
    valid exactly when the coverage is at least 85; without a coverage
    entry it is invalid; with failing or missing "tests_passed" the
    coverage is not read and validation cannot raise; a coverage that is
    not a number raises a TypeError. *)
Theorem test_stage_needs_coverage (result : gmap string pyval)
    (context : DeploymentContext) :
  let passed := Py.get result "tests_passed" (VBool false) in
  let outcome :=
    AIDeploymentEngine.validate_stage_success TEST result context in
  (truthy passed = false -> outcome = Ok passed)
  /\ (result !! "tests_passed" = None -> outcome = Ok (VBool false))
  /\ (truthy passed = true ->
      forall c, as_number (Py.get result "test_coverage" (VInt 0)) = Some c ->
      exists b, outcome = Ok (VBool b) /\ (b = true <-> 85 <= c))
  /\ (truthy passed = true -> result !! "test_coverage" = None ->
      outcome = Ok (VBool false))
  /\ (truthy passed = true ->
      as_number (Py.get result "test_coverage" (VInt 0)) = None ->
      exists msg, outcome = Raise (TypeError msg)).
Proof.
  cbv zeta. unfold AIDeploymentEngine.validate_stage_success.
  repeat split.
  - intros H. now rewrite H.
  - intros H. unfold Py.get. rewrite H. reflexivity.
  - intros H c Hc. rewrite H. unfold Py.ge. rewrite Hc.
    eexists. split; [reflexivity |]. apply Qgeb_true.
  - intros H Hcov. rewrite H. unfold Py.get at 1. rewrite Hcov. reflexivity.
  - intros H Hcov. rewrite H. unfold Py.ge. rewrite Hcov.
    eexists. reflexivity.
Qed.

(** ** Pipeline *)

(** X10. Every pipeline starts with validation, build and test and ends
    with monitoring, never repeats a stage and never contains the rollback
    stage; it deploys to development always, to staging unless the
    environment is "development", and to production unless the environment
    is "development" or "staging". *)
Theorem pipeline_by_environment (context : DeploymentContext) :
  let stages := Orchestrator.deployment_stages context in
  (exists deploys, stages = [VALIDATION; BUILD; TEST] ++ deploys ++ [MONITORING])
  /\ NoDup stages
  /\ ~ In ROLLBACK stages
  /\ In DEPLOY_DEV stages
  /\ (In DEPLOY_STAGING stages <-> environment context <> "development")
  /\ (In DEPLOY_PRODUCTION stages <->
      environment context <> "development"
      /\ environment context <> "staging").
Proof.
  cbv zeta. unfold Orchestrator.deployment_stages.
  destruct (String.eqb_spec (environment context) "development") as [Hd | Hd];
    [| destruct (String.eqb_spec (environment context) "staging") as [Hs | Hs]];
    cbn [app].
  - split; [exists [DEPLOY_DEV]; reflexivity |].
    split; [apply NoDup_ListNoDup; repeat constructor; cbn;
            intuition discriminate |].
    cbn. intuition (try discriminate; try congruence).
  - split; [exists [DEPLOY_DEV; DEPLOY_STAGING]; reflexivity |].
    split; [apply NoDup_ListNoDup; repeat constructor; cbn;
            intuition discriminate |].
    cbn. intuition (try discriminate; try congruence).
  - split; [exists [DEPLOY_DEV; DEPLOY_STAGING; DEPLOY_PRODUCTION];
            reflexivity |].
    split; [apply NoDup_ListNoDup; repeat constructor; cbn;
            intuition discriminate |].
    cbn. intuition (try discriminate; try congruence).
Qed.

(** X11. An environment that is none of "development", "staging" and
    "production" gets the production pipeline, production deployment and
    monitor included, while its rollback is the gradual one of the
    non-production environments. *)
Theorem unknown_environment_is_deployed_as_production
    (context : DeploymentContext)
    (partial_results : gmap string (gmap string pyval)) (st : state) :
  environment context <> "development" ->
  environment context <> "staging" ->
  environment context <> "production" ->
  Orchestrator.deployment_stages context
  = [VALIDATION; BUILD; TEST; DEPLOY_DEV; DEPLOY_STAGING; DEPLOY_PRODUCTION;
     MONITORING]
  /\ Orchestrator._initiate_intelligent_rollback context partial_results st
     = (Ok tt,
        after_events st
          [GradualRollback;
           NotifyRollbackCompletion
             {[ "strategy" := VStr "gradual";
                "reason" := VStr "Non-production environment" ]}]).
Proof.
  intros Hd Hs Hp. split.
  - unfold Orchestrator.deployment_stages.
    apply String.eqb_neq in Hd, Hs. rewrite Hd, Hs. reflexivity.
  - rewrite initiate_rollback_runs.
    unfold rollback_events, rollback_hook,
      AIDeploymentEngine.determine_rollback_strategy.
    apply String.eqb_neq in Hp. rewrite Hp. reflexivity.
Qed.

Lemma unknown_environment_witness :
  Orchestrator.deployment_stages qa_context
  = [VALIDATION; BUILD; TEST; DEPLOY_DEV; DEPLOY_STAGING; DEPLOY_PRODUCTION;
     MONITORING]
  /\ Orchestrator._initiate_intelligent_rollback qa_context ∅ initial_state
     = (Ok tt,
        after_events initial_state
          [GradualRollback;
           NotifyRollbackCompletion
             {[ "strategy" := VStr "gradual";
                "reason" := VStr "Non-production environment" ]}]).
Proof.
  apply (unknown_environment_is_deployed_as_production qa_context ∅
           initial_state); cbn; discriminate.
Defined.

(** ** Production monitor, for arbitrary collaborators *)

(** The loop over any list of ticks: how many samples it takes and what
    it leaves behind. *)
Lemma monitoring_loop_effects (W : Collaborators) (context : DeploymentContext)
    (ticks : list Z) :
  forall st,
    exists r st' samples events,
      Orchestrator.monitoring_loop W context ticks st = (r, st')
      /\ (samples <= length ticks)%nat
      /\ (ticks <> [] -> (1 <= samples)%nat)
      /\ clock st' = (clock st + Orchestrator.check_interval * Z.of_nat samples)%Z
      /\ trace st' = trace st ++ events
      /\ (length events <= 1)%nat
      /\ forallb is_monitor_handler events = true
      /\ (forall e, r = Raise e -> events = [])
      /\ deployment_history st' = deployment_history st.
Proof.
  induction ticks as [| i ticks IH]; intros st.
  - exists (Ok tt), st, 0%nat, []. cbn.
    rewrite app_nil_r, Z.add_0_r. repeat split; try lia; congruence.
  - cbn [Orchestrator.monitoring_loop]. unfold bind, sleep, now, lift.
    cbn [clock trace deployment_history].
    set (st1 := {| clock := clock st + Orchestrator.check_interval;
                   trace := trace st;
                   deployment_history := deployment_history st |}).
    assert (Hstop : forall r events,
               (length events <= 1)%nat ->
               forallb is_monitor_handler events = true ->
               (forall e, r = Raise e -> events = []) ->
               exists (r' : res unit) st' samples events',
                 (r, after_events st1 events) = (r', st')
                 /\ (samples <= length (i :: ticks))%nat
                 /\ (i :: ticks <> [] -> (1 <= samples)%nat)
                 /\ clock st'
                    = (clock st + Orchestrator.check_interval * Z.of_nat samples)%Z
                 /\ trace st' = trace st ++ events'
                 /\ (length events' <= 1)%nat
                 /\ forallb is_monitor_handler events' = true
                 /\ (forall e, r' = Raise e -> events' = [])
                 /\ deployment_history st' = deployment_history st).
    { intros r events Hlen Hhandlers Hraise.
      exists r, (after_events st1 events), 1%nat, events.
      cbn. repeat split; try lia; assumption. }
    assert (Hquiet : after_events st1 [] = st1) by apply after_no_events.
    destruct (_collect_realtime_metrics W (clock st + Orchestrator.check_interval))
      as [metrics | e].
    2:{ rewrite <- Hquiet. apply Hstop; cbn; auto. }
    destruct (detect_anomaly metrics (performance_metrics context))
      as [[|] | e].
    3:{ rewrite <- Hquiet. apply Hstop; cbn; auto. }
    1:{ apply (Hstop (Ok tt) [HandleProductionAnomaly metrics]); cbn; auto.
        intros e H; discriminate H. }
    destruct (_assess_business_impact W metrics) as [impact | e].
    2:{ rewrite <- Hquiet. apply Hstop; cbn; auto. }
    destruct (getitem impact "severity") as [severity | e].
    2:{ rewrite <- Hquiet. apply Hstop; cbn; auto. }
    destruct (gt severity 0.7) as [[|] | e].
    3:{ rewrite <- Hquiet. apply Hstop; cbn; auto. }
    1:{ apply (Hstop (Ok tt) [HandleBusinessImpact impact]); cbn; auto.
        intros e H; discriminate H. }
    destruct (IH st1)
      as (r & st' & samples & events & Hloop & Hsamples & _ & Hclock & Htrace
          & Hlen & Hhandlers & Hraise & Hhistory).
    exists r, st', (S samples), events. rewrite Hloop.
    repeat split; try assumption; cbn [length]; try lia.
    rewrite Hclock. cbn [clock st1]. lia.
Qed.

(** X12. Whatever the collector and the assessor return or raise, the
    production monitor takes between 1 and 30 samples, ten time units
    apart, so that it ends at most 300 units after it started; it calls at
    most one handler, and none when it raises; it invokes no other hook
    and does not touch the history. *)
Theorem monitor_is_bounded (W : Collaborators) (context : DeploymentContext)
    (st : state) :
  exists r st' events,
    Orchestrator._continuous_production_monitoring W context st = (r, st')
    /\ (clock st + 10 <= clock st' <= clock st + 300)%Z
    /\ ((clock st' - clock st) mod 10 = 0)%Z
    /\ trace st' = trace st ++ events
    /\ (length events <= 1)%nat
    /\ forallb is_monitor_handler events = true
    /\ (forall e, r = Raise e -> events = [])
    /\ deployment_history st' = deployment_history st.
Proof.
  unfold Orchestrator._continuous_production_monitoring.
  destruct (monitoring_loop_effects W context
              (Py.range 0 Orchestrator.monitoring_duration
                 Orchestrator.check_interval) st)
    as (r & st' & samples & events & Hloop & Hmax & Hmin & Hclock & Htrace
        & Hlen & Hhandlers & Hraise & Hhistory).
  rewrite monitoring_window_ticks in Hmax.
  assert (1 <= samples)%nat by (apply Hmin; discriminate).
  exists r, st', events. split; [exact Hloop |].
  unfold Orchestrator.check_interval in Hclock.
  split; [lia |].
  split; [rewrite Hclock;
          replace (clock st + 10 * Z.of_nat samples - clock st)%Z
            with (Z.of_nat samples * 10)%Z by lia;
          apply Z_mod_mult |].
  repeat split; assumption.
Qed.

(** ** Stage loop, for arbitrary collaborators *)

Lemma handlers_are_no_rollback (events : list event) :
  forallb is_monitor_handler events = true ->
  existsb is_rollback_hook events = false.
Proof.
  induction events as [| e events IH]; [reflexivity |].
  cbn. intros H. apply andb_prop in H as [He H].
  rewrite (IH H). destruct e; try discriminate He; reflexivity.
Qed.

(** What the call of a stage executor leaves behind: at most the record
    of the call. *)
Lemma execute_stage_effects (W : Collaborators) (config : Config.t)
    (stage : DeploymentStage) (context : DeploymentContext) (st : state) :
  exists r events,
    Orchestrator._execute_deployment_stage W config stage context st
    = (r, after_events st events)
    /\ (events = [] \/ events = [StageExecutor stage]).
Proof.
  unfold Orchestrator._execute_deployment_stage.
  destruct (find _ _).
  - destruct stage;
      try (lazymatch goal with
           | |- context [Orchestrator.executor ?s ?r] =>
               exists r, [StageExecutor s]
           end; split; [reflexivity | now right]).
    exists (Ok ∅), []. rewrite after_no_events. split; [reflexivity | now left].
  - exists (Raise (ValueError
                     ("Stage configuration not found for " +:+ stage_value stage))),
      [].
    rewrite after_no_events. split; [reflexivity | now left].
Qed.

(** One iteration either hands over to the next stage, having invoked no
    rollback hook, or ends the run in a failed or error outcome for its
    stage after one rollback. *)
Lemma iteration_cases (W : Collaborators) (config : Config.t)
    (context : DeploymentContext) (stage : DeploymentStage)
    (stages' : list DeploymentStage)
    (results : gmap string (gmap string pyval)) (st : state) :
  (exists stage_result st2 events,
      Orchestrator.run_stages W config context (stage :: stages') results st
      = Orchestrator.run_stages W config context stages'
          (<[stage_value stage := stage_result]> results) st2
      /\ trace st2 = trace st ++ events
      /\ existsb is_rollback_hook events = false
      /\ (clock st <= clock st2)%Z
      /\ deployment_history st2 = deployment_history st)
  \/ (exists outcome results' st2 before,
         Orchestrator.run_stages W config context (stage :: stages') results st
         = (Ok outcome, st2)
         /\ (outcome = Failed (stage_value stage) true results'
             \/ exists msg, outcome = Errored (stage_value stage) msg true results')
         /\ trace st2 = trace st ++ before ++ rollback_events context results'
         /\ existsb is_rollback_hook before = false
         /\ (clock st <= clock st2)%Z
         /\ deployment_history st2 = deployment_history st).
Proof.
  destruct (execute_stage_effects W config stage context st)
    as (r & called & Hexec & Hcalled).
  assert (Hno : existsb is_rollback_hook called = false)
    by (destruct Hcalled as [-> | ->]; reflexivity).
  destruct r as [stage_result | e].
  2:{ right. eexists. exists results. eexists. exists called.
      split; [apply (run_stages_executor_raises _ _ _ _ _ _ _ _ _ Hexec) |].
      split; [right; eexists; reflexivity |].
      cbn. rewrite <- app_assoc. repeat split; try assumption; lia. }
  set (results' := <[stage_value stage := stage_result]> results).
  destruct (Orchestrator.validate_and_monitor W context stage stage_result
              results' (after_events st called))
    as [[[outcome |] | e] st2] eqn:Hcheck.
  - right.
    destruct (validate_and_monitor_early _ _ _ _ _ _ _ _ Hcheck)
      as (-> & -> & _).
    eexists. exists results'. eexists. exists called.
    split; [apply (run_stages_returns _ _ _ _ _ _ _ _ _ _ _ Hexec Hcheck) |].
    split; [now left |].
    cbn. rewrite <- app_assoc. repeat split; try assumption; lia.
  - left. exists stage_result, st2.
    pose proof Hcheck as Hstate.
    unfold Orchestrator.validate_and_monitor, bind, lift in Hstate.
    destruct (AIDeploymentEngine.validate_stage_success stage stage_result
                context) as [v | e]; [| discriminate Hstate].
    destruct (truthy v); cbn [negb] in Hstate.
    2:{ rewrite initiate_rollback_runs in Hstate. discriminate Hstate. }
    destruct (Orchestrator.is_deploy_production stage).
    + unfold Orchestrator._continuous_production_monitoring in Hstate.
      destruct (monitoring_loop_effects W context
                  (Py.range 0 Orchestrator.monitoring_duration
                     Orchestrator.check_interval) (after_events st called))
        as (r & st' & samples & events & Hloop & _ & _ & Hclock & Htrace & _
            & Hhandlers & _ & Hhistory).
      rewrite Hloop in Hstate. destruct r as [[] | e]; [| discriminate Hstate].
      unfold ret in Hstate. injection Hstate as <-.
      exists (called ++ events).
      split; [exact (run_stages_continues _ _ _ _ _ _ _ _ _ _ Hexec Hcheck) |].
      split; [rewrite Htrace; cbn; now rewrite app_assoc |].
      split; [rewrite existsb_app, Hno;
              now rewrite (handlers_are_no_rollback events Hhandlers) |].
      split; [rewrite Hclock; cbn; unfold Orchestrator.check_interval; lia |].
      exact Hhistory.
    + unfold ret in Hstate. injection Hstate as <-.
      exists called.
      split; [exact (run_stages_continues _ _ _ _ _ _ _ _ _ _ Hexec Hcheck) |].
      cbn. repeat split; try assumption; lia.
  - right. eexists. exists results'. exists
      (after_events st2 (rollback_events context results')).
    pose proof Hcheck as Hstate.
    unfold Orchestrator.validate_and_monitor, bind, lift in Hstate.
    assert (Hrun :
              Orchestrator.run_stages W config context (stage :: stages')
                results st
              = (Ok (Errored (stage_value stage) (exn_str e) true results'),
                 after_events st2 (rollback_events context results'))).
    { cbn [Orchestrator.run_stages].
      erewrite bind_ok by (apply attempt_result; exact Hexec). cbn beta iota.
      erewrite bind_ok by (apply attempt_result; exact Hcheck).
      apply on_exception_runs. }
    destruct (AIDeploymentEngine.validate_stage_success stage stage_result
                context) as [v | e'].
    2:{ injection Hstate as <- <-. exists called.
        split; [exact Hrun |]. split; [right; eexists; reflexivity |].
        cbn. rewrite <- !app_assoc.
        repeat split; try assumption; lia. }
    destruct (truthy v); cbn [negb] in Hstate.
    2:{ rewrite initiate_rollback_runs in Hstate. discriminate Hstate. }
    destruct (Orchestrator.is_deploy_production stage).
    2:{ discriminate Hstate. }
    unfold Orchestrator._continuous_production_monitoring in Hstate.
    destruct (monitoring_loop_effects W context
                (Py.range 0 Orchestrator.monitoring_duration
                   Orchestrator.check_interval) (after_events st called))
      as (r & st' & samples & events & Hloop & _ & _ & Hclock & Htrace & _
          & Hhandlers & _ & Hhistory).
    rewrite Hloop in Hstate. destruct r as [[] | e'']; [discriminate Hstate |].
    injection Hstate as <- <-.
    exists (called ++ events).
    split; [exact Hrun |]. split; [right; eexists; reflexivity |].
    split; [cbn; rewrite Htrace; cbn; now rewrite <- !app_assoc |].
    split; [rewrite existsb_app, Hno;
            now rewrite (handlers_are_no_rollback events Hhandlers) |].
    split; [cbn; rewrite Hclock; cbn; unfold Orchestrator.check_interval; lia |].
    exact Hhistory.
Qed.

Lemma run_stages_outcomes (W : Collaborators) (config : Config.t)
    (context : DeploymentContext) (stages : list DeploymentStage) :
  forall (results : gmap string (gmap string pyval)) (st : state),
    exists outcome st' events,
      Orchestrator.run_stages W config context stages results st
      = (Ok outcome, st')
      /\ trace st' = trace st ++ events
      /\ (clock st <= clock st')%Z
      /\ deployment_history st' = deployment_history st
      /\ ((exists results',
              outcome = Success (deployment_strategy context) results' true
              /\ existsb is_rollback_hook events = false)
          \/ (exists stage results' before,
                 In stage stages
                 /\ (outcome = Failed (stage_value stage) true results'
                     \/ exists msg,
                          outcome = Errored (stage_value stage) msg true results')
                 /\ events = before ++ rollback_events context results'
                 /\ existsb is_rollback_hook before = false)).
Proof.
  induction stages as [| stage stages IH]; intros results st.
  - exists (Success (deployment_strategy context) results true), st, [].
    cbn. rewrite app_nil_r. repeat split; try lia.
    left. eexists. split; reflexivity.
  - destruct (iteration_cases W config context stage stages results st)
      as [(stage_result & st2 & events & Hstep & Htrace & Hno & Hclock & Hhistory)
         | (outcome & results' & st2 & before & Hrun & Hshape & Htrace & Hno
            & Hclock & Hhistory)].
    + destruct (IH (<[stage_value stage := stage_result]> results) st2)
        as (outcome & st' & events' & Hrun & Htrace' & Hclock' & Hhistory'
            & Hshape).
      exists outcome, st', (events ++ events'). rewrite Hstep, Hrun.
      split; [reflexivity |].
      split; [rewrite Htrace', Htrace; now rewrite app_assoc |].
      split; [lia |]. split; [congruence |].
      destruct Hshape as [(r & -> & Hnone)
                         | (s & r & before & Hin & Hout & -> & Hnone)].
      * left. exists r. split; [reflexivity |].
        rewrite existsb_app, Hno, Hnone. reflexivity.
      * right. exists s, r, (events ++ before).
        split; [now right |]. split; [exact Hout |].
        split; [now rewrite app_assoc |].
        rewrite existsb_app, Hno, Hnone. reflexivity.
    + exists outcome, st2, (before ++ rollback_events context results').
      split; [exact Hrun |]. split; [exact Htrace |].
      split; [exact Hclock |]. split; [exact Hhistory |].
      right. exists stage, results', before.
      split; [now left |]. repeat split; assumption.
Qed.

(** X13. The autonomous pipeline lets no instance of Exception escape,
    whichever of them the stage executors, the collector and the assessor
    raise (an exception that is not an Exception, such as a cancellation,
    is not caught by the source and is outside this statement).  It
    returns either a success outcome, in which case no rollback hook was
    invoked, or a failed or error outcome that names a stage of the
    pipeline and reports rollback_initiated = true, in which case exactly
    one rollback (hook and notification) was performed, as the last
    action.  The history is not touched and the clock never goes back. *)
Theorem pipeline_outcomes (W : Collaborators) (config : Config.t)
    (context : DeploymentContext) (decision : DeploymentDecision)
    (st : state) :
  exists outcome st' events,
    Orchestrator._execute_autonomous_deployment W config context decision st
    = (Ok outcome, st')
    /\ trace st' = trace st ++ events
    /\ (clock st <= clock st')%Z
    /\ deployment_history st' = deployment_history st
    /\ ((exists results,
            outcome = Success (deployment_strategy context) results true
            /\ existsb is_rollback_hook events = false)
        \/ (exists stage results before,
               In stage (Orchestrator.deployment_stages context)
               /\ (outcome = Failed (stage_value stage) true results
                   \/ exists msg,
                        outcome = Errored (stage_value stage) msg true results)
               /\ events = before ++ rollback_events context results
               /\ existsb is_rollback_hook before = false)).
Proof.
  unfold Orchestrator._execute_autonomous_deployment.
  destruct (run_stages_outcomes W config context
              (Orchestrator.deployment_stages context) ∅ st)
    as (outcome & st' & events & Hrun & Htrace & Hclock & Hhistory & Hshape).
  exists outcome, st', events. repeat split; assumption.
Qed.

(** ** Failures inside the pipeline *)

(** X14. When the stages before it have passed and the executor of a
    stage raises, the run ends in an error outcome that names the stage and
    carries the text of the exception; the results hold the earlier stages
    only, one rollback is performed, and no later stage is executed. *)
Theorem executor_fault_is_stage_error (W : Collaborators) (config : Config.t)
    (context : DeploymentContext) (decision : DeploymentDecision)
    (before after : list DeploymentStage) (stage : DeploymentStage)
    (results : gmap string (gmap string pyval)) (st0 st st1 : state)
    (strategy : string) (enabled : bool) (e : exn) :
  Orchestrator.deployment_stages context = before ++ stage :: after ->
  Orchestrator.run_stages W config context before ∅ st0
  = (Ok (Success strategy results enabled), st) ->
  Orchestrator._execute_deployment_stage W config stage context st
  = (Raise e, st1) ->
  Orchestrator._execute_autonomous_deployment W config context decision st0
  = (Ok (Errored (stage_value stage) (exn_str e) true results),
     after_events st1 (rollback_events context results)).
Proof.
  intros Hstages Hbefore Hexec.
  unfold Orchestrator._execute_autonomous_deployment. rewrite Hstages.
  rewrite (run_stages_app W config context before (stage :: after)
             ∅ results st0 st strategy enabled Hbefore).
  exact (run_stages_executor_raises W config context stage after results st st1
           e Hexec).
Qed.

(** Scenario C: production, the build executor raises. *)
Lemma executor_fault_witness :
  Orchestrator._execute_autonomous_deployment failing_build full_config
    production_context approval initial_state
  = (Ok (Errored "build" "build failed" true {[ "validation" := validated ]}),
     after_events initial_state
       [StageExecutor VALIDATION; StageExecutor BUILD; ImmediateRollback;
        NotifyRollbackCompletion immediate_strategy]).
Proof.
  apply (executor_fault_is_stage_error failing_build full_config
           production_context approval [VALIDATION]
           [TEST; DEPLOY_DEV; DEPLOY_STAGING; DEPLOY_PRODUCTION; MONITORING]
           BUILD _ initial_state
           (after_events initial_state [StageExecutor VALIDATION])
           (after_events initial_state
              [StageExecutor VALIDATION; StageExecutor BUILD])
           "blue-green-with-canary" true (RuntimeError "build failed")).
  - vm_compute; reflexivity.
  - vm_compute; reflexivity.
  - vm_compute; reflexivity.
Defined.

(** X15. When the stages before it have passed and the result of a stage
    is rejected by the validator, the run ends in a failed outcome that
    names the stage; the results include the rejected result itself, one
    rollback is performed, and no later stage is executed. *)
Theorem rejected_stage_fails_run (W : Collaborators) (config : Config.t)
    (context : DeploymentContext) (decision : DeploymentDecision)
    (before after : list DeploymentStage) (stage : DeploymentStage)
    (results : gmap string (gmap string pyval))
    (stage_result : gmap string pyval) (verdict : pyval)
    (st0 st st1 : state) (strategy : string) (enabled : bool) :
  Orchestrator.deployment_stages context = before ++ stage :: after ->
  Orchestrator.run_stages W config context before ∅ st0
  = (Ok (Success strategy results enabled), st) ->
  Orchestrator._execute_deployment_stage W config stage context st
  = (Ok stage_result, st1) ->
  AIDeploymentEngine.validate_stage_success stage stage_result context
  = Ok verdict ->
  truthy verdict = false ->
  let results' := <[stage_value stage := stage_result]> results in
  Orchestrator._execute_autonomous_deployment W config context decision st0
  = (Ok (Failed (stage_value stage) true results'),
     after_events st1 (rollback_events context results')).
Proof.
  intros Hstages Hbefore Hexec Hverdict Hfalsy results'.
  unfold Orchestrator._execute_autonomous_deployment. rewrite Hstages.
  rewrite (run_stages_app W config context before (stage :: after)
             ∅ results st0 st strategy enabled Hbefore).
  apply (run_stages_returns W config context stage after results st st1 _
           stage_result _ Hexec).
  unfold Orchestrator.validate_and_monitor.
  erewrite bind_ok by (unfold lift; rewrite Hverdict; reflexivity).
  rewrite Hfalsy. cbn [negb].
  erewrite bind_ok by apply initiate_rollback_runs. reflexivity.
Qed.

(** Passing tests with a coverage of 80 fail the test stage. *)
Lemma rejected_stage_witness :
  Orchestrator._execute_autonomous_deployment low_coverage_tests full_config
    production_context approval initial_state
  = (Ok (Failed "test" true
           {[ "test" := tests_at_80; "build" := built;
              "validation" := validated ]}),
     after_events initial_state
       [StageExecutor VALIDATION; StageExecutor BUILD; StageExecutor TEST;
        ImmediateRollback; NotifyRollbackCompletion immediate_strategy]).
Proof.
  apply (rejected_stage_fails_run low_coverage_tests full_config
           production_context approval [VALIDATION; BUILD]
           [DEPLOY_DEV; DEPLOY_STAGING; DEPLOY_PRODUCTION; MONITORING]
           TEST {[ "build" := built; "validation" := validated ]}
           tests_at_80 (VBool false) initial_state
           (after_events initial_state
              [StageExecutor VALIDATION; StageExecutor BUILD])
           (after_events initial_state
              [StageExecutor VALIDATION; StageExecutor BUILD;
               StageExecutor TEST])
           "blue-green-with-canary" true).
  - vm_compute; reflexivity.
  - vm_compute; reflexivity.
  - vm_compute; reflexivity.
  - vm_compute; reflexivity.
  - reflexivity.
Defined.

(** ** The monitor inside the production stage *)

Lemma monitoring_loop_all_quiet (W : Collaborators)
    (context : DeploymentContext) (ticks : list Z) :
  forall st,
    (forall j, (j < length ticks)%nat ->
               quiet_at W context (sample_time (clock st) j)) ->
    Orchestrator.monitoring_loop W context ticks st
    = (Ok tt,
       advance st (Orchestrator.check_interval * Z.of_nat (length ticks))).
Proof.
  induction ticks as [| i ticks IH]; intros st Hquiet.
  - cbn. unfold ret, advance. destruct st; cbn. do 2 f_equal. lia.
  - rewrite monitoring_loop_quiet.
    + rewrite IH.
      * rewrite advance_advance. do 2 f_equal.
        unfold Orchestrator.check_interval. cbn [length]. lia.
      * intros j Hj. cbn [clock advance]. rewrite sample_time_next.
        apply Hquiet. cbn [length]. lia.
    + specialize (Hquiet 0%nat ltac:(cbn [length]; lia)).
      unfold sample_time in Hquiet. cbn in Hquiet.
      now rewrite Z.mul_1_r in Hquiet.
Qed.

(** X16. When none of the thirty samples trips a check, the monitor runs
    the whole window: it returns normally 300 time units later, having
    called no handler, and the production stage hands over to the next
    stage. *)
Theorem quiet_monitor_runs_whole_window (W : Collaborators)
    (config : Config.t) (context : DeploymentContext)
    (stages' : list DeploymentStage)
    (results : gmap string (gmap string pyval))
    (stage_result : gmap string pyval) (st st1 : state) (verdict : pyval) :
  Orchestrator._execute_deployment_stage W config DEPLOY_PRODUCTION context st
  = (Ok stage_result, st1) ->
  AIDeploymentEngine.validate_stage_success DEPLOY_PRODUCTION stage_result
    context = Ok verdict ->
  truthy verdict = true ->
  (forall j, (j < 30)%nat -> quiet_at W context (sample_time (clock st1) j)) ->
  Orchestrator._continuous_production_monitoring W context st1
  = (Ok tt, advance st1 300)
  /\ Orchestrator.run_stages W config context (DEPLOY_PRODUCTION :: stages')
       results st
     = Orchestrator.run_stages W config context stages'
         (<["deploy_production" := stage_result]> results) (advance st1 300).
Proof.
  intros Hexec Hverdict Htruthy Hquiet.
  assert (Hmonitor :
            Orchestrator._continuous_production_monitoring W context st1
            = (Ok tt, advance st1 300)).
  { unfold Orchestrator._continuous_production_monitoring.
    rewrite monitoring_loop_all_quiet.
    - rewrite monitoring_window_ticks. reflexivity.
    - rewrite monitoring_window_ticks. exact Hquiet. }
  split; [exact Hmonitor |].
  apply (run_stages_continues W config context DEPLOY_PRODUCTION stages'
           results st st1 (advance st1 300) stage_result Hexec).
  unfold Orchestrator.validate_and_monitor.
  erewrite bind_ok by (unfold lift; rewrite Hverdict; reflexivity).
  rewrite Htruthy. cbn [negb Orchestrator.is_deploy_production].
  erewrite bind_ok by exact Hmonitor. reflexivity.
Qed.

Lemma quiet_monitor_witness :
  let st1 := after_events initial_state [StageExecutor DEPLOY_PRODUCTION] in
  Orchestrator._continuous_production_monitoring placeholders
    production_context st1
  = (Ok tt, advance st1 300)
  /\ Orchestrator.run_stages placeholders full_config production_context
       [DEPLOY_PRODUCTION; MONITORING] ∅ initial_state
     = Orchestrator.run_stages placeholders full_config production_context
         [MONITORING] {[ "deploy_production" := deployed ]} (advance st1 300).
Proof.
  apply (quiet_monitor_runs_whole_window placeholders full_config
           production_context [MONITORING] ∅ deployed initial_state
           (after_events initial_state [StageExecutor DEPLOY_PRODUCTION])
           (VBool true)).
  - vm_compute; reflexivity.
  - vm_compute; reflexivity.
  - reflexivity.
  - intros j Hj. exists normal_sample. do 2 eexists.
    repeat split; vm_compute; reflexivity.
Defined.

(** X17. An exception inside the monitor is a failure of the production
    stage: when the business-impact dictionary of the first sample has no
    "severity" entry, the lookup raises KeyError, and the run ends in an
    error outcome at "deploy_production" whose message is the quoted key,
    with the production result kept and one rollback performed. *)
Theorem missing_severity_is_stage_error (W : Collaborators)
    (config : Config.t) (context : DeploymentContext)
    (stages' : list DeploymentStage)
    (results : gmap string (gmap string pyval))
    (stage_result metrics impact : gmap string pyval) (st st1 : state)
    (verdict : pyval) :
  Orchestrator._execute_deployment_stage W config DEPLOY_PRODUCTION context st
  = (Ok stage_result, st1) ->
  AIDeploymentEngine.validate_stage_success DEPLOY_PRODUCTION stage_result
    context = Ok verdict ->
  truthy verdict = true ->
  _collect_realtime_metrics W (clock st1 + 10) = Ok metrics ->
  detect_anomaly metrics (performance_metrics context) = Ok false ->
  _assess_business_impact W metrics = Ok impact ->
  impact !! "severity" = None ->
  let results' := <["deploy_production" := stage_result]> results in
  Orchestrator.run_stages W config context (DEPLOY_PRODUCTION :: stages')
    results st
  = (Ok (Errored "deploy_production" "'severity'" true results'),
     after_events (advance st1 10) (rollback_events context results')).
Proof.
  intros Hexec Hverdict Htruthy Hcollect Hdetect Hassess Hmissing results'.
  cbn [Orchestrator.run_stages].
  erewrite bind_ok by (apply attempt_result; exact Hexec). cbn beta iota.
  assert (Hcheck :
            Orchestrator.validate_and_monitor W context DEPLOY_PRODUCTION
              stage_result results' st1
            = (Raise (KeyError "severity"), advance st1 10)).
  { unfold Orchestrator.validate_and_monitor.
    erewrite bind_ok by (unfold lift; rewrite Hverdict; reflexivity).
    rewrite Htruthy. cbn [negb Orchestrator.is_deploy_production].
    apply bind_raise.
    unfold Orchestrator._continuous_production_monitoring.
    change (Py.range 0 Orchestrator.monitoring_duration
              Orchestrator.check_interval)
      with (0%Z :: Py.range_from 10 10 29).
    cbn [Orchestrator.monitoring_loop]. unfold bind, sleep, now, lift.
    cbn [clock]. unfold Orchestrator.check_interval.
    rewrite Hcollect, Hdetect, Hassess. unfold Py.getitem.
    rewrite Hmissing. reflexivity. }
  erewrite bind_ok by (apply attempt_result; exact Hcheck).
  apply on_exception_runs.
Qed.

Lemma missing_severity_witness :
  let st1 := after_events initial_state [StageExecutor DEPLOY_PRODUCTION] in
  Orchestrator.run_stages no_severity full_config production_context
    [DEPLOY_PRODUCTION; MONITORING] ∅ initial_state
  = (Ok (Errored "deploy_production" "'severity'" true
           {[ "deploy_production" := deployed ]}),
     after_events (advance st1 10)
       (rollback_events production_context
          {[ "deploy_production" := deployed ]})).
Proof.
  apply (missing_severity_is_stage_error no_severity full_config
           production_context [MONITORING] ∅ deployed normal_sample ∅
           initial_state
           (after_events initial_state [StageExecutor DEPLOY_PRODUCTION])
           (VBool true)).
  - vm_compute; reflexivity.
  - vm_compute; reflexivity.
  - reflexivity.
  - vm_compute; reflexivity.
  - vm_compute; reflexivity.
  - reflexivity.
  - reflexivity.
Defined.

(** X18. The anomaly check reads a missing sample as 0 and does not
    default a malformed one: a sample without "response_time" is not an
    anomaly for a baseline p95 that is not negative, and a response time
    that is not a number (None, a string, a list) raises the TypeError of
    the comparison, which names its type. *)
Theorem anomaly_check_edge_cases (current_metrics : gmap string pyval)
    (baseline_metrics : PerformanceMetrics) :
  (current_metrics !! "response_time" = None ->
   0 <= response_time_p95 baseline_metrics ->
   detect_anomaly current_metrics baseline_metrics = Ok false)
  /\ (forall v,
        current_metrics !! "response_time" = Some v ->
        as_number v = None ->
        detect_anomaly current_metrics baseline_metrics
        = Raise (TypeError ("'>' not supported between instances of '"
                            +:+ type_name v +:+ "' and 'float'"))).
Proof.
  unfold detect_anomaly, Py.gt, Py.get. split.
  - intros -> Hbase.
    change (as_number (default (VInt 0) None)) with (Some 0).
    f_equal. apply Qgtb_false. lra.
  - intros v -> Hv. change (default (VInt 0) (Some v)) with v.
    rewrite Hv. reflexivity.
Qed.

(** ** Orchestration as a whole *)

Lemma decision_dispatch (config : Config.t) (context : DeploymentContext) :
  let d := AIDeploymentEngine.make_deployment_decision config context in
  (decision d = "approve" /\ autonomous_execution d = true)
  \/ decision d = "conditional"
  \/ (decision d = "reject"
      /\ reasoning d = ["Quality metrics below threshold"]
      /\ recommended_actions d
         = ["Improve test coverage"; "Fix security issues"]).
Proof.
  cbv zeta. unfold AIDeploymentEngine.make_deployment_decision.
  destruct (find _ _); [| destruct (_ >=? 0.9); [| destruct (_ >=? 0.7)]];
    cbn; auto.
Qed.

Ltac provider_returns p :=
  destruct p; [| split; [reflexivity | intros ? H; discriminate H]].

(** Context gathering leaves the state alone, and the context it returns
    carries the request's three strings, or their defaults, and the
    summary of the history. *)
Lemma gather_outcome (W : Collaborators) (request : gmap string string)
    (st : state) :
  snd (Orchestrator._gather_deployment_context W request st) = st
  /\ forall gathered,
       fst (Orchestrator._gather_deployment_context W request st)
       = Ok gathered ->
       environment gathered = default "production" (request !! "environment")
       /\ application_version gathered
          = default "latest" (request !! "version")
       /\ deployment_strategy gathered
          = default "blue-green" (request !! "strategy")
       /\ historical_data gathered
          = DeploymentHistoryTracker.relevant_history (deployment_history st)
              request.
Proof.
  unfold Orchestrator._gather_deployment_context,
    Orchestrator._collect_quality_metrics,
    Orchestrator._collect_performance_metrics, perform_security_assessment,
    DeploymentHistoryTracker.get_relevant_history, bind, lift, ret.
  provider_returns (_get_test_coverage W).
  provider_returns (_get_code_quality_score W).
  provider_returns (_get_security_vulnerability_count W).
  provider_returns (_get_performance_score W).
  provider_returns (_get_reliability_score W).
  provider_returns (_get_maintainability_score W).
  provider_returns (_get_response_time_p95 W).
  provider_returns (_get_current_throughput W).
  provider_returns (_get_error_rate W).
  provider_returns (_get_cpu_utilization W).
  provider_returns (_get_memory_utilization W).
  provider_returns (_get_availability W).
  provider_returns (_scan_vulnerabilities W).
  provider_returns (_calculate_security_score W).
  provider_returns (_check_compliance W).
  split; [reflexivity |]. intros gathered H. cbn in H.
  injection H as <-. repeat split.
Qed.

Lemma gather_returns (W : Collaborators) (request : gmap string string)
    (st st' : state) (gathered : DeploymentContext) :
  Orchestrator._gather_deployment_context W request st = (Ok gathered, st') ->
  st' = st
  /\ environment gathered = default "production" (request !! "environment")
  /\ application_version gathered = default "latest" (request !! "version")
  /\ deployment_strategy gathered
     = default "blue-green" (request !! "strategy")
  /\ historical_data gathered
     = DeploymentHistoryTracker.relevant_history (deployment_history st)
         request.
Proof.
  intros H. destruct (gather_outcome W request st) as [Hst Hfields].
  rewrite H in Hst, Hfields. cbn [fst snd] in Hst, Hfields.
  split; [exact Hst | apply Hfields; reflexivity].
Qed.

Lemma gather_raises (W : Collaborators) (request : gmap string string)
    (st st' : state) (e : exn) :
  Orchestrator._gather_deployment_context W request st = (Raise e, st') ->
  st' = st.
Proof.
  intros H. destruct (gather_outcome W request st) as [Hst _].
  rewrite H in Hst. exact Hst.
Qed.

(** The state after one orchestration that started in [st], gathered its
    context and whose pipeline, if any, ended in [st1]. *)
Lemma orchestrate_deployment_runs (W : Collaborators) (config : Config.t)
    (request : gmap string string) (st : state)
    (gathered : DeploymentContext) :
  Orchestrator._gather_deployment_context W request st = (Ok gathered, st) ->
  exists result st1,
    let context :=
      set_risk_assessment gathered
        (RiskAnalyzer.analyze_deployment_risk gathered) in
    let d := AIDeploymentEngine.make_deployment_decision config context in
    let deployment_id := "deploy-" +:+ strftime W (clock st) in
    Orchestrator.orchestrate_deployment W config request st
    = (Ok (Orchestrated deployment_id d result context),
       {| clock := clock st1;
          trace := trace st1;
          deployment_history :=
            deployment_history st
            ++ [ {| record_deployment_id := deployment_id;
                    record_timestamp := isoformat W (clock st1);
                    record_context := context;
                    record_decision := d;
                    record_result := result |} ] |})
    /\ (decision d = "approve" ->
        Orchestrator._execute_autonomous_deployment W config context d st
        = (Ok result, st1))
    /\ (decision d = "conditional" ->
        result = ConditionalSuccess (conditions d) /\ st1 = st)
    /\ (decision d = "reject" ->
        result = Rejected ["Quality metrics below threshold"]
                   ["Improve test coverage"; "Fix security issues"]
        /\ st1 = st).
Proof.
  intros Hgather.
  set (context := set_risk_assessment gathered
                    (RiskAnalyzer.analyze_deployment_risk gathered)).
  set (d := AIDeploymentEngine.make_deployment_decision config context).
  assert (Hrun : forall result st1,
             (if String.eqb (decision d) "approve" && autonomous_execution d
              then Orchestrator._execute_autonomous_deployment W config
                     context d
              else if String.eqb (decision d) "conditional"
                   then Orchestrator._execute_conditional_deployment context d
                   else ret (Rejected (reasoning d) (recommended_actions d)))
               st = (Ok result, st1) ->
             Orchestrator.orchestrate_deployment W config request st
             = (Ok (Orchestrated ("deploy-" +:+ strftime W (clock st)) d result
                      context),
                {| clock := clock st1;
                   trace := trace st1;
                   deployment_history :=
                     deployment_history st1
                     ++ [ {| record_deployment_id :=
                               "deploy-" +:+ strftime W (clock st);
                             record_timestamp := isoformat W (clock st1);
                             record_context := context;
                             record_decision := d;
                             record_result := result |} ] |})).
  { intros result st1 Hbranch.
    unfold Orchestrator.orchestrate_deployment, now. unfold bind at 1.
    erewrite bind_ok.
    2:{ apply attempt_result. unfold Orchestrator.orchestrate.
        erewrite bind_ok by exact Hgather. fold context. fold d.
        erewrite bind_ok by exact Hbranch.
        unfold bind, DeploymentHistoryTracker.record_deployment, ret.
        reflexivity. }
    reflexivity. }
  destruct (decision_dispatch config context)
    as [[Hd Hauto] | [Hd | (Hd & Hreason & Hactions)]]; fold d in Hd.
  - destruct (run_stages_outcomes W config context
                (Orchestrator.deployment_stages context) ∅ st)
      as (result & st1 & _ & Hpipeline & _ & _ & Hhistory & _).
    fold d in Hauto.
    exists result, st1. cbv zeta. fold context. fold d.
    split; [rewrite <- Hhistory; apply Hrun; rewrite Hd, Hauto;
            exact Hpipeline |].
    split; [intros _; exact Hpipeline |].
    split; intros H; rewrite Hd in H; discriminate H.
  - exists (ConditionalSuccess (conditions d)), st.
    cbv zeta. fold context. fold d.
    split; [apply Hrun; rewrite Hd; reflexivity |].
    split; [intros H; rewrite Hd in H; discriminate H |].
    split; [intros _; split; reflexivity |].
    intros H; rewrite Hd in H; discriminate H.
  - exists (Rejected (reasoning d) (recommended_actions d)), st.
    cbv zeta. fold context. fold d.
    split; [apply Hrun; rewrite Hd; reflexivity |].
    split; [intros H; rewrite Hd in H; discriminate H |].
    split; [intros H; rewrite Hd in H; discriminate H |].
    intros _. fold d in Hreason, Hactions. rewrite Hreason, Hactions.
    split; reflexivity.
Qed.

Lemma analysis_ignores_backfill (gathered : DeploymentContext)
    (r : RiskAssessment) :
  RiskAnalyzer.analyze_deployment_risk (set_risk_assessment gathered r)
  = RiskAnalyzer.analyze_deployment_risk gathered.
Proof. reflexivity. Qed.

(** X19. An orchestration whose context gathering returns, with integer
    counts inside the range of binary64, returns the full result and is
    recorded exactly once: the history grows by one record that carries
    the returned id, decision, outcome and context.  The context is the
    gathered one with the analyzer's risk assessment; its environment,
    version and strategy default to "production", "latest" and
    "blue-green", and its historical data counts the deployments recorded
    before this one.  The id is stamped when the call starts.  Requests
    that are not approved invoke no hook and take no time. *)
Theorem orchestration_is_recorded_once (W : Collaborators) (config : Config.t)
    (request : gmap string string) (st : state)
    (gathered : DeploymentContext) :
  Orchestrator._gather_deployment_context W request st = (Ok gathered, st) ->
  convertible (security_vulnerabilities (quality_metrics gathered)) ->
  convertible (throughput (performance_metrics gathered)) ->
  convertible (vulnerability_count (security_assessment gathered)) ->
  let context :=
    set_risk_assessment gathered
      (RiskAnalyzer.analyze_deployment_risk gathered) in
  let deployment_id := "deploy-" +:+ strftime W (clock st) in
  exists d result st' record,
    Orchestrator.orchestrate_deployment W config request st
    = (Ok (Orchestrated deployment_id d result context), st')
    /\ environment context = default "production" (request !! "environment")
    /\ application_version context = default "latest" (request !! "version")
    /\ deployment_strategy context
       = default "blue-green" (request !! "strategy")
    /\ historical_data context !! "total_deployments"
       = Some (VInt (Z.of_nat (length (deployment_history st))))
    /\ deployment_history st' = deployment_history st ++ [record]
    /\ record_deployment_id record = deployment_id
    /\ record_decision record = d
    /\ record_result record = result
    /\ record_context record = context
    /\ (clock st <= clock st')%Z
    /\ (decision d <> "approve" -> trace st' = trace st /\ clock st' = clock st).
Proof.
  intros Hgather _ _ _.
  destruct (orchestrate_deployment_runs W config request st gathered Hgather)
    as (result & st1 & Hrun & Happrove & Hconditional & Hreject).
  destruct (gather_returns W request st st gathered Hgather)
    as (_ & Henvironment & Hversion & Hstrategy & Hhistorical).
  cbv zeta in Hrun, Happrove, Hconditional, Hreject. cbv zeta.
  set (context := set_risk_assessment gathered
                    (RiskAnalyzer.analyze_deployment_risk gathered)) in *.
  set (d := AIDeploymentEngine.make_deployment_decision config context) in *.
  do 4 eexists. split; [exact Hrun |].
  split; [exact Henvironment |].
  split; [exact Hversion |].
  split; [exact Hstrategy |].
  split; [subst context; cbn [historical_data set_risk_assessment];
          rewrite Hhistorical; apply lookup_insert_eq |].
  split; [reflexivity |].
  split; [reflexivity |]. split; [reflexivity |]. split; [reflexivity |].
  split; [reflexivity |].
  cbn [clock trace].
  destruct (decision_dispatch config context)
    as [[Hd _] | [Hd | (Hd & _)]]; fold d in Hd.
  - specialize (Happrove Hd).
    destruct (run_stages_outcomes W config context
                (Orchestrator.deployment_stages context) ∅ st)
      as (result' & st1' & _ & Hpipeline & _ & Hclock & _).
    unfold Orchestrator._execute_autonomous_deployment in Happrove.
    rewrite Hpipeline in Happrove. injection Happrove as <- <-.
    split; [exact Hclock | intros Hne; contradiction].
  - destruct (Hconditional Hd) as [_ ->]. split; [lia | auto].
  - destruct (Hreject Hd) as [_ ->]. split; [lia | auto].
Qed.

(** Scenario B, first orchestration: the record is the only one of the
    history. *)
Lemma orchestration_is_recorded_once_witness :
  let context :=
    set_risk_assessment scenario_b_gathered
      (RiskAnalyzer.analyze_deployment_risk scenario_b_gathered) in
  exists d result st' record,
    Orchestrator.orchestrate_deployment scenario_b full_config
      production_request initial_state
    = (Ok (Orchestrated "deploy-20250101-000000" d result context), st')
    /\ environment context = "production"
    /\ application_version context = "4.0.0"
    /\ deployment_strategy context = "blue-green-with-canary"
    /\ historical_data context !! "total_deployments" = Some (VInt 0)
    /\ deployment_history st' = [record]
    /\ record_deployment_id record = "deploy-20250101-000000"
    /\ record_decision record = d
    /\ record_result record = result
    /\ record_context record = context
    /\ (0 <= clock st')%Z
    /\ (decision d <> "approve" -> trace st' = [] /\ clock st' = 0%Z).
Proof.
  apply (orchestration_is_recorded_once scenario_b full_config
           production_request initial_state scenario_b_gathered).
  - vm_compute; reflexivity.
  - unfold convertible; cbn; lia.
  - unfold convertible; cbn; lia.
  - unfold convertible; cbn; lia.
Defined.

(** X20. The history is append-only and feeds the next decision: recording
    a deployment adds exactly one record at the end, with the given id,
    context, decision and result and the time of the recording; it keeps
    the earlier records in place, invokes no hook and takes no time.  The
    summary computed afterwards reports one deployment more than the one
    computed before, and its three other entries do not depend on the
    history. *)
Theorem recording_appends_one_record (W : Collaborators)
    (deployment_id : string) (context : DeploymentContext)
    (decision : DeploymentDecision) (result : deployment_result)
    (request request' : gmap string string) (st : state) :
  exists st' before after,
    DeploymentHistoryTracker.record_deployment W deployment_id context
      decision result st = (Ok tt, st')
    /\ deployment_history st'
       = deployment_history st
         ++ [ {| record_deployment_id := deployment_id;
                 record_timestamp := isoformat W (clock st);
                 record_context := context;
                 record_decision := decision;
                 record_result := result |} ]
    /\ clock st' = clock st
    /\ trace st' = trace st
    /\ DeploymentHistoryTracker.get_relevant_history request st
       = (Ok before, st)
    /\ DeploymentHistoryTracker.get_relevant_history request' st'
       = (Ok after, st')
    /\ before !! "total_deployments"
       = Some (VInt (Z.of_nat (length (deployment_history st))))
    /\ after !! "total_deployments"
       = Some (VInt (Z.of_nat (length (deployment_history st)) + 1))
    /\ delete "total_deployments" after = delete "total_deployments" before.
Proof.
  do 3 eexists. split; [reflexivity |].
  split; [reflexivity |]. split; [reflexivity |]. split; [reflexivity |].
  split; [reflexivity |]. split; [reflexivity |].
  unfold DeploymentHistoryTracker.relevant_history.
  cbn [deployment_history]. rewrite length_app. cbn [length].
  split; [apply lookup_insert_eq |].
  split.
  - rewrite lookup_insert_eq. do 2 f_equal. lia.
  - rewrite !delete_insert_eq. reflexivity.
Qed.

(** X26. When context gathering raises, because a metric getter or a
    security provider raises an Exception, the orchestration returns the
    error dictionary: the id stamped at the start and the text of the
    exception.  Nothing is recorded, no hook is invoked and no time
    passes.  A coverage getter that raises is such a case: it is the
    first provider consulted and the others are not reached. *)
Theorem provider_failure_is_reported (W : Collaborators) (config : Config.t)
    (request : gmap string string) (st : state) (e : exn) :
  (Orchestrator._gather_deployment_context W request st = (Raise e, st) ->
   Orchestrator.orchestrate_deployment W config request st
   = (Ok (OrchestrationError ("deploy-" +:+ strftime W (clock st))
            (exn_str e)), st))
  /\ (_get_test_coverage W = Raise e ->
      Orchestrator._gather_deployment_context W request st = (Raise e, st)).
Proof.
  split.
  - intros Hgather.
    unfold Orchestrator.orchestrate_deployment, now. unfold bind at 1.
    erewrite bind_ok.
    2:{ apply attempt_result. unfold Orchestrator.orchestrate.
        apply bind_raise. exact Hgather. }
    reflexivity.
  - intros Hcoverage.
    unfold Orchestrator._gather_deployment_context,
      Orchestrator._collect_quality_metrics, bind, lift.
    rewrite Hcoverage. reflexivity.
Qed.

Lemma provider_failure_witness :
  Orchestrator.orchestrate_deployment no_coverage_service full_config
    production_request initial_state
  = (Ok (OrchestrationError "deploy-20250101-000000"
           "coverage service unavailable"), initial_state).
Proof.
  apply (proj1 (provider_failure_is_reported no_coverage_service full_config
                  production_request initial_state
                  (RuntimeError "coverage service unavailable"))).
  apply (proj2 (provider_failure_is_reported no_coverage_service full_config
                  production_request initial_state
                  (RuntimeError "coverage service unavailable"))).
  reflexivity.
Defined.

(** ** Monotonicity of the sub-scores *)

Lemma max_monotone (a b b' : Q) : b <= b' -> Py.max a b <= Py.max a b'.
Proof.
  intros H. unfold Py.max.
  destruct (b >? a) eqn:E, (b' >? a) eqn:E'; reflect_comparisons; lra.
Qed.

Lemma min_monotone (a b b' : Q) : b <= b' -> Py.min a b <= Py.min a b'.
Proof.
  intros H. unfold Py.min.
  destruct (b <? a) eqn:E, (b' <? a) eqn:E'; reflect_comparisons; lra.
Qed.

Lemma inject_Z_monotone (x y : Z) : (x <= y)%Z -> inject_Z x <= inject_Z y.
Proof. intros H. now rewrite <- Zle_Qle. Qed.

(** X21. More vulnerabilities never raise a score.  For vulnerability
    counts inside the range of binary64 (beyond it the functions raise
    OverflowError), with the other fields fixed and in exact arithmetic:
    the quality score does not increase with the vulnerability count of
    the quality metrics and no longer changes from 10 vulnerabilities on;
    the security score does not increase with the vulnerability count of
    the assessment and its penalty stops growing at 5. *)
Theorem vulnerabilities_never_raise_scores
    (coverage quality performance reliability maintainability : Q)
    (score compliance : Q) (threat : RiskLevel) (quantum zero_trust : bool)
    (fewer more : Z) :
  convertible fewer ->
  convertible more ->
  (fewer <= more)%Z ->
  let q v :=
    AIDeploymentEngine._calculate_quality_score
      {| test_coverage := coverage; code_quality_score := quality;
         security_vulnerabilities := v; performance_score := performance;
         reliability_score := reliability;
         maintainability_score := maintainability |} in
  let s v :=
    AIDeploymentEngine._calculate_security_score
      {| vulnerability_count := v; security_score := score;
         compliance_score := compliance; threat_level := threat;
         quantum_security_enabled := quantum;
         zero_trust_validated := zero_trust |} in
  q more <= q fewer
  /\ s more <= s fewer
  /\ ((10 <= fewer)%Z -> q more == q fewer)
  /\ ((5 <= fewer)%Z -> s more == s fewer).
Proof.
  intros _ _ Hle q s.
  pose proof (inject_Z_monotone fewer more Hle) as Hq.
  assert (Hmax : Py.max 0 (1.0 - inject_Z more / 10)
                 <= Py.max 0 (1.0 - inject_Z fewer / 10)).
  { apply max_monotone. constant_divisions. lra. }
  assert (Hmin : Py.min 0.5 (inject_Z fewer * 0.1)
                 <= Py.min 0.5 (inject_Z more * 0.1)).
  { apply min_monotone. lra. }
  split; [| split; [| split]].
  - subst q. unfold AIDeploymentEngine._calculate_quality_score.
    cbn [test_coverage code_quality_score security_vulnerabilities
         performance_score reliability_score].
    apply min_monotone, max_monotone. lra.
  - subst s. unfold AIDeploymentEngine._calculate_security_score.
    cbn [vulnerability_count security_score quantum_security_enabled
         zero_trust_validated].
    apply max_monotone, min_monotone. lra.
  - intros H10.
    assert (H10q : inject_Z 10 <= inject_Z fewer)
      by (apply inject_Z_monotone; exact H10).
    change (inject_Z 10) with 10 in H10q.
    assert (E1 : Py.max 0 (1.0 - inject_Z more / 10) = 0).
    { unfold Py.max. replace (_ >? 0) with false; [reflexivity |].
      symmetry. apply Qgtb_false. constant_divisions. lra. }
    assert (E2 : Py.max 0 (1.0 - inject_Z fewer / 10) = 0).
    { unfold Py.max. replace (_ >? 0) with false; [reflexivity |].
      symmetry. apply Qgtb_false. constant_divisions. lra. }
    subst q. unfold AIDeploymentEngine._calculate_quality_score.
    cbn [test_coverage code_quality_score security_vulnerabilities
         performance_score reliability_score].
    rewrite E1, E2. reflexivity.
  - intros H5.
    assert (H5q : inject_Z 5 <= inject_Z fewer)
      by (apply inject_Z_monotone; exact H5).
    change (inject_Z 5) with 5 in H5q.
    assert (E1 : Py.min 0.5 (inject_Z more * 0.1) = 0.5).
    { unfold Py.min. replace (_ <? 0.5) with false; [reflexivity |].
      symmetry. apply Qltb_false. lra. }
    assert (E2 : Py.min 0.5 (inject_Z fewer * 0.1) = 0.5).
    { unfold Py.min. replace (_ <? 0.5) with false; [reflexivity |].
      symmetry. apply Qltb_false. lra. }
    subst s. unfold AIDeploymentEngine._calculate_security_score.
    cbn [vulnerability_count security_score quantum_security_enabled
         zero_trust_validated].
    rewrite E1, E2. reflexivity.
Qed.

Lemma vulnerabilities_witness :
  let q v :=
    AIDeploymentEngine._calculate_quality_score
      {| test_coverage := 89.5; code_quality_score := 0.92;
         security_vulnerabilities := v; performance_score := 0.88;
         reliability_score := 0.91; maintainability_score := 0.85 |} in
  let s v :=
    AIDeploymentEngine._calculate_security_score
      {| vulnerability_count := v; security_score := 0.95;
         compliance_score := 0.98; threat_level := MEDIUM;
         quantum_security_enabled := true; zero_trust_validated := true |} in
  q 12%Z <= q 3%Z
  /\ s 12%Z <= s 3%Z
  /\ ((10 <= 3)%Z -> q 12%Z == q 3%Z)
  /\ ((5 <= 3)%Z -> s 12%Z == s 3%Z).
Proof.
  apply (vulnerabilities_never_raise_scores 89.5 0.92 0.88 0.91 0.85 0.95 0.98
           MEDIUM true true 3 12);
    unfold convertible; lia.
Defined.

(** ** Performance predictor *)

(** X22. The prediction keeps the error rate at 0.01 or above and the
    availability at 99.99 or below: it reports a higher error rate than
    the current one whenever the current one is under 0.01, and a lower
    availability than the current one whenever the current one exceeds
    99.99; otherwise the predicted error rate is 0.8 times the current one
    or 0.01, and the predicted availability the current one plus 0.1 or
    99.99. *)
Theorem prediction_is_clamped (context : DeploymentContext) :
  let current := performance_metrics context in
  exists predicted_error predicted_availability,
    PerformancePredictorAI.predict_performance context !! "error_rate"
    = Some (VFloat predicted_error)
    /\ PerformancePredictorAI.predict_performance context !! "availability"
       = Some (VFloat predicted_availability)
    /\ 0.01 <= predicted_error
    /\ predicted_availability <= 99.99
    /\ (error_rate current < 0.01 -> error_rate current < predicted_error)
    /\ (99.99 < availability current ->
        predicted_availability < availability current)
    /\ (0.0125 <= error_rate current ->
        predicted_error == error_rate current * 0.8)
    /\ (availability current <= 99.89 ->
        predicted_availability == availability current + 0.1).
Proof.
  cbv zeta. unfold PerformancePredictorAI.predict_performance.
  do 2 eexists.
  split; [rewrite lookup_insert_ne by discriminate;
          rewrite lookup_insert_ne by discriminate;
          apply lookup_insert_eq |].
  split; [rewrite lookup_insert_ne by discriminate;
          rewrite lookup_insert_ne by discriminate;
          rewrite lookup_insert_ne by discriminate;
          apply lookup_singleton_eq |].
  split; [apply max_lower |]. split; [apply min_upper |].
  split; [intros H; eapply Qlt_le_trans; [exact H | apply max_lower] |].
  split; [intros H; eapply Qle_lt_trans; [apply min_upper | exact H] |].
  split.
  - intros H. unfold Py.max.
    destruct (_ >? 0.01) eqn:E; reflect_comparisons; lra.
  - intros H. unfold Py.min.
    destruct (_ <? 99.99) eqn:E; reflect_comparisons; lra.
Qed.

(** ** Rollback dispatch *)

(** X23. The rollback dispatch on an arbitrary strategy dictionary: a
    dictionary without "strategy" raises KeyError before any hook; with
    "targeted" and a "targets" entry the targeted hook receives the
    targets, and without the entry KeyError is raised and no notification
    is sent; any other strategy value, known or not, ends with the
    notification, and an unknown one invokes no rollback hook at all. *)
Theorem rollback_dispatch (context : DeploymentContext)
    (rollback_strategy : gmap string pyval) (st : state) :
  let run := Orchestrator.execute_rollback_strategy context rollback_strategy st in
  (rollback_strategy !! "strategy" = None ->
   run = (Raise (KeyError "strategy"), st))
  /\ (rollback_strategy !! "strategy" = Some (VStr "targeted") ->
      (forall targets,
          rollback_strategy !! "targets" = Some targets ->
          run = (Ok tt,
                 after_events st
                   [TargetedRollback targets;
                    NotifyRollbackCompletion rollback_strategy]))
      /\ (rollback_strategy !! "targets" = None ->
          run = (Raise (KeyError "targets"), st)))
  /\ (forall v,
        rollback_strategy !! "strategy" = Some v ->
        v <> VStr "immediate" -> v <> VStr "gradual" -> v <> VStr "targeted" ->
        run = (Ok tt,
               after_events st [NotifyRollbackCompletion rollback_strategy])).
Proof.
  intros run. subst run.
  unfold Orchestrator.execute_rollback_strategy, bind, lift.
  split; [| split].
  - intros H. unfold Py.getitem. rewrite H. reflexivity.
  - intros H. split; [intros targets Ht | intros Ht];
      unfold Py.getitem; rewrite H; cbn; rewrite Ht.
    + unfold emit, after_events. cbn. now rewrite <- app_assoc.
    + reflexivity.
  - intros v H Hi Hg Ht. unfold Py.getitem at 1. rewrite H.
    destruct v as [| b | z | q | s | l]; try reflexivity.
    repeat (let a := fresh "a" in
            destruct s as [| a s]; [try reflexivity; congruence |];
            destruct a as [[|] [|] [|] [|] [|] [|] [|] [|]];
            try reflexivity).
Qed.

(** X24. Better measurements never lower the performance score: a lower
    p95 response time, a higher throughput, a lower error rate and a
    higher availability give a score at least as high; CPU and memory
    utilisation play no part. *)
Theorem better_metrics_never_lower_performance
    (worse better : PerformanceMetrics) :
  response_time_p95 better <= response_time_p95 worse ->
  (throughput worse <= throughput better)%Z ->
  error_rate better <= error_rate worse ->
  availability worse <= availability better ->
  AIDeploymentEngine._calculate_performance_score worse
  <= AIDeploymentEngine._calculate_performance_score better.
Proof.
  intros Hp95 Hthroughput Herror Havailability.
  unfold AIDeploymentEngine._calculate_performance_score.
  assert (H1 : Py.max 0 (1.0 - response_time_p95 worse / 500)
               <= Py.max 0 (1.0 - response_time_p95 better / 500))
    by (apply max_monotone; constant_divisions; lra).
  assert (H2 : Py.min 1.0 (inject_Z (throughput worse) / 2000)
               <= Py.min 1.0 (inject_Z (throughput better) / 2000)).
  { apply min_monotone.
    pose proof (inject_Z_monotone _ _ Hthroughput). constant_divisions. lra. }
  assert (H3 : Py.max 0 (1.0 - error_rate worse / 1.0)
               <= Py.max 0 (1.0 - error_rate better / 1.0))
    by (apply max_monotone; constant_divisions; lra).
  apply min_monotone, max_monotone.
  revert H1 H2 H3. constant_divisions. intros H1 H2 H3. lra.
Qed.

Lemma better_metrics_witness :
  AIDeploymentEngine._calculate_performance_score
    {| response_time_p95 := 300; throughput := 1500; error_rate := 0.4;
       cpu_utilization := 20; memory_utilization := 30;
       availability := 99.0 |}
  <= AIDeploymentEngine._calculate_performance_score
       (performance_metrics production_context).
Proof.
  apply better_metrics_never_lower_performance; cbn; try lia; lra.
Defined.

(** ** Integers inside the range of binary64 *)

Lemma digits2_size (p : positive) : digits2_pos p = Pos.size p.
Proof. induction p; cbn; congruence. Qed.

Lemma Zdigits2_bound (m k : Z) :
  (0 <= m < 2 ^ k)%Z -> (0 <= k)%Z -> (Zdigits2 m <= k)%Z.
Proof.
  intros [Hm Hk] Hk0. destruct m as [| p | p]; [exact Hk0 | | lia].
  cbn. rewrite digits2_size.
  pose proof (Pos.size_le p) as Hle.
  assert (H : (2 ^ Zpos (Pos.size p) <= 2 * Zpos p)%Z).
  { rewrite <- Pos2Z.inj_pow. change (2 * Zpos p)%Z with (Zpos p~0).
    apply Pos2Z.pos_le_pos. exact Hle. }
  destruct (Z.le_gt_cases (Zpos (Pos.size p)) k) as [|Hgt]; [assumption |].
  exfalso.
  assert (2 ^ (k + 1) <= 2 ^ Zpos (Pos.size p))%Z
    by (apply Z.pow_le_mono_r; lia).
  rewrite Z.pow_add_r in H0 by lia. lia.
Qed.

Lemma shr_1_m (r : shr_record) :
  (0 <= shr_m r)%Z -> shr_m (shr_1 r) = Z.div2 (shr_m r).
Proof.
  destruct r as [m r s]. cbn [shr_m]. intros Hm.
  destruct m as [| [p | p |] | p]; try reflexivity; lia.
Qed.

Lemma iter_shr_1_m (n : positive) (r : shr_record) :
  (0 <= shr_m r)%Z ->
  shr_m (SpecFloat.iter_pos shr_1 n r) = Z.shiftr (shr_m r) (Zpos n).
Proof.
  revert r. induction n as [n IH | n IH |]; intros r Hr; cbn [SpecFloat.iter_pos].
  - assert (H1 : (0 <= shr_m (shr_1 r))%Z).
    { rewrite shr_1_m by assumption. apply Z.div2_nonneg. assumption. }
    assert (H2 : (0 <= shr_m (SpecFloat.iter_pos shr_1 n (shr_1 r)))%Z).
    { rewrite IH by assumption. apply Z.shiftr_nonneg. assumption. }
    rewrite IH, IH, shr_1_m by assumption.
    rewrite Z.div2_spec, !Z.shiftr_shiftr by lia. f_equal. lia.
  - assert (H2 : (0 <= shr_m (SpecFloat.iter_pos shr_1 n r))%Z).
    { rewrite IH by assumption. apply Z.shiftr_nonneg. assumption. }
    rewrite IH, IH by assumption.
    rewrite Z.shiftr_shiftr by lia. f_equal. lia.
  - rewrite shr_1_m by assumption. apply Z.div2_spec.
Qed.

Lemma fexp_binary64 (k : Z) : fexp prec emax k = Z.max (k - 53) (-1074).
Proof. reflexivity. Qed.

Lemma shr_record_of_loc_m (m : Z) (l : location) :
  shr_m (shr_record_of_loc m l) = m.
Proof. destruct l as [| []]; reflexivity. Qed.

(** One alignment step keeps a magnitude below [2 ^ B] below it, and the
    exponent it ends on is the input's or at most [B - 53]. *)
Lemma shr_fexp_bound (B m e : Z) (l : location) :
  (0 <= m < 2 ^ (B - e))%Z -> (e <= B)%Z -> (-1021 <= B)%Z ->
  (0 <= shr_m (fst (shr_fexp prec emax m e l))
   < 2 ^ (B - snd (shr_fexp prec emax m e l)))%Z
  /\ (snd (shr_fexp prec emax m e l) <= Z.max e (B - 53))%Z.
Proof.
  intros Hm He HB. unfold shr_fexp, shr. rewrite fexp_binary64.
  pose proof (Zdigits2_bound m (B - e) Hm ltac:(lia)) as Hd.
  destruct (Z.max (Zdigits2 m + e - 53) (-1074) - e)%Z as [| n | n] eqn:Hn;
    cbn [fst snd]; rewrite ?shr_record_of_loc_m; try (split; [exact Hm | lia]).
  rewrite iter_shr_1_m by (rewrite shr_record_of_loc_m; lia).
  rewrite shr_record_of_loc_m, Z.shiftr_div_pow2 by lia.
  split; [| lia]. split; [apply Z.div_pos; lia |].
  apply Z.div_lt_upper_bound; [lia |].
  rewrite <- Z.pow_add_r by lia.
  replace (Zpos n + (B - (e + Zpos n)))%Z with (B - e)%Z by lia. lia.
Qed.

Lemma round_nearest_even_bound (m : Z) (l : location) :
  (0 <= m)%Z -> (0 <= round_nearest_even m l <= m + 1)%Z.
Proof.
  intros Hm. unfold round_nearest_even.
  destruct l as [| []]; try destruct (Z.even m); lia.
Qed.

Lemma binary_round_aux_in_range (sx : bool) (mx ex : Z) (lx : location)
    (s : bool) :
  (0 <= mx < 2 ^ (1000 - ex))%Z -> (ex <= 971)%Z ->
  binary_round_aux prec emax sx mx ex lx <> S754_infinity s.
Proof.
  intros Hm He. unfold binary_round_aux.
  destruct (shr_fexp_bound 1000 mx ex lx Hm ltac:(lia) ltac:(lia))
    as [Hm1 He1].
  destruct (shr_fexp prec emax mx ex lx) as [mrs' e'] eqn:E1.
  cbn [fst snd] in Hm1, He1.
  pose proof (round_nearest_even_bound (shr_m mrs') (loc_of_shr_record mrs')
                ltac:(lia)) as Hr.
  set (m1 := round_nearest_even (shr_m mrs') (loc_of_shr_record mrs')) in *.
  assert (Hm1' : (0 <= m1 < 2 ^ (1001 - e'))%Z).
  { split; [lia |].
    replace (1001 - e')%Z with (1 + (1000 - e'))%Z by lia.
    rewrite Z.pow_add_r by lia. lia. }
  destruct (shr_fexp_bound 1001 m1 e' loc_Exact Hm1' ltac:(lia) ltac:(lia))
    as [Hm2 He2].
  destruct (shr_fexp prec emax m1 e' loc_Exact) as [mrs'' e''] eqn:E2.
  cbn [fst snd] in Hm2, He2.
  destruct (shr_m mrs'') as [| m | m]; try discriminate.
  change (emax - prec)%Z with 971%Z.
  destruct (Z.leb_spec e'' 971); [discriminate | lia].
Qed.

Lemma iter_xO (m d : positive) :
  Zpos (Pos.iter xO m d) = (Zpos m * 2 ^ Zpos d)%Z.
Proof.
  pose proof (Zpower.shift_pos_correct d m) as H.
  unfold Zpower.shift_pos in H. rewrite H.
  rewrite Zpower.Zpower_pos_nat, Zpower.Zpower_nat_Z, positive_nat_Z. lia.
Qed.

Lemma binary_normalize_in_range (z : Z) (s : bool) :
  (- 2 ^ 1000 < z < 2 ^ 1000)%Z ->
  binary_normalize prec emax z 0 false <> S754_infinity s.
Proof.
  intros Hz.
  assert (H : forall sx m, (Zpos m < 2 ^ 1000)%Z ->
                binary_round prec emax sx m 0 <> S754_infinity s).
  { intros sx m Hm. unfold binary_round, shl_align.
    rewrite fexp_binary64.
    destruct (Z.max (Zpos (digits2_pos m) + 0 - 53) (-1074) - 0)%Z
      as [| d | d] eqn:Hd;
      try (apply binary_round_aux_in_range; [split; [lia | exact Hm] | lia]).
    apply binary_round_aux_in_range; [| lia].
    rewrite iter_xO. split; [lia |].
    replace (1000 - Z.max (Zpos (digits2_pos m) + 0 - 53) (-1074))%Z
      with (1000 + Zpos d)%Z by lia.
    rewrite Z.pow_add_r by lia.
    apply Z.mul_lt_mono_pos_r; [lia | exact Hm]. }
  destruct z as [| m | m]; cbn [binary_normalize]; [discriminate | |].
  - apply H. lia.
  - apply H. lia.
Qed.

Lemma SFdiv_in_range (a : Z) (b : positive) (s : bool) :
  (- 2 ^ 1000 < a < 2 ^ 1000)%Z ->
  SFdiv prec emax (Binary64Engine.integer a) (Binary64Engine.integer (Zpos b))
  <> S754_infinity s.
Proof.
  intros Ha.
  assert (H : forall sx m, (Zpos m < 2 ^ 1000)%Z ->
                SFdiv prec emax (S754_finite sx m 0) (S754_finite false b 0)
                <> S754_infinity s).
  { intros sx m Hm. unfold SFdiv, SFdiv_core_binary.
    rewrite fexp_binary64.
    set (e' := Z.min (Z.max (Zdigits2 (Zpos m) + 0 - (Zdigits2 (Zpos b) + 0)
                             - 53) (-1074)) (0 - 0)).
    set (m' := match (0 - 0 - e')%Z with
               | Z0 => Zpos m
               | Zpos _ => Z.shiftl (Zpos m) (0 - 0 - e')
               | Zneg _ => 0%Z
               end).
    assert (Hm' : (0 <= m' < 2 ^ (1000 - e'))%Z).
    { subst m'. destruct (0 - 0 - e')%Z as [| p | p] eqn:Hs.
      - replace e' with 0%Z by lia. lia.
      - rewrite Z.shiftl_mul_pow2 by lia. split; [lia |].
        replace (1000 - e')%Z with (1000 + Zpos p)%Z by lia.
        rewrite Z.pow_add_r by lia.
        apply Z.mul_lt_mono_pos_r; [lia | exact Hm].
      - split; [lia | apply Z.pow_pos_nonneg; lia]. }
    pose proof (Z_div_mod m' (Zpos b) ltac:(lia)) as Hdiv.
    destruct (Z.div_eucl m' (Zpos b)) as [q r].
    apply binary_round_aux_in_range; [| subst e'; lia].
    destruct Hdiv as [Heq Hr]. split; [nia |].
    apply Z.le_lt_trans with m'; [nia | lia]. }
  destruct a as [| m | m]; cbn [Binary64Engine.integer];
    [discriminate | apply H; lia | apply H; lia].
Qed.

Lemma in_range_returns (message : string) (x : spec_float) :
  (forall s, x <> S754_infinity s) ->
  Binary64Engine.in_range message x = Ok (SF2Prim x).
Proof.
  intros H. destruct x as [| s | |]; try reflexivity.
  now destruct (H s).
Qed.

Lemma of_int_returns (z : Z) :
  convertible z -> exists x, Binary64Engine.of_int z = Ok x.
Proof.
  intros Hz. eexists. apply in_range_returns.
  intros s. apply binary_normalize_in_range. exact Hz.
Qed.

Lemma int_truediv_returns (a : Z) (b : positive) :
  convertible a -> exists x, Binary64Engine.int_truediv a b = Ok x.
Proof.
  intros Ha. eexists. apply in_range_returns.
  intros s. apply SFdiv_in_range. exact Ha.
Qed.

(** X25. With integer counts between -2^1000 and 2^1000 the binary64
    engine always returns: each sub-score function returns a number and
    the decision function returns a decision, whatever the float fields
    hold (NaN and infinities included) and whatever rules are configured.
    The decision is one of approve, conditional and reject; autonomous
    execution is granted exactly to approvals and conditions are attached
    exactly to conditional decisions. *)
Theorem in_range_counts_give_a_decision
    (decision_rules : list Binary64Engine.rule)
    (context : Binary64Engine.DeploymentContext) :
  let quality := Binary64Engine.quality_metrics context in
  let performance := Binary64Engine.performance_metrics context in
  let security := Binary64Engine.security_assessment context in
  convertible (Binary64Engine.security_vulnerabilities quality) ->
  convertible (Binary64Engine.throughput performance) ->
  convertible (Binary64Engine.vulnerability_count security) ->
  exists q p s d,
    Binary64Engine._calculate_quality_score quality = Ok q
    /\ Binary64Engine._calculate_performance_score performance = Ok p
    /\ Binary64Engine._calculate_security_score security = Ok s
    /\ Binary64Engine.make_deployment_decision decision_rules context = Ok d
    /\ (Binary64Engine.decision d = "approve"
        \/ Binary64Engine.decision d = "conditional"
        \/ Binary64Engine.decision d = "reject")
    /\ (Binary64Engine.autonomous_execution d = true
        <-> Binary64Engine.decision d = "approve")
    /\ (Binary64Engine.conditions d <> []
        <-> Binary64Engine.decision d = "conditional").
Proof.
  intros quality performance security Hq Hp Hs.
  destruct (int_truediv_returns _ 10 Hq) as [tenths Htenths].
  destruct (int_truediv_returns _ 2000 Hp) as [ratio Hratio].
  destruct (of_int_returns _ Hs) as [count Hcount].
  unfold Binary64Engine.make_deployment_decision.
  fold quality. fold performance. fold security.
  unfold Binary64Engine._calculate_quality_score,
    Binary64Engine._calculate_performance_score,
    Binary64Engine._calculate_security_score.
  rewrite Htenths, Hratio, Hcount. cbv zeta.
  do 3 eexists.
  destruct (find _ _);
    [| destruct (0.9 <=? _)%float; [| destruct (0.7 <=? _)%float]];
    eexists; (split; [reflexivity |]); (split; [reflexivity |]);
    (split; [reflexivity |]); (split; [reflexivity |]);
    cbn; intuition (try discriminate; try congruence).
Qed.

Lemma in_range_counts_witness :
  exists q p s d,
    Binary64Engine._calculate_quality_score
      (Binary64Engine.quality_metrics scenario_b_binary64) = Ok q
    /\ Binary64Engine._calculate_performance_score
         (Binary64Engine.performance_metrics scenario_b_binary64) = Ok p
    /\ Binary64Engine._calculate_security_score
         (Binary64Engine.security_assessment scenario_b_binary64) = Ok s
    /\ Binary64Engine.make_deployment_decision [one_rule] scenario_b_binary64
       = Ok d
    /\ (Binary64Engine.decision d = "approve"
        \/ Binary64Engine.decision d = "conditional"
        \/ Binary64Engine.decision d = "reject")
    /\ (Binary64Engine.autonomous_execution d = true
        <-> Binary64Engine.decision d = "approve")
    /\ (Binary64Engine.conditions d <> []
        <-> Binary64Engine.decision d = "conditional").
Proof.
  apply (in_range_counts_give_a_decision [one_rule] scenario_b_binary64);
    unfold convertible; cbn; lia.
Defined.
